(** * Burp Git Bridge: the git-backed record store

    A shallow embedding of [burp_git_bridge.py]: the [LogEntry] constructor
    and its MD5 fingerprint, the [GitLog] class that writes entries to and
    reads them from the working copy, the subprocess wrapper, and the
    [GuiLog] table model. *)

From Stdlib Require Import ZArith List String Ascii Bool Lia Permutation Sorted DecimalString DecimalPos DecimalZ.
Import ListNotations.
Open Scope string_scope.
Open Scope Z_scope.
Set Warnings "-register-all".

(** ** Byte strings

    Python 2 [str] values are byte strings; they are modelled as [string]. *)

Definition byte_of_ascii (c : ascii) : Z := Z.of_N (N_of_ascii c).
Definition ascii_of_byte (z : Z) : ascii := ascii_of_N (Z.to_N (z mod 256)).

Fixpoint bytes_of_string (s : string) : list Z :=
  match s with
  | EmptyString => []
  | String c rest => byte_of_ascii c :: bytes_of_string rest
  end.

(** [s[:n]] *)
Definition py_slice_to (n : nat) (s : string) : string := substring 0 n s.

Definition hex_digit (z : Z) : ascii :=
  if z <? 10 then ascii_of_byte (48 + z) else ascii_of_byte (87 + z).

Definition hex_byte (z : Z) : string :=
  String (hex_digit (z / 16)) (String (hex_digit (z mod 16)) EmptyString).

(** ** MD5 (RFC 1321), as [hashlib.md5] computes it *)

Module MD5.

Definition mask32 (x : Z) : Z := Z.land x 4294967295.
Definition add32 (x y : Z) : Z := mask32 (x + y).
Definition not32 (x : Z) : Z := Z.lxor x 4294967295.
Definition rotl32 (x c : Z) : Z :=
  mask32 (Z.lor (Z.shiftl x c) (Z.shiftr x (32 - c))).

Definition K : list Z :=
  [ 3614090360; 3905402710; 606105819; 3250441966;
    4118548399; 1200080426; 2821735955; 4249261313;
    1770035416; 2336552879; 4294925233; 2304563134;
    1804603682; 4254626195; 2792965006; 1236535329;
    4129170786; 3225465664; 643717713; 3921069994;
    3593408605; 38016083; 3634488961; 3889429448;
    568446438; 3275163606; 4107603335; 1163531501;
    2850285829; 4243563512; 1735328473; 2368359562;
    4294588738; 2272392833; 1839030562; 4259657740;
    2763975236; 1272893353; 4139469664; 3200236656;
    681279174; 3936430074; 3572445317; 76029189;
    3654602809; 3873151461; 530742520; 3299628645;
    4096336452; 1126891415; 2878612391; 4237533241;
    1700485571; 2399980690; 4293915773; 2240044497;
    1873313359; 4264355552; 2734768916; 1309151649;
    4149444226; 3174756917; 718787259; 3951481745 ].

Definition S : list Z :=
  [ 7; 12; 17; 22; 7; 12; 17; 22; 7; 12; 17; 22; 7; 12; 17; 22;
    5; 9; 14; 20; 5; 9; 14; 20; 5; 9; 14; 20; 5; 9; 14; 20;
    4; 11; 16; 23; 4; 11; 16; 23; 4; 11; 16; 23; 4; 11; 16; 23;
    6; 10; 15; 21; 6; 10; 15; 21; 6; 10; 15; 21; 6; 10; 15; 21 ].

(** The four chaining words A, B, C, D. *)
Record state := mkState { sA : Z; sB : Z; sC : Z; sD : Z }.

Definition init : state :=
  mkState 1732584193 4023233417 2562383102 271733878.

(** Message padding: a 1 bit, zeros up to 56 mod 64, then the bit length
    as a 64-bit little-endian integer. *)
Fixpoint le_bytes (n : nat) (x : Z) : list Z :=
  match n with
  | O => []
  | Datatypes.S n' => (x mod 256) :: le_bytes n' (x / 256)
  end.

Definition pad (msg : list Z) : list Z :=
  let len := Z.of_nat (List.length msg) in
  let zeros := Z.to_nat ((55 - len) mod 64) in
  msg ++ [128] ++ repeat 0 zeros ++ le_bytes 8 ((len * 8) mod 2 ^ 64).

Fixpoint words_le (n : nat) (bs : list Z) : list Z :=
  match n with
  | O => []
  | Datatypes.S n' =>
      match bs with
      | b0 :: b1 :: b2 :: b3 :: rest =>
          (b0 + 256 * b1 + 65536 * b2 + 16777216 * b3) :: words_le n' rest
      | _ => []
      end
  end.

Definition round_fg (i : Z) (b c d : Z) : Z * Z :=
  if i <? 16 then (Z.lor (Z.land b c) (Z.land (not32 b) d), i)
  else if i <? 32 then (Z.lor (Z.land d b) (Z.land (not32 d) c), (5 * i + 1) mod 16)
  else if i <? 48 then (Z.lxor (Z.lxor b c) d, (3 * i + 5) mod 16)
  else (Z.lxor c (Z.lor b (not32 d)), (7 * i) mod 16).

Definition step (M : list Z) (st : state) (i : Z) : state :=
  let '(f, g) := round_fg i (sB st) (sC st) (sD st) in
  let f' := add32 (add32 (add32 f (sA st)) (nth (Z.to_nat i) K 0))
                  (nth (Z.to_nat g) M 0) in
  mkState (sD st)
          (add32 (sB st) (rotl32 f' (nth (Z.to_nat i) S 0)))
          (sB st)
          (sC st).

Definition rounds : list Z := map Z.of_nat (seq 0 64).

Definition compress (st : state) (chunk : list Z) : state :=
  let M := words_le 16 chunk in
  let st' := fold_left (step M) rounds st in
  mkState (add32 (sA st) (sA st')) (add32 (sB st) (sB st'))
          (add32 (sC st) (sC st')) (add32 (sD st) (sD st')).

Fixpoint chunks (n : nat) (bs : list Z) : list (list Z) :=
  match n with
  | O => []
  | Datatypes.S n' =>
      match bs with
      | [] => []
      | _ => firstn 64 bs :: chunks n' (skipn 64 bs)
      end
  end.

Definition digest (msg : list Z) : list Z :=
  let p := pad msg in
  let st := fold_left compress (chunks (List.length p) p) init in
  le_bytes 4 (sA st) ++ le_bytes 4 (sB st) ++ le_bytes 4 (sC st) ++ le_bytes 4 (sD st).

Definition hexdigest_bytes (msg : list Z) : string :=
  fold_right (fun b acc => hex_byte b ++ acc)%string EmptyString (digest msg).

End MD5.

(** The [hashlib.md5()] object: [update] appends to the fed bytes,
    [hexdigest] hashes all of them. *)
Definition md5_obj := string.
Definition md5_new : md5_obj := "".
Definition md5_update (m : md5_obj) (data : string) : md5_obj := (m ++ data)%string.
Definition md5_hexdigest (m : md5_obj) : string :=
  MD5.hexdigest_bytes (bytes_of_string m).

(** ** Python values and exceptions *)

(** The values a [LogEntry] attribute holds: [None], an [int], a [str] or
    byte array, another [LogEntry] (its [__dict__]), or a Python list. *)
Inductive value :=
| VNone
| VInt (z : Z)
| VStr (s : string)
| VEntry (d : list (string * value))
| VList (l : list value).

(** A [LogEntry] is its [__dict__].  The list order stands for the order in
    which [iteritems()] walks the dict.  Each list is one walk: how the
    walk of a dict relates to the walk of another with other keys is the
    hash table's business, and nothing is said of it. *)
Definition LogEntry := list (string * value).

Inductive exn :=
| Exception (msg : string)
| TypeError
| AttributeError
| UnboundLocalError
| OSError
| IOError.

Inductive result (A : Type) :=
| Ok (a : A)
| Raise (e : exn).
Arguments Ok {A} a.
Arguments Raise {A} e.

(** A [for] loop whose body may raise: the first exception ends the loop. *)
Definition foldM {A B : Type} (f : B -> A -> result B) : list A -> B -> result B :=
  fix go (l : list A) (acc : B) : result B :=
    match l with
    | [] => Ok acc
    | x :: l' =>
        match f acc x with
        | Ok acc' => go l' acc'
        | Raise e => Raise e
        end
    end.

(** *** Dictionaries and directory listings as association lists *)

Section Dict.
Context {A : Type}.

Fixpoint dict_get (k : string) (d : list (string * A)) : option A :=
  match d with
  | [] => None
  | (k', v) :: rest => if (k' =? k)%string then Some v else dict_get k rest
  end.

(** [d[k] = v]: an existing key keeps its place, a new one is added. *)
Fixpoint dict_set (k : string) (v : A) (d : list (string * A)) : list (string * A) :=
  match d with
  | [] => [(k, v)]
  | (k', v') :: rest =>
      if (k' =? k)%string then (k, v) :: rest else (k', v') :: dict_set k v rest
  end.

(** [del d[k]] *)
Fixpoint dict_del (k : string) (d : list (string * A)) : list (string * A) :=
  match d with
  | [] => []
  | (k', v') :: rest =>
      if (k' =? k)%string then rest else (k', v') :: dict_del k rest
  end.

Definition keys (d : list (string * A)) : list string := map fst d.

Definition has_key (k : string) (d : list (string * A)) : bool :=
  existsb (String.eqb k) (keys d).
End Dict.

(** *** Truthiness, [__getitem__] and [str()] *)

(** [if v]: [LogEntry] defines neither [__len__] nor [__nonzero__], so its
    instances are always true. *)
Definition py_truthy (v : value) : bool :=
  match v with
  | VNone => false
  | VInt z => negb (z =? 0)
  | VStr s => negb (s =? "")%string
  | VEntry _ => true
  | VList l => match l with [] => false | _ => true end
  end.

(** [str(n)] for an integer. *)
Definition str_int (z : Z) : string := NilZero.string_of_int (Z.to_int z).

(** What the runtime and the file system decide, not the program: the text
    [str()] gives for a [LogEntry] instance, which defines no [__str__]
    (the default [<module.LogEntry object at 0x...>]), and the place at
    which a newly created name shows up in its directory's listing. *)
Record platform := mkPlatform {
  object_repr : LogEntry -> string;
  dir_slot : string -> list string -> nat
}.

(** The value after
    [if not getattr(v, "__getitem__", False): v = str(v)]:
    strings, byte arrays and lists are left alone, everything else becomes
    its [str()]. *)
Inductive coerced :=
| CStr (s : string)
| CList (l : list value).

Definition coerce_data (P : platform) (v : value) : coerced :=
  match v with
  | VStr s => CStr s
  | VList l => CList l
  | VNone => CStr "None"
  | VInt z => CStr (str_int z)
  | VEntry d => CStr (object_repr P d)
  end.

(** ** [LogEntry.__init__]: the fingerprint *)

(** One turn of [for k, v in self.__dict__.iteritems()].  A non-empty list
    under a name other than ["messages"] reaches [md5.update(v[:2048])] as a
    list, which [hashlib] rejects. *)
Definition hash_field (P : platform) (md5 : md5_obj) (kv : string * value)
  : result md5_obj :=
  let '(k, v) := kv in
  if py_truthy v && negb (k =? "messages")%string then
    match coerce_data P v with
    | CStr s => Ok (md5_update (md5_update md5 k) (py_slice_to 2048 s))
    | CList _ => Raise TypeError
    end
  else Ok md5.

(** The digest the constructor computes from its keyword arguments. *)
Definition fingerprint (P : platform) (kwargs : LogEntry) : result string :=
  match foldM (hash_field P) kwargs md5_new with
  | Ok md5 => Ok (md5_hexdigest md5)
  | Raise e => Raise e
  end.

(** The constructor: [self.__dict__ = kwargs], then [self.md5 = md5.hexdigest()]. *)
Definition LogEntry_init (P : platform) (kwargs : LogEntry) : result LogEntry :=
  match fingerprint P kwargs with
  | Ok h => Ok (dict_set "md5" (VStr h) kwargs)
  | Raise e => Raise e
  end.

(** The fingerprint as the specification words it: the fields are walked in
    sorted order of their names. *)
Fixpoint insert_by_name (kv : string * value) (l : LogEntry) : LogEntry :=
  match l with
  | [] => [kv]
  | kv' :: rest =>
      if (fst kv <=? fst kv')%string then kv :: l else kv' :: insert_by_name kv rest
  end.

Definition sort_by_name (l : LogEntry) : LogEntry :=
  fold_right insert_by_name [] l.

Definition fingerprint_sorted (P : platform) (kwargs : LogEntry) : result string :=
  fingerprint P (sort_by_name kwargs).

(** Two platforms to evaluate the code on.  On the first a directory lists
    its names in the order of their creation, on the second the newest name
    comes first. *)
Definition creation_order : platform :=
  mkPlatform (fun _ => "<__main__.LogEntry object at 0x2>")
             (fun _ names => List.length names).

Definition newest_first : platform :=
  mkPlatform (fun _ => "<__main__.LogEntry object at 0x2>")
             (fun _ _ => O).

(** ** The working copy on disk *)

(** A file holds bytes; a directory lists its names with what they name.
    The order of the entries is the order in which [os.listdir] reports
    them. *)
Inductive node :=
| File (data : string)
| Dir (entries : list (string * node)).

(** A path below the working copy, one component per [os.path.join].  The
    components the program joins are field names (Python keyword names),
    hex digests and decimal numbers, none of which holds a separator. *)
Definition path := list string.

Fixpoint fs_get (p : path) (n : node) : option node :=
  match p with
  | [] => Some n
  | x :: rest =>
      match n with
      | File _ => None
      | Dir es =>
          match dict_get x es with
          | Some child => fs_get rest child
          | None => None
          end
      end
  end.

Definition insert_at {A : Type} (i : nat) (x : A) (l : list A) : list A :=
  firstn i l ++ x :: skipn i l.

(** Bind [name] in a directory: an existing name keeps its place in the
    listing, a new one goes where the file system puts it. *)
Definition dir_link (P : platform) (name : string) (n : node)
  (es : list (string * node)) : list (string * node) :=
  if has_key name es then dict_set name n es
  else insert_at (dir_slot P name (keys es)) (name, n) es.

(** Put [n] at path [p]; the parent directory has to be there. *)
Fixpoint fs_put (P : platform) (p : path) (n : node) (root : node) : option node :=
  match p with
  | [] => None
  | x :: rest =>
      match root with
      | File _ => None
      | Dir es =>
          match rest with
          | [] => Some (Dir (dir_link P x n es))
          | _ :: _ =>
              match dict_get x es with
              | Some child =>
                  match fs_put P rest n child with
                  | Some child' => Some (Dir (dict_set x child' es))
                  | None => None
                  end
              | None => None
              end
          end
      end
  end.

(** ** The process: working copy, git state, remote and console *)

(** What [Popen(...).communicate()] and [returncode] give. *)
Record completed := mkCompleted {
  returncode : Z;
  out : string;
  err : string
}.

(** An entry of a command list: a plain word, or a path below the working
    copy (printed as the joined path). *)
Inductive arg :=
| Word (s : string)
| PathArg (p : path).

(** The coming outcome of a [git pull] or [git push]: what the command
    reports, and what a pull leaves behind where it changes them: the
    files of the working copy, the index, the last commit.  A pull that
    merges changes all three; one that stops at a conflict leaves the
    conflicting files and the unmerged index, and the last commit as it
    was. *)
Record net_event := mkNet {
  net_result : completed;
  net_tree : option node;
  net_index : option (list (string * string));
  net_head : option (list (string * string))
}.

Record world := mkWorld {
  repo_path : option string;          (* self.repo_path *)
  fs : node;                          (* the directory at repo_path *)
  user_name : option string;          (* git config user.name: the identity
                                         set_config gives git, None without one *)
  index : list (string * string);     (* staged content, by path *)
  head : list (string * string);      (* committed content, by path *)
  remote : list net_event;
  console : list string               (* lines printed so far *)
}.

Definition set_fs (n : node) (w : world) : world :=
  mkWorld (repo_path w) n (user_name w) (index w) (head w) (remote w) (console w).
Definition set_index (i : list (string * string)) (w : world) : world :=
  mkWorld (repo_path w) (fs w) (user_name w) i (head w) (remote w) (console w).
Definition set_head (h : list (string * string)) (w : world) : world :=
  mkWorld (repo_path w) (fs w) (user_name w) (index w) h (remote w) (console w).
Definition set_remote (r : list net_event) (w : world) : world :=
  mkWorld (repo_path w) (fs w) (user_name w) (index w) (head w) r (console w).
Definition set_console (c : list string) (w : world) : world :=
  mkWorld (repo_path w) (fs w) (user_name w) (index w) (head w) (remote w) c.

(** Code that reads and changes the world and may raise; what was done
    before an exception stays done. *)
Definition M (A : Type) : Type := world -> result A * world.

Definition ret {A : Type} (a : A) : M A := fun w => (Ok a, w).
Definition raise {A : Type} (e : exn) : M A := fun w => (Raise e, w).
Definition bind {A B : Type} (m : M A) (k : A -> M B) : M B :=
  fun w =>
    match m w with
    | (Ok a, w') => k a w'
    | (Raise e, w') => (Raise e, w')
    end.

Declare Scope py_scope.
Delimit Scope py_scope with py.
Notation "x <- m ;; k" := (bind m (fun x => k))
  (at level 61, m at next level, right associativity) : py_scope.
Notation "m ;;; k" := (bind m (fun _ => k))
  (at level 61, right associativity) : py_scope.
Open Scope py_scope.

Definition get_world : M world := fun w => (Ok w, w).
Definition modify (f : world -> world) : M unit := fun w => (Ok tt, f w).

(** A loop over a list whose body acts on the world. *)
Definition forM_ {A : Type} (f : A -> M unit) : list A -> M unit :=
  fix go (l : list A) : M unit :=
    match l with
    | [] => ret tt
    | x :: l' => f x ;;; go l'
    end.

(** [print(s)] *)
Definition print (s : string) : M unit :=
  modify (fun w => set_console (console w ++ [s]) w).

(** *** [os] and file objects *)

Definition os_path_exists (p : path) : M bool :=
  w <- get_world ;;
  ret (match fs_get p (fs w) with Some _ => true | None => false end).

Definition os_path_isdir_node (n : node) : bool :=
  match n with Dir _ => true | File _ => false end.

(** [os.mkdir(p)]: fails on an existing name and on a missing parent. *)
Definition os_mkdir (P : platform) (p : path) : M unit :=
  w <- get_world ;;
  match fs_get p (fs w) with
  | Some _ => raise OSError
  | None =>
      match fs_put P p (Dir []) (fs w) with
      | Some root => modify (set_fs root)
      | None => raise OSError
      end
  end.

(** [open(p, "wb")] (or ["wt"], ["w"]) followed by [write(data)]: the file
    is created or cut to nothing, then filled.  A directory cannot be
    opened for writing, nor a name in a missing directory. *)
Definition write_file (P : platform) (p : path) (data : string) : M unit :=
  w <- get_world ;;
  match fs_get p (fs w) with
  | Some (Dir _) => raise IOError
  | _ =>
      match fs_put P p (File data) (fs w) with
      | Some root => modify (set_fs root)
      | None => raise IOError
      end
  end.

(** [open(p, "r").read()] *)
Definition read_file (p : path) : M string :=
  w <- get_world ;;
  match fs_get p (fs w) with
  | Some (File data) => ret data
  | _ => raise IOError
  end.

(** *** Printing a command list *)

Definition nl : string := String (ascii_of_nat 10) EmptyString.

Definition dquote : ascii := ascii_of_nat 34.

Fixpoint contains_char (c : ascii) (s : string) : bool :=
  match s with
  | EmptyString => false
  | String c' rest => Ascii.eqb c c' || contains_char c rest
  end.

(** [repr(s)] of a byte string: single quotes unless the string holds one
    and no double quote; the quote and the backslash escaped; tab, newline
    and return by letter; other bytes outside the printable range in
    hexadecimal. *)
Definition repr_char (quote c : ascii) : string :=
  let n := byte_of_ascii c in
  if Ascii.eqb c quote || Ascii.eqb c "\"%char then String "\"%char (String c EmptyString)
  else if n =? 9 then "\t"
  else if n =? 10 then "\n"
  else if n =? 13 then "\r"
  else if (n <? 32) || (127 <=? n) then ("\x" ++ hex_byte n)%string
  else String c EmptyString.

Fixpoint repr_chars (quote : ascii) (s : string) : string :=
  match s with
  | EmptyString => EmptyString
  | String c rest => (repr_char quote c ++ repr_chars quote rest)%string
  end.

Definition py_repr (s : string) : string :=
  let quote :=
    if contains_char "'"%char s && negb (contains_char dquote s)
    then dquote else "'"%char in
  (String quote (repr_chars quote s) ++ String quote EmptyString)%string.

Definition ends_with_slash (s : string) : bool :=
  match get (Nat.pred (String.length s)) s with
  | Some c => Ascii.eqb c "/"%char
  | None => false
  end.

(** [os.path.join(a, b)] for a relative [b]. *)
Definition os_path_join (a b : string) : string :=
  if (a =? "")%string || ends_with_slash a then (a ++ b)%string
  else (a ++ "/" ++ b)%string.

Definition full_path (w : world) (p : path) : string :=
  fold_left os_path_join p
    (match repo_path w with Some r => r | None => EmptyString end).

Definition arg_str (w : world) (a : arg) : string :=
  match a with
  | Word s => s
  | PathArg p => full_path w p
  end.

(** [str(cmd_list)], as ["{}".format(cmd_list)] gives it. *)
Definition str_cmd_list (w : world) (cmd_list : list arg) : string :=
  ("[" ++ String.concat ", " (map (fun a => py_repr (arg_str w a)) cmd_list) ++ "]")%string.

(** ** The external commands *)

(** The key of a path in the index and in the commit. *)
Definition path_key (p : path) : string := String.concat "/" p.

(** Nothing staged: the index holds what the last commit holds. *)
Definition same_content (a b : list (string * string)) : bool :=
  forallb (fun k =>
             match dict_get k a, dict_get k b with
             | Some x, Some y => (x =? y)%string
             | None, None => true
             | _, _ => false
             end) (keys a ++ keys b).

Definition nothing_staged (w : world) : bool := same_content (index w) (head w).

Definition unreachable : completed :=
  mkCompleted 128 EmptyString "fatal: Could not read from remote repository.".

(** The working copy after a pull with the answer [ev]. *)
Definition pulled (ev : net_event) (w : world) : world :=
  mkWorld (repo_path w)
    (match net_tree ev with Some t => t | None => fs w end)
    (user_name w)
    (match net_index ev with Some i => i | None => index w end)
    (match net_head ev with Some h => h | None => head w end)
    (remote w) (console w).

(** The commands [GitLog] issues inside the working copy. *)
Inductive git_cmd :=
| GitAdd (p : path)
| GitCommit (msg : string)
| GitConfigUserName
| GitPull
| GitPushOriginMaster.

Definition parse_cmd (cmd_list : list arg) : option git_cmd :=
  match cmd_list with
  | [Word "git"; Word "add"; PathArg p] => Some (GitAdd p)
  | [Word "git"; Word "commit"; Word "-m"; Word msg] => Some (GitCommit msg)
  | [Word "git"; Word "config"; Word "user.name"] => Some GitConfigUserName
  | [Word "git"; Word "pull"] => Some GitPull
  | [Word "git"; Word "push"; Word "origin"; Word "master"] => Some GitPushOriginMaster
  | _ => None
  end.

(** What git does with them:
    - [git add <file>] stages the file's content and exits 0; a path that
      names no file exits 128;
    - [git commit -m <msg>] exits 128 when git has no identity to commit
      under ("Author identity unknown"), which it checks first; exits 1
      when nothing is staged ("nothing to commit"); and otherwise records
      the index and exits 0;
    - [git config user.name] prints the name and a newline, or exits 1
      when none is set;
    - [git pull] and [git push origin master] report what the remote
      answers; a pull leaves the files, the index and the last commit as
      the answer says, a push leaves them alone. *)
Definition git (c : git_cmd) (w : world) : completed * world :=
  match c with
  | GitAdd p =>
      match fs_get p (fs w) with
      | Some (File data) =>
          (mkCompleted 0 EmptyString EmptyString,
           set_index (dict_set (path_key p) data (index w)) w)
      | _ =>
          (mkCompleted 128 EmptyString
             ("fatal: pathspec '" ++ full_path w p ++ "' did not match any files" ++ nl),
           w)
      end
  | GitCommit msg =>
      match user_name w with
      | None =>
          (mkCompleted 128 EmptyString
             ("Author identity unknown" ++ nl ++ "fatal: unable to auto-detect email address"
              ++ nl), w)
      | Some _ =>
          if nothing_staged w then
            (mkCompleted 1
               ("On branch master" ++ nl ++ "nothing to commit, working tree clean" ++ nl)
               EmptyString, w)
          else
            (mkCompleted 0 ("[master] " ++ msg ++ nl) EmptyString,
             set_head (index w) w)
      end
  | GitConfigUserName =>
      match user_name w with
      | Some name => (mkCompleted 0 (name ++ nl) EmptyString, w)
      | None => (mkCompleted 1 EmptyString EmptyString, w)
      end
  | GitPull =>
      match remote w with
      | ev :: rest => (net_result ev, set_remote rest (pulled ev w))
      | [] => (unreachable, w)
      end
  | GitPushOriginMaster =>
      match remote w with
      | ev :: rest => (net_result ev, set_remote rest w)
      | [] => (unreachable, w)
      end
  end.

(** [subprocess.Popen(cmd_list, cwd=...)] and [communicate()]. *)
Definition popen (cmd_list : list arg) (w : world) : completed * world :=
  match parse_cmd cmd_list with
  | Some c => git c w
  | None => (mkCompleted 1 EmptyString "usage: git <command>", w)
  end.

(** ** [GitLog] *)

(** [_run_subprocess_command(cmd_list, cwd, quiet)].  The working directory
    is the working copy (or its parent for the global settings); the model
    has one working copy, so [cwd] is left out. *)
Definition _run_subprocess_command (cmd_list : list arg) (quiet : bool) : M string :=
  fun w0 =>
    let '(process, w) := popen cmd_list w0 in
    (print ("Subprocess: " ++ str_cmd_list w cmd_list) ;;;
     (if quiet then ret tt
      else print (out process) ;;; print (err process)) ;;;
     if negb (returncode process =? 0) then
       (if quiet then ret tt
        else
          print ("########### Error on call: " ++ str_cmd_list w cmd_list) ;;;
          print (out process) ;;;
          print (err process) ;;;
          print "########### End Error on call") ;;;
       raise (Exception ("Error on call: " ++ str_cmd_list w cmd_list))
     else ret (out process)) w.

(** [whoami()] *)
Definition whoami : M string :=
  _run_subprocess_command [Word "git"; Word "config"; Word "user.name"] false.

(** [os.path.join(self.repo_path, name)]: without a working copy
    ([repo_path] is [None]) or with a name that is no string the join
    fails on a missing string method. *)
Definition join_repo (name : value) : M path :=
  w <- get_world ;;
  match repo_path w, name with
  | Some _, VStr s => ret [s]
  | _, _ => raise AttributeError
  end.

(** [obj.name] *)
Definition getattr (obj : LogEntry) (name : string) : M value :=
  match dict_get name obj with
  | Some v => ret v
  | None => raise AttributeError
  end.

(** [os.path.join(dir, name)] below the working copy. *)
Definition path_join (dir : path) (name : string) : path := (dir ++ [name])%list.

(** One turn of the loop of [write_entry]. *)
Definition write_field (P : platform) (entry_dir : path) (kv : string * value) : M unit :=
  let '(filename, data) := kv in
  let data := if py_truthy data then data else VStr EmptyString in
  let file_path := path_join entry_dir filename in
  (match coerce_data P data with
   | CStr s => write_file P file_path s
   | CList _ => write_file P file_path EmptyString ;;; raise TypeError
   end) ;;;
  _run_subprocess_command [Word "git"; Word "add"; PathArg file_path] false ;;;
  ret tt.

(** [write_entry(entry, entry_dir)].  [entry.__dict__] exists for a
    [LogEntry] only. *)
Definition write_entry (P : platform) (entry : value) (entry_dir : path) : M unit :=
  there <- os_path_exists entry_dir ;;
  (if there then ret tt else os_mkdir P entry_dir) ;;;
  match entry with
  | VEntry d => forM_ (write_field P entry_dir) d
  | _ => raise AttributeError
  end.

(** [add_repeater_entry(entry)] *)
Definition add_repeater_entry (P : platform) (entry : LogEntry) : M unit :=
  md5 <- getattr entry "md5" ;;
  entry_dir <- join_repo md5 ;;
  there <- os_path_exists entry_dir ;;
  (if there then ret tt else os_mkdir P entry_dir) ;;;
  write_entry P (VEntry entry) entry_dir ;;;
  _run_subprocess_command
    [Word "git"; Word "commit"; Word "-m"; Word "Added Repeater entry"] false ;;;
  ret tt.

(** What [for message in messages] walks. *)
Definition py_iter (v : value) : M (list value) :=
  match v with
  | VList l => ret l
  | VStr s => ret (map (fun c => VStr (String c EmptyString)) (list_ascii_of_string s))
  | _ => raise TypeError
  end.

(** The loop over the messages, [i] counting from its first argument. *)
Definition write_messages (P : platform) (messages_dir : path)
  : list value -> nat -> M unit :=
  fix go (messages : list value) (i : nat) : M unit :=
    match messages with
    | [] => ret tt
    | message :: rest =>
        let message_dir := path_join messages_dir (str_int (Z.of_nat i)) in
        there <- os_path_exists message_dir ;;
        (if there then ret tt else os_mkdir P message_dir) ;;;
        write_entry P message message_dir ;;;
        go rest (S i)
    end.

(** [add_scanner_entry(entry)].  The [del] changes the caller's object:
    from here on the entry is the one without ["messages"]. *)
Definition add_scanner_entry (P : platform) (entry : LogEntry) : M unit :=
  md5 <- getattr entry "md5" ;;
  entry_dir <- join_repo md5 ;;
  messages <- getattr entry "messages" ;;
  let entry := dict_del "messages" entry in
  write_entry P (VEntry entry) entry_dir ;;;
  let messages_dir := path_join entry_dir "messages" in
  there <- os_path_exists messages_dir ;;
  (if there then ret tt
   else
     os_mkdir P messages_dir ;;;
     let lpath := path_join messages_dir ".burp-list" in
     write_file P lpath EmptyString ;;;
     _run_subprocess_command [Word "git"; Word "add"; PathArg lpath] false ;;;
     ret tt) ;;;
  items <- py_iter messages ;;
  write_messages P messages_dir items O ;;;
  _run_subprocess_command
    [Word "git"; Word "commit"; Word "-m"; Word "Added scanner entry"] false ;;;
  ret tt.

(** *** Reading the working copy: [entries()] *)

(** [".burp-list" in os.listdir(file_path)] *)
Definition is_list_dir (es : list (string * node)) : bool := has_key ".burp-list" es.

(** [load_entry] and [load_list] of [entries()].  [os.listdir] of a plain
    file raises. *)
Fixpoint load_entry (P : platform) (n : node) : result LogEntry :=
  match n with
  | File _ => Raise OSError
  | Dir es =>
      match LogEntry_init P [] with
      | Raise e => Raise e
      | Ok entry =>
          foldM (fun (entry : LogEntry) (f : string * node) =>
                   let '(filename, child) := f in
                   match child with
                   | Dir ces =>
                       if is_list_dir ces then
                         (* load_list *)
                         match
                           foldM (fun (entries : list value) (g : string * node) =>
                                    let '(fname, c) := g in
                                    if (fname =? ".burp-list")%string then Ok entries
                                    else
                                      match load_entry P c with
                                      | Ok e => Ok (entries ++ [VEntry e])%list
                                      | Raise x => Raise x
                                      end) ces []
                         with
                         | Ok list_entry => Ok (dict_set filename (VList list_entry) entry)
                         | Raise x => Raise x
                         end
                       else
                         match load_entry P child with
                         | Ok sub_entry => Ok (dict_set filename (VEntry sub_entry) entry)
                         | Raise x => Raise x
                         end
                   | File data => Ok (dict_set filename (VStr data) entry)
                   end) es entry
      end
  end.

(** [load_list(entry_path)] on its own. *)
Definition load_list (P : platform) (ces : list (string * node)) : result (list value) :=
  foldM (fun (entries : list value) (g : string * node) =>
           let '(fname, c) := g in
           if (fname =? ".burp-list")%string then Ok entries
           else
             match load_entry P c with
             | Ok e => Ok (entries ++ [VEntry e])%list
             | Raise x => Raise x
             end) ces [].

(** The generator [entries()]: what it yields, and the exception that ends
    it if one does.  An empty or missing [repo_path] yields nothing. *)
Fixpoint entries_walk (P : platform) (es : list (string * node))
  : list LogEntry * option exn :=
  match es with
  | [] => ([], None)
  | (entry_dir, n) :: rest =>
      if (entry_dir =? ".git")%string then entries_walk P rest
      else if negb (os_path_isdir_node n) then entries_walk P rest
      else
        match load_entry P n with
        | Ok entry =>
            let '(more, stop) := entries_walk P rest in (entry :: more, stop)
        | Raise x => ([], Some x)
        end
  end.

Definition entries (P : platform) (w : world) : list LogEntry * option exn :=
  match repo_path w with
  | None => ([], None)
  | Some r =>
      if (r =? "")%string then ([], None)
      else
        match fs w with
        | Dir es => entries_walk P es
        | File _ => ([], Some OSError)
        end
  end.

(** *** [set_description] *)

(** [push()] *)
Definition push : M unit :=
  o <- _run_subprocess_command [Word "git"; Word "pull"] false ;;
  print o ;;;
  o' <- _run_subprocess_command [Word "git"; Word "push"; Word "origin"; Word "master"] false ;;
  print o'.

(** [set_description(entry_hash, description)]: [Some false] is Python's
    [False], [None] the [None] a function returns at its end. *)
Definition set_description (P : platform) (entry_hash description : string)
  : M (option bool) :=
  entry_path <- join_repo (VStr entry_hash) ;;
  let who_file := path_join entry_path "who" in
  let description_file := path_join entry_path "description" in
  who <- read_file who_file ;;
  me <- whoami ;;
  if negb (who =? me)%string then
    print "You cannot edit description entry that you not created (check 'who' field)" ;;;
    ret (Some false)
  else
    write_file P description_file description ;;;
    _run_subprocess_command [Word "git"; Word "add"; PathArg description_file] false ;;;
    _run_subprocess_command
      [Word "git"; Word "commit"; Word "-m"; Word "Edited description entry"] false ;;;
    push ;;;
    ret None.

(** ** [GuiLog]: the table model *)

Inductive table_event :=
| RowsInserted (firstRow lastRow : Z)    (* fireTableRowsInserted *)
| RowsDeleted (firstRow lastRow : Z).    (* fireTableRowsDeleted *)

Record GuiLog := mkGuiLog {
  _log : list LogEntry;          (* the ArrayList *)
  _lock : bool;                  (* true while the Lock is held *)
  fired : list table_event       (* the notifications sent to the table *)
}.

(** How a call ends: it returns, it raises, or it waits for ever for a
    lock that is held. *)
Inductive outcome :=
| Returned
| Raised (e : exn)
| Blocked.

(** [a == b] on attribute values.  Instances compare by identity in
    Python and the model has no identities: two entries are taken as equal
    when their fields are.  The [md5] attribute, the only one compared,
    holds a string. *)
Fixpoint py_eq (a b : value) : bool :=
  match a, b with
  | VNone, VNone => true
  | VInt x, VInt y => x =? y
  | VStr s, VStr t => (s =? t)%string
  | VEntry d, VEntry d' =>
      (fix eq_fields (l l' : list (string * value)) : bool :=
         match l, l' with
         | [], [] => true
         | (k, v) :: r, (k', v') :: r' => (k =? k')%string && py_eq v v' && eq_fields r r'
         | _, _ => false
         end) d d'
  | VList l, VList l' =>
      (fix eq_items (l l' : list value) : bool :=
         match l, l' with
         | [], [] => true
         | v :: r, v' :: r' => py_eq v v' && eq_items r r'
         | _, _ => false
         end) l l'
  | _, _ => false
  end.

(** [clear()] *)
Definition clear (g : GuiLog) : outcome * GuiLog :=
  if _lock g then (Blocked, g)
  else
    let last := Z.of_nat (List.length (_log g)) in
    if 0 <? last then
      (Returned, mkGuiLog [] false (fired g ++ [RowsDeleted 0 (last - 1)]))
    else (Returned, mkGuiLog (_log g) false (fired g)).

(** [add_entry(entry)] *)
Definition add_entry (entry : LogEntry) (g : GuiLog) : outcome * GuiLog :=
  if _lock g then (Blocked, g)
  else
    let row := Z.of_nat (List.length (_log g)) in
    (Returned, mkGuiLog (_log g ++ [entry]) false (fired g ++ [RowsInserted row row])).

(** The loop of [remove_entry] from index [i] on, over the entries not yet
    seen.  It gives the binding of [i] when the loop is left ([last] is the
    binding before this turn, [None] while [i] is unbound) and whether the
    loop was left by [break]. *)
Fixpoint remove_scan (entry : LogEntry) (rest : list LogEntry) (i : nat)
  (last : option nat) : result (option nat * bool) :=
  match rest with
  | [] => Ok (last, false)
  | ei :: rest' =>
      match dict_get "md5" ei with
      | None => Raise AttributeError
      | Some a =>
          match dict_get "md5" entry with
          | None => Raise AttributeError
          | Some b =>
              if py_eq a b then Ok (Some i, true)
              else remove_scan entry rest' (S i) (Some i)
          end
      end
  end.

(** [self._log.remove(i)] with an index: [ArrayList.remove(int)]. *)
Definition remove_at {A : Type} (i : nat) (l : list A) : list A :=
  (firstn i l ++ skipn (S i) l)%list.

(** [remove_entry(entry)].  An exception leaves the method before
    [self._lock.release()]. *)
Definition remove_entry (entry : LogEntry) (g : GuiLog) : outcome * GuiLog :=
  if _lock g then (Blocked, g)
  else
    match remove_scan entry (_log g) O None with
    | Raise e => (Raised e, mkGuiLog (_log g) true (fired g))
    | Ok (bound, found) =>
        let log :=
          match bound, found with
          | Some i, true => remove_at i (_log g)
          | _, _ => _log g
          end in
        match bound with
        | None => (Raised UnboundLocalError, mkGuiLog log true (fired g))
        | Some i =>
            (Returned,
             mkGuiLog log false
               (fired g ++ [RowsDeleted (Z.of_nat i) (Z.of_nat i)]))
        end
    end.

(** ** [Log.reload]: the table follows the working copy *)

Fixpoint add_entries (l : list LogEntry) (g : GuiLog) : outcome * GuiLog :=
  match l with
  | [] => (Returned, g)
  | entry :: rest =>
      match add_entry entry g with
      | (Returned, g') => add_entries rest g'
      | stopped => stopped
      end
  end.

(** [reload()]: every entry the generator yields is added; an exception of
    the generator leaves [reload] after the entries yielded before it. *)
Definition reload (P : platform) (w : world) (g : GuiLog) : outcome * GuiLog :=
  match clear g with
  | (Returned, g0) =>
      let '(yielded, stop) := entries P w in
      match add_entries yielded g0 with
      | (Returned, g1) =>
          match stop with
          | Some e => (Raised e, g1)
          | None => (Returned, g1)
          end
      | stopped => stopped
      end
  | stopped => stopped
  end.

(** ** Notions used to state the properties, and sample inputs *)

Definition without_messages (r : LogEntry) : LogEntry :=
  filter (fun kv => negb (fst kv =? "messages")%string) r.

Fixpoint sorted_by_name (l : LogEntry) : bool :=
  match l with
  | [] => true
  | kv :: rest =>
      match rest with
      | [] => true
      | kv' :: _ => (fst kv <=? fst kv')%string && sorted_by_name rest
      end
  end.

(** The bytes the constructor feeds to the digest for one field: the name,
    then the first 2048 bytes of the value as a string; nothing for a
    field it passes over. *)
Definition field_bytes (P : platform) (kv : string * value) : string :=
  if py_truthy (snd kv) && negb (fst kv =? "messages")%string then
    match coerce_data P (snd kv) with
    | CStr s => fst kv ++ py_slice_to 2048 s
    | CList _ => EmptyString
    end
  else EmptyString.

(** The bytes fed for a whole walk, field after field in the order of the
    walk. *)
Definition walk_bytes (P : platform) (r : LogEntry) : string :=
  fold_right (fun kv rest => field_bytes P kv ++ rest) EmptyString r.

(** A field the constructor cannot hash: a list that is not empty, under a
    name other than [messages]. *)
Definition unhashable (kv : string * value) : bool :=
  match snd kv with
  | VList (_ :: _) => negb (fst kv =? "messages")%string
  | _ => false
  end.

(** The lines a call prints. *)
Definition run_lines (w : world) (cmd_list : list arg) (quiet : bool)
  (process : completed) : list string :=
  let call := "Subprocess: " ++ str_cmd_list w cmd_list in
  let failed := "########### Error on call: " ++ str_cmd_list w cmd_list in
  ([call]
   ++ (if quiet then [] else [out process; err process])
   ++ (if returncode process =? 0 then []
       else if quiet then []
       else [failed; out process; err process; "########### End Error on call"]))%list.

Definition unreachable_host : world :=
  mkWorld (Some "/home/u/.burp-git-bridge/repo") (Dir []) (Some "alice") [] [] 
    [mkNet (mkCompleted 128 EmptyString "ssh: Could not resolve hostname host")
       None None None] [].

Definition rejected_merge : world :=
  mkWorld (Some "/home/u/.burp-git-bridge/repo") (Dir []) (Some "alice") [] [] 
    [mkNet (mkCompleted 1 "CONFLICT (content): Merge conflict in who"
              "Automatic merge failed")
       (Some (Dir [("who", File "<<<<<<< HEAD")]))
       (Some [("who", "ours"); ("who", "theirs")])
       None] [].

Definition commit_cmd (msg : string) : list arg :=
  [Word "git"; Word "commit"; Word "-m"; Word msg].

Definition clean_copy : world :=
  mkWorld (Some "/home/u/.burp-git-bridge/repo") (Dir []) (Some "alice") [] [] [] [].

Definition bobs_entry : world :=
  mkWorld (Some "/home/u/.burp-git-bridge/repo")
    (Dir [("3f6223494ad4b79abda59c2873efe35d",
           Dir [("tool", File "repeater");
                ("who", File (String "b" (String "o" (String "b" nl))));
                ("description", File EmptyString)])])
    (Some "alice") [] [] [] [].

Definition no_match (entry : LogEntry) (ei : LogEntry) : Prop :=
  exists a b,
    dict_get "md5" ei = Some a /\ dict_get "md5" entry = Some b /\ py_eq a b = false.

Definition two_rows : GuiLog :=
  mkGuiLog [[("tool", VStr "repeater"); ("md5", VStr "3f6223494ad4b79abda59c2873efe35d")];
            [("tool", VStr "scanner"); ("md5", VStr "aee0b9286113a035e04c3a64561636e7")]]
           false [].

(** The entry [LogEntry()] builds: no field but the digest of no input. *)
Definition empty_entry : LogEntry := [("md5", VStr (md5_hexdigest md5_new))].

(** What a name in a record directory is read as. *)
Definition load_child (P : platform) (child : node) : result value :=
  match child with
  | File data => Ok (VStr data)
  | Dir ces =>
      if is_list_dir ces then
        match load_list P ces with
        | Ok list_entry => Ok (VList list_entry)
        | Raise x => Raise x
        end
      else
        match load_entry P child with
        | Ok sub_entry => Ok (VEntry sub_entry)
        | Raise x => Raise x
        end
  end.

(** One turn of the loop of [load_entry]. *)
Definition load_field (P : platform) (entry : LogEntry) (f : string * node)
  : result LogEntry :=
  match load_child P (snd f) with
  | Ok v => Ok (dict_set (fst f) v entry)
  | Raise x => Raise x
  end.

(** One turn of the loop of [load_list]. *)
Definition load_item (P : platform) (entries : list value) (g : string * node)
  : result (list value) :=
  if (fst g =? ".burp-list")%string then Ok entries
  else
    match load_entry P (snd g) with
    | Ok e => Ok (entries ++ [VEntry e])%list
    | Raise x => Raise x
    end.


(** The directories [load_entry] gets through: in a list directory every
    name but the sentinel is such a directory, and so is every
    subdirectory that is no list directory. *)
Fixpoint loadable (n : node) : bool :=
  match n with
  | File _ => false
  | Dir es =>
      forallb (fun kv =>
                 match snd kv with
                 | File _ => true
                 | Dir ces =>
                     if is_list_dir ces then
                       forallb (fun g => (fst g =? ".burp-list")%string || loadable (snd g)) ces
                     else loadable (snd kv)
                 end) es
  end.

(** A working copy with two well-formed records and, between them, one
    whose list directory has lost its sentinel. *)
Definition message_dir (host : string) : node :=
  Dir [("tool", File "scanner_message"); ("host", File host)].


(** The same with a plain file among the elements of the list. *)
Definition stray_file : world :=
  mkWorld (Some "/home/u/.burp-git-bridge/repo")
    (Dir [("0a", Dir [("tool", File "repeater"); ("md5", File "0a")]);
          ("0b", Dir [("tool", File "scanner"); ("md5", File "0b");
                      ("messages", Dir [(".burp-list", File EmptyString);
                                        ("0", message_dir "a");
                                        ("notes.txt", File "to do")])]);
          ("0c", Dir [("tool", File "scanner"); ("md5", File "0c");
                      ("messages", Dir [(".burp-list", File EmptyString);
                                        ("0", message_dir "c")])])])
    (Some "alice") [] [] [] [].


(** A record directory whose name is not what its [md5] file holds, and one
    without an [md5] file. *)
Definition renamed_dir : world :=
  mkWorld (Some "/home/u/.burp-git-bridge/repo")
    (Dir [("renamed", Dir [("tool", File "repeater");
                           ("md5", File "3f6223494ad4b79abda59c2873efe35d")]);
          ("bare", Dir [("tool", File "repeater")])])
    (Some "alice") [] [] [] [].

(** A scanner issue with three messages, A, B and C. *)
Definition message_kwargs (host : string) : LogEntry :=
  [("tool", VStr "scanner_message"); ("host", VStr host)].

Definition built (P : platform) (kwargs : LogEntry) : value :=
  match LogEntry_init P kwargs with
  | Ok e => VEntry e
  | Raise _ => VNone
  end.

Definition issue_kwargs (P : platform) : LogEntry :=
  [("tool", VStr "scanner");
   ("messages", VList [built P (message_kwargs "A");
                       built P (message_kwargs "B");
                       built P (message_kwargs "C")])].

(** A Record with a scalar that is no string, a nested Record and a list. *)
Definition mixed_kwargs (P : platform) : LogEntry :=
  [("tool", VStr "scanner");
   ("port", VInt 443);
   ("service", built P [("host", VStr "example.com")]);
   ("messages", VList [built P (message_kwargs "A")])].

(** Put [sub] in the place of what is at path [d]. *)
Fixpoint fs_replace (d : path) (sub : node) (root : node) : node :=
  match d with
  | [] => sub
  | x :: rest =>
      match root with
      | File _ => root
      | Dir es =>
          match dict_get x es with
          | Some child => Dir (dict_set x (fs_replace rest sub child) es)
          | None => root
          end
      end
  end.

Definition is_file (kv : string * node) : Prop :=
  match snd kv with File _ => True | Dir _ => False end.

(** The scalars: [None], integers, strings and byte arrays. *)
Definition scalar (v : value) : Prop :=
  match v with
  | VNone | VInt _ | VStr _ => True
  | VEntry _ | VList _ => False
  end.

(** What the file of a scalar field holds: nothing for an empty value,
    the decimal digits of an integer, the bytes of a string. *)
Definition file_text (v : value) : string :=
  if py_truthy v then
    match v with
    | VStr s => s
    | VInt z => str_int z
    | _ => EmptyString
    end
  else EmptyString.

(** The entries of a directory after [write_entry] has written the scalar
    fields [d] into it. *)
Definition link_fields (P : platform) (d : LogEntry) (es : list (string * node))
  : list (string * node) :=
  fold_left (fun es kv => dir_link P (fst kv) (File (file_text (snd kv))) es) d es.

Definition scalar_fields (m : LogEntry) : Prop := Forall (fun kv => scalar (snd kv)) m.

(** The entries of the list directory after [add_scanner_entry] has
    written the messages [items], numbered from [i], into it. *)
Fixpoint link_messages (P : platform) (items : list LogEntry) (i : nat)
  (es : list (string * node)) : list (string * node) :=
  match items with
  | [] => es
  | m :: rest =>
      let name := str_int (Z.of_nat i) in
      link_messages P rest (S i)
        (dict_set name (Dir (link_fields P m [])) (dir_link P name (Dir []) es))
  end.

(** The message directories in the order of the list. *)
Fixpoint message_dirs (P : platform) (items : list LogEntry) (i : nat)
  : list (string * node) :=
  match items with
  | [] => []
  | m :: rest =>
      (str_int (Z.of_nat i), Dir (link_fields P m [])) :: message_dirs P rest (S i)
  end.

(** The list directory [add_scanner_entry] leaves for the messages
    [items], and the record directory it leaves for the entry [r]. *)
Definition stored_messages (P : platform) (items : list LogEntry) : list (string * node) :=
  link_messages P items O (dir_link P ".burp-list" (File EmptyString) []).

Definition stored_dir (P : platform) (r : LogEntry) (items : list LogEntry)
  : list (string * node) :=
  dict_set "messages" (Dir (stored_messages P items))
    (dir_link P "messages" (Dir []) (link_fields P (dict_del "messages" r) [])).

(** [m'] is what reading back the stored scalar fields of [m] gives: under
    every name of [m] the text of its file, and besides these only what
    [LogEntry()] sets. *)
Definition read_back (m m' : LogEntry) : Prop :=
  forall k,
    dict_get k m'
    = match dict_get k m with
      | Some v => Some (VStr (file_text v))
      | None => dict_get k empty_entry
      end.

Definition not_sentinel (kv : string * node) : bool :=
  negb (fst kv =? ".burp-list")%string.

(** [v] is the entry read from the directory [kv] names. *)
Definition loaded_from (P : platform) (kv : string * node) (v : value) : Prop :=
  exists e, v = VEntry e /\ load_entry P (snd kv) = Ok e.

(** [v] is a read-back of the message [m]. *)
Definition message_read_back (m : LogEntry) (v : value) : Prop :=
  exists m', v = VEntry m' /\ read_back m m'.

(** A scanner issue with scalar fields of every kind and two messages. *)
Definition plain_issue_kwargs (P : platform) : LogEntry :=
  [("tool", VStr "scanner");
   ("port", VInt 443);
   ("description", VStr EmptyString);
   ("issue_detail", VNone);
   ("messages", VList [built P (message_kwargs "A"); built P (message_kwargs "B")])].

Definition plain_message (host md5 : string) : LogEntry :=
  [("tool", VStr "scanner_message"); ("host", VStr host); ("md5", VStr md5)].

Definition plain_messages : list LogEntry :=
  [plain_message "A" "a23a115d3fc0d7c06f803a31629c8ccc";
   plain_message "B" "a45a2530c596245681b360a0ce0eaf4b"].

(** The entry the constructor builds from [plain_issue_kwargs]. *)
Definition plain_issue : LogEntry :=
  [("tool", VStr "scanner");
   ("port", VInt 443);
   ("description", VStr EmptyString);
   ("issue_detail", VNone);
   ("messages", VList (map VEntry plain_messages));
   ("md5", VStr "aee0b9286113a035e04c3a64561636e7")].

(** Induction on a directory tree: a property of every file that passes
    from the entries of a directory to the directory holds of all trees. *)
Fixpoint node_rect' (Q : node -> Prop)
  (Hfile : forall data, Q (File data))
  (Hdir : forall es, Forall (fun kv => Q (snd kv)) es -> Q (Dir es))
  (n : node) : Q n :=
  match n with
  | File data => Hfile data
  | Dir es =>
      Hdir es
        ((fix all (l : list (string * node)) : Forall (fun kv => Q (snd kv)) l :=
            match l with
            | [] => Forall_nil _
            | kv :: l' => Forall_cons kv (node_rect' Q Hfile Hdir (snd kv)) (all l')
            end) es)
  end.

(** ** Further notions used to state properties of the rest of the code *)

(** The characters of [hexdigest()]. *)
Definition is_hex_char (c : ascii) : bool :=
  contains_char c "0123456789abcdef".

Fixpoint all_chars (f : ascii -> bool) (s : string) : bool :=
  match s with
  | EmptyString => true
  | String c rest => f c && all_chars f rest
  end.

(** A field that counts for the fingerprint: its value is true and its
    name is not [messages]. *)
Definition hashed (kv : string * value) : bool :=
  py_truthy (snd kv) && negb (fst kv =? "messages")%string.

(** The row-inserted notifications for [n] rows added from row [first] on. *)
Fixpoint rows_inserted (first : nat) (n : nat) : list table_event :=
  match n with
  | O => []
  | S n' => RowsInserted (Z.of_nat first) (Z.of_nat first) :: rows_inserted (S first) n'
  end.

(** The notification [clear()] sends for a table of [n] rows. *)
Definition rows_cleared (n : nat) : list table_event :=
  match n with
  | O => []
  | S n' => [RowsDeleted 0 (Z.of_nat n')]
  end.

(** The row [ei] has the fingerprint of [entry]. *)
Definition same_md5 (entry : LogEntry) (ei : LogEntry) : Prop :=
  exists a b,
    dict_get "md5" ei = Some a /\ dict_get "md5" entry = Some b /\ py_eq a b = true.

(** The keyword arguments of a Repeater entry, and the entry the
    constructor builds from them. *)
Definition repeater_kwargs : LogEntry :=
  [("tool", VStr "repeater");
   ("host", VStr "example.com");
   ("port", VInt 443);
   ("protocol", VStr "https");
   ("description", VStr EmptyString);
   ("request", VStr "GET / HTTP/1.1");
   ("response", VNone)].

Definition repeater_entry : LogEntry :=
  (repeater_kwargs ++ [("md5", VStr "af9df08a58aa738eadf1f2c2db6d53cc")])%list.

(** A remote that answers a pull or a push with success and changes
    nothing. *)
Definition up_to_date : net_event :=
  mkNet (mkCompleted 0 ("Already up to date." ++ nl) EmptyString) None None None.

(** A pull that stops at a conflict in the description of an entry: the
    file holds the conflict, the index the two sides, unmerged. *)
Definition conflict : net_event :=
  mkNet (mkCompleted 1 ("CONFLICT (content): Merge conflict in 0a/description" ++ nl)
           EmptyString)
    (Some (Dir [("0a", Dir [("description", File "<<<<<<< HEAD")])]))
    (Some [("0a/description", "ours"); ("0a/description", "theirs")])
    None.

(** A working copy with one committed entry of alice's, the remote
    answering twice. *)
Definition alices_entry : world :=
  mkWorld (Some "/home/u/.burp-git-bridge/repo")
    (Dir [("3f6223494ad4b79abda59c2873efe35d",
           Dir [("tool", File "repeater");
                ("who", File ("alice" ++ nl));
                ("description", File "old")])])
    (Some "alice")
    [("3f6223494ad4b79abda59c2873efe35d/tool", "repeater");
     ("3f6223494ad4b79abda59c2873efe35d/who", "alice" ++ nl);
     ("3f6223494ad4b79abda59c2873efe35d/description", "old")]
    [("3f6223494ad4b79abda59c2873efe35d/tool", "repeater");
     ("3f6223494ad4b79abda59c2873efe35d/who", "alice" ++ nl);
     ("3f6223494ad4b79abda59c2873efe35d/description", "old")]
    [up_to_date; up_to_date] [].

(** ** Strings and paths of [GitLog] *)

(** [s.split(sep)] for a separator that is not empty, as every separator
    of the program is: the text is cut at each occurrence of [sep], found
    from left to right, an occurrence starting where the one before ended
    at the earliest.  [skip] counts the characters of a separator still to
    pass over, [cur] is the piece collected so far. *)
Fixpoint split_from (sep : string) (skip : nat) (cur : string) (s : string) : list string :=
  match s with
  | EmptyString => [cur]
  | String c rest =>
      match skip with
      | S n => split_from sep n cur rest
      | O =>
          if String.prefix sep s then
            cur :: split_from sep (Nat.pred (String.length sep)) EmptyString rest
          else split_from sep O (cur ++ String c EmptyString) rest
      end
  end.

Definition py_split (sep s : string) : list string := split_from sep O EmptyString s.

(** [l[i]]: a negative index counts from the end; [None] stands for
    IndexError. *)
Definition py_getitem {A : Type} (l : list A) (i : Z) : option A :=
  let n := Z.of_nat (List.length l) in
  let j := if i <? 0 then i + n else i in
  if (j <? 0) || (n <=? j) then None else nth_error l (Z.to_nat j).

(** [sep in s] *)
Fixpoint occurs (sep s : string) : bool :=
  String.prefix sep s ||
  match s with
  | EmptyString => false
  | String _ rest => occurs sep rest
  end.

(** [_extract_repo_name(repo_uri)] *)
Definition _extract_repo_name (repo_uri : string) : option string :=
  match py_getitem (py_split "/" repo_uri) (-1) with
  | Some tail => py_getitem (py_split ".git" tail) 0
  | None => None
  end.

(** [os.path.join(a, b)]: a [b] that starts at the root replaces [a]. *)
Definition os_path_join_full (a b : string) : string :=
  if String.prefix "/" b then b else os_path_join a b.

(** [self.base_path], from the home directory. *)
Definition base_path (home : string) : string :=
  os_path_join_full home ".burp-git-bridge/".

(** [_generate_path_repo_name(repo_name)] *)
Definition _generate_path_repo_name (home repo_name : string) : string :=
  os_path_join_full (base_path home) repo_name.

(** *** The file of projects and their repositories *)

(** [project_repo_rels]: a project name, or None for a temporary project,
    with a repository address or None; in the order [items()] yields. *)
Definition rels := list (option string * option string).

Definition key_eqb (a b : option string) : bool :=
  match a, b with
  | Some x, Some y => (x =? y)%string
  | None, None => true
  | _, _ => false
  end.

Fixpoint rel_set (k v : option string) (r : rels) : rels :=
  match r with
  | [] => [(k, v)]
  | (k', v') :: rest =>
      if key_eqb k' k then (k', v) :: rest else (k', v') :: rel_set k v rest
  end.

(** ["{}".format(x)] of a string or None. *)
Definition format_opt (o : option string) : string :=
  match o with
  | Some s => s
  | None => "None"
  end.

Definition rel_line (kv : option string * option string) : string :=
  format_opt (fst kv) ++ "," ++ format_opt (snd kv).

(** What [save_current_project_repo()] leaves: the line printed, the
    relations, and the text written to the file. *)
Record saved := mkSaved {
  saved_printed : string;
  saved_rels : rels;
  saved_file : string
}.

(** [save_current_project_repo()] *)
Definition save_current_project_repo (project_name repo_uri : option string) (r : rels)
  : saved :=
  let r' := rel_set project_name repo_uri r in
  mkSaved
    ("saving project_repo_rels file project " ++ format_opt project_name
     ++ " with repo " ++ format_opt repo_uri)
    r'
    (String.concat nl (map rel_line r')).

(** One turn of the loop of [reload_project] over the lines of the file:
    a line that does not unpack into two is reported and passed over. *)
Definition load_line (st : rels * list string) (line : string) : rels * list string :=
  match py_split "," line with
  | [proj_name; repo] => (rel_set (Some proj_name) (Some repo) (fst st), snd st)
  | _ =>
      (fst st,
       (snd st ++ [("Cannot be unpacked file project_repo_path in line " ++ line)%string])%list)
  end.

(** The first part of [reload_project()]: the relations read from the
    file, [None] when there is no file, and the lines printed. *)
Definition load_rels (file : option string) : rels * list string :=
  match file with
  | None => ([], [])
  | Some text => fold_left load_line (py_split nl text) ([], [])
  end.

(** The step of the loop over the scanned keys. *)
Definition add_host_key (lines : list string) (k : string) : list string :=
  if existsb (String.eqb k) lines then lines else (lines ++ [k])%list.

(** The merge of the scanned host keys into [known_hosts] in
    [set_config]: the text written back. *)
Definition merge_known_hosts (hosts keys : string) : string :=
  String.concat nl (fold_left add_host_key (py_split nl keys) (py_split nl hosts)).

(** A string has none of the separators of the relations file. *)
Definition plain (s : string) : bool :=
  negb (contains_char "," s) && negb (contains_char (ascii_of_nat 10) s).

Definition plain_rel (kv : option string * option string) : Prop :=
  plain (format_opt (fst kv)) = true /\ plain (format_opt (snd kv)) = true.

(** The relations as they come back from the file. *)
Definition as_text (kv : option string * option string) : option string * option string :=
  (Some (format_opt (fst kv)), Some (format_opt (snd kv))).

(** ** The summary of a Scanner issue *)

Section Summary.

(** Python's [str()] on the values of the fields, as the format operator
    applies it. *)
Variable py_str : value -> string.

Definition summary_line (kv : string * value) : string :=
  fst kv ++ ": " ++ py_str (snd kv).

(** [key in ["messages", "tool", "md5"]] *)
Definition left_out (key : string) : bool :=
  existsb (String.eqb key) ["messages"; "tool"; "md5"].

(** [getScanIssueSummary(log_entry)]: [sorted] puts the items in the
    order of their names. *)
Definition getScanIssueSummary (log_entry : LogEntry) : string :=
  String.concat (nl ++ nl)
    (map summary_line
       (filter (fun kv => negb (left_out (fst kv))) (sort_by_name log_entry))).

End Summary.

(** The fields the summary shows. *)
Definition shown (r : LogEntry) : LogEntry :=
  filter (fun kv => negb (left_out (fst kv))) r.

(** [str()] of None, an integer and a string, the values of the sample
    below. *)
Definition str_scalar (v : value) : string :=
  match v with
  | VStr s => s
  | VInt z => str_int z
  | _ => "None"
  end.

Definition summary_sample : LogEntry :=
  [("url", VStr "http://example.com/"); ("tool", VStr "scanner");
   ("severity", VStr "High"); ("port", VInt 443)].

Definition summary_sample' : LogEntry :=
  [("port", VInt 443); ("md5", VStr "aee0b9286113a035e04c3a64561636e7");
   ("url", VStr "http://example.com/"); ("severity", VStr "High");
   ("tool", VStr "repeater")].

(** The index after [write_entry] has staged the files of the fields of
    [m] in the directory [d]. *)
Definition stage_fields (d : path) (m : LogEntry) (idx : list (string * string))
  : list (string * string) :=
  fold_left (fun idx kv =>
               dict_set (path_key (path_join d (fst kv))) (file_text (snd kv)) idx)
    m idx.

(** * Properties *)

(** ** MD5 test vectors (RFC 1321 and [hashlib]) *)

Example md5_empty : md5_hexdigest "" = "d41d8cd98f00b204e9800998ecf8427e".
Proof. vm_compute. reflexivity. Qed.

Example md5_abc : md5_hexdigest "abc" = "900150983cd24fb0d6963f7d28e17f72".
Proof. vm_compute. reflexivity. Qed.

Example md5_long :
  md5_hexdigest (string_of_list_ascii (repeat "x"%char 100))
  = "aed563ecafb4bcc5654c597a421547b2".
Proof. vm_compute. reflexivity. Qed.

(** ** Dictionaries *)

Section DictFacts.
Context {A : Type}.
Implicit Types (d : list (string * A)) (k : string) (v : A).

Lemma dict_get_set_same k v d : dict_get k (dict_set k v d) = Some v.
Proof.
  induction d as [|[k' v'] d IH]; simpl.
  - now rewrite String.eqb_refl.
  - destruct (k' =? k)%string eqn:E; simpl.
    + now rewrite String.eqb_refl.
    + now rewrite E.
Qed.

Lemma dict_get_set_other k k' v d :
  k <> k' -> dict_get k' (dict_set k v d) = dict_get k' d.
Proof.
  intros Hne. induction d as [|[k0 v0] d IH]; simpl.
  - destruct (k =? k')%string eqn:E; [apply String.eqb_eq in E; contradiction | reflexivity].
  - destruct (k0 =? k)%string eqn:E; simpl.
    + apply String.eqb_eq in E. subst k0.
      destruct (k =? k')%string eqn:E'; [apply String.eqb_eq in E'; contradiction | reflexivity].
    + destruct (k0 =? k')%string; [reflexivity | exact IH].
Qed.

Lemma has_key_get k d : has_key k d = true <-> exists v, dict_get k d = Some v.
Proof.
  unfold has_key, keys. induction d as [|[k' v'] d IH]; simpl.
  - split; [discriminate | intros [v H]; discriminate].
  - rewrite (String.eqb_sym k k'). destruct (k' =? k)%string; simpl.
    + split; [eauto | reflexivity].
    + exact IH.
Qed.

Lemma has_key_false_get k d : has_key k d = false <-> dict_get k d = None.
Proof.
  destruct (has_key k d) eqn:E.
  - apply has_key_get in E. destruct E as [v E]. rewrite E. split; discriminate.
  - split; [|reflexivity]. intros _.
    destruct (dict_get k d) eqn:G; [|reflexivity].
    assert (has_key k d = true) by (apply has_key_get; eauto). congruence.
Qed.

Lemma dict_get_In k v d : dict_get k d = Some v -> In (k, v) d.
Proof.
  induction d as [|[k' v'] d IH]; simpl; [discriminate|].
  destruct (k' =? k)%string eqn:E.
  - apply String.eqb_eq in E. intros [= ->]. subst. now left.
  - intros H. right. auto.
Qed.

Lemma dict_get_None_keys k d : dict_get k d = None <-> ~ In k (keys d).
Proof.
  unfold keys. induction d as [|[k' v'] d IH]; simpl.
  - tauto.
  - destruct (k' =? k)%string eqn:E.
    + apply String.eqb_eq in E. split; [discriminate | intros H; exfalso; apply H; now left].
    + apply String.eqb_neq in E. rewrite IH. tauto.
Qed.

Lemma In_dict_get k v d : NoDup (keys d) -> In (k, v) d -> dict_get k d = Some v.
Proof.
  unfold keys. induction d as [|[k' v'] d IH]; simpl; [tauto|].
  intros Hnd [H|H].
  - injection H as -> ->. now rewrite String.eqb_refl.
  - inversion Hnd as [|? ? Hnotin Hnd']; subst.
    destruct (k' =? k)%string eqn:E.
    + apply String.eqb_eq in E. subst k'. exfalso. apply Hnotin.
      change k with (fst (k, v)). now apply in_map.
    + auto.
Qed.

Lemma keys_dict_set_present k v d :
  In k (keys d) -> NoDup (keys d) -> keys (dict_set k v d) = keys d.
Proof.
  unfold keys. induction d as [|[k' v'] d IH]; simpl; [tauto|].
  intros Hin Hnd. destruct (k' =? k)%string eqn:E; simpl.
  - apply String.eqb_eq in E. now subst.
  - apply String.eqb_neq in E. inversion Hnd; subst.
    f_equal. apply IH; [|assumption]. destruct Hin; [contradiction | assumption].
Qed.

Lemma keys_dict_set_absent k v d :
  ~ In k (keys d) -> keys (dict_set k v d) = (keys d ++ [k])%list.
Proof.
  unfold keys. induction d as [|[k' v'] d IH]; simpl; [reflexivity|].
  intros Hin. destruct (k' =? k)%string eqn:E; simpl.
  - apply String.eqb_eq in E. exfalso. apply Hin. now left.
  - f_equal. apply IH. tauto.
Qed.

Lemma NoDup_keys_dict_set k v d : NoDup (keys d) -> NoDup (keys (dict_set k v d)).
Proof.
  intros Hnd. destruct (in_dec string_dec k (keys d)) as [Hin|Hin].
  - now rewrite keys_dict_set_present.
  - rewrite keys_dict_set_absent by assumption.
    apply (Permutation_NoDup (l := k :: keys d)).
    + apply Permutation_cons_append.
    + now constructor.
Qed.

Lemma dict_get_del_other k k' d :
  k <> k' -> dict_get k' (dict_del k d) = dict_get k' d.
Proof.
  intros Hne. induction d as [|[k0 v0] d IH]; simpl; [reflexivity|].
  destruct (k0 =? k)%string eqn:E; simpl.
  - apply String.eqb_eq in E. subst k0.
    destruct (k =? k')%string eqn:E'; [apply String.eqb_eq in E'; contradiction | reflexivity].
  - destruct (k0 =? k')%string; [reflexivity | exact IH].
Qed.

Lemma dict_del_incl k d : incl (dict_del k d) d.
Proof.
  induction d as [|[k0 v0] d IH]; simpl; [apply incl_refl|].
  destruct (k0 =? k)%string.
  - apply incl_tl, incl_refl.
  - intros x [Hx|Hx]; [now left | right; now apply IH].
Qed.

Lemma NoDup_keys_dict_del k d : NoDup (keys d) -> NoDup (keys (dict_del k d)).
Proof.
  unfold keys. induction d as [|[k0 v0] d IH]; simpl; [trivial|].
  intros Hnd. inversion Hnd as [|? ? Hnotin Hnd']; subst.
  destruct (k0 =? k)%string; simpl; [assumption|].
  constructor; [|auto].
  intros Hin. apply Hnotin. apply in_map_iff in Hin.
  destruct Hin as [x [Hx Hin]]. apply in_map_iff. exists x. split; [assumption|].
  eapply dict_del_incl; eassumption.
Qed.

Lemma dict_get_del_same k d : NoDup (keys d) -> dict_get k (dict_del k d) = None.
Proof.
  unfold keys. induction d as [|[k0 v0] d IH]; simpl; [reflexivity|].
  intros Hnd. inversion Hnd as [|? ? Hnotin Hnd']; subst.
  destruct (k0 =? k)%string eqn:E; simpl.
  - apply String.eqb_eq in E. subst k0. now apply dict_get_None_keys.
  - rewrite E. auto.
Qed.

End DictFacts.

(** ** The fingerprint *)

Lemma hash_field_messages P md5 v : hash_field P md5 ("messages", v) = Ok md5.
Proof. unfold hash_field. simpl. now rewrite andb_false_r. Qed.

Lemma foldM_hash_without_messages P r md5 :
  foldM (hash_field P) (without_messages r) md5 = foldM (hash_field P) r md5.
Proof.
  revert md5. induction r as [|[k v] r IH]; intros md5; [reflexivity|].
  cbn [without_messages filter fst].
  destruct (k =? "messages")%string eqn:E; cbn [negb].
  - apply String.eqb_eq in E. subst k.
    cbn [foldM]. rewrite hash_field_messages. apply IH.
  - cbn [foldM]. destruct (hash_field P md5 (k, v)); [apply IH | reflexivity].
Qed.

Lemma fingerprint_without_messages P r :
  fingerprint P (without_messages r) = fingerprint P r.
Proof. unfold fingerprint. now rewrite foldM_hash_without_messages. Qed.

Lemma without_messages_set v r :
  has_key "messages" r = true ->
  without_messages (dict_set "messages" v r) = without_messages r.
Proof.
  unfold has_key, keys. induction r as [|[k v0] r IH]; [discriminate|].
  cbn [map fst existsb dict_set].
  rewrite (String.eqb_sym "messages" k).
  destruct (k =? "messages")%string eqn:E; cbn [orb without_messages filter fst].
  - intros _. rewrite E. reflexivity.
  - rewrite E. cbn [negb]. intros H. f_equal. auto.
Qed.

Lemma sort_by_name_sorted l : sorted_by_name l = true -> sort_by_name l = l.
Proof.
  induction l as [|kv rest IH]; [reflexivity|].
  intros H. cbn [sort_by_name fold_right]. fold (sort_by_name rest).
  destruct rest as [|kv' rest'].
  - reflexivity.
  - cbn [sorted_by_name] in H. apply andb_true_iff in H. destruct H as [Hle Hs].
    rewrite (IH Hs). cbn [insert_by_name]. now rewrite Hle.
Qed.

Lemma append_assoc (a b c : string) : ((a ++ b) ++ c = a ++ (b ++ c))%string.
Proof. induction a as [|x a IH]; cbn; [reflexivity | now rewrite IH]. Qed.

Lemma append_nil_r (s : string) : (s ++ EmptyString)%string = s.
Proof. induction s as [|c s IH]; [reflexivity|]. cbn. now rewrite IH. Qed.

(** The loop of the constructor feeds the digest the bytes of the walk, in
    the order of the walk, and stops at the first list it cannot hash. *)
Lemma foldM_hash_walk P r :
  forall md5,
    foldM (hash_field P) r md5
    = if existsb unhashable r then Raise TypeError
      else Ok (md5 ++ walk_bytes P r)%string.
Proof.
  induction r as [|[k v] r IH]; intros md5.
  - cbn. now rewrite append_nil_r.
  - cbn [foldM existsb walk_bytes fold_right]. fold (walk_bytes P r).
    unfold hash_field, unhashable at 1, field_bytes. cbn [fst snd].
    destruct v as [|z|s|d|l]; cbn [py_truthy coerce_data orb andb].
    + apply IH.
    + destruct (negb (z =? 0)); cbn [andb]; [|apply IH].
      destruct (negb (k =? "messages")%string); [|apply IH].
      rewrite IH. unfold md5_update. now rewrite !append_assoc.
    + destruct (negb (s =? "")%string); cbn [andb]; [|apply IH].
      destruct (negb (k =? "messages")%string); [|apply IH].
      rewrite IH. unfold md5_update. now rewrite !append_assoc.
    + destruct (negb (k =? "messages")%string); [|apply IH].
      rewrite IH. unfold md5_update. now rewrite !append_assoc.
    + destruct l as [|x l]; cbn [andb orb]; [apply IH|].
      destruct (negb (k =? "messages")%string); cbn [orb]; [reflexivity | apply IH].
Qed.

(** C1, as amended: the constructor walks the fields in the order in which
    the dict yields them and sorts nothing.  The fingerprint is the digest
    of the bytes of the fields, name then value, one field after the other
    in the order of the walk (and the constructor raises where a field
    holds a list it cannot hash).  It is the digest of the walk in sorted
    order of the names for the Records whose dict already yields the names
    in that order, and not for all: the same fields yielded in another
    order can get another digest. *)
Theorem fingerprint_follows_dict_order (P : platform) :
  (forall r : LogEntry,
      fingerprint P r
      = if existsb unhashable r then Raise TypeError
        else Ok (md5_hexdigest (walk_bytes P r)))
  /\ (forall r : LogEntry,
         sorted_by_name r = true -> fingerprint P r = fingerprint_sorted P r)
  /\ (exists r r' : LogEntry,
         Permutation r r'
         /\ fingerprint P r <> fingerprint P r'
         /\ fingerprint P r <> fingerprint_sorted P r).
Proof.
  split; [|split].
  - intros r. unfold fingerprint. rewrite foldM_hash_walk.
    now destruct (existsb unhashable r).
  - intros r H. unfold fingerprint_sorted. now rewrite sort_by_name_sorted.
  - exists [("tool", VStr "b"); ("host", VStr "a")], [("host", VStr "a"); ("tool", VStr "b")].
    split; [apply perm_swap|]. split; vm_compute; discriminate.
Qed.

Lemma fingerprint_follows_dict_order_witness :
  fingerprint creation_order [("tool", VStr "b"); ("host", VStr "a")]
  = Ok (md5_hexdigest "toolbhosta")
  /\ fingerprint creation_order [("host", VStr "a"); ("tool", VStr "b")]
     = Ok (md5_hexdigest "hostatoolb").
Proof.
  split.
  - apply (proj1 (fingerprint_follows_dict_order creation_order)
             [("tool", VStr "b"); ("host", VStr "a")]).
  - apply (proj1 (fingerprint_follows_dict_order creation_order)
             [("host", VStr "a"); ("tool", VStr "b")]).
Defined.

(** C1 as stated fails: the same two fields, yielded in two orders, get two
    digests, and the one yielded out of order differs from the digest of
    the sorted walk. *)
Lemma fingerprint_depends_on_order :
  Permutation [("host", VStr "a"); ("tool", VStr "b")]
              [("tool", VStr "b"); ("host", VStr "a")]
  /\ fingerprint creation_order [("host", VStr "a"); ("tool", VStr "b")]
     = Ok "3a0b55b2b237d6f5c744e271cceac394"
  /\ fingerprint creation_order [("tool", VStr "b"); ("host", VStr "a")]
     = Ok "9081443dc4c67f2bcd7b1781db0e26c8"
  /\ fingerprint creation_order [("tool", VStr "b"); ("host", VStr "a")]
     <> fingerprint_sorted creation_order [("tool", VStr "b"); ("host", VStr "a")].
Proof.
  split; [apply perm_swap|].
  split; [vm_compute; reflexivity|].
  split; [vm_compute; reflexivity|].
  vm_compute. discriminate.
Qed.

(** C2, as amended: the field the constructor leaves out is the one named
    [messages]; giving it any other value, list or not, keeps the digest. *)
Theorem fingerprint_ignores_messages (P : platform) (r : LogEntry) (v : value) :
  has_key "messages" r = true ->
  fingerprint P (dict_set "messages" v r) = fingerprint P r.
Proof.
  intros H.
  rewrite <- (fingerprint_without_messages P (dict_set "messages" v r)).
  rewrite without_messages_set by assumption.
  apply fingerprint_without_messages.
Qed.

Lemma fingerprint_ignores_messages_witness :
  has_key "messages" [("tool", VStr "scanner"); ("messages", VList [])] = true
  /\ fingerprint creation_order
       (dict_set "messages" (VList [VEntry [("host", VStr "a")]])
          [("tool", VStr "scanner"); ("messages", VList [])])
     = fingerprint creation_order [("tool", VStr "scanner"); ("messages", VList [])].
Proof.
  split; [reflexivity|].
  apply (fingerprint_ignores_messages creation_order
           [("tool", VStr "scanner"); ("messages", VList [])]
           (VList [VEntry [("host", VStr "a")]])).
  reflexivity.
Defined.

(** C2 as stated fails: a list under any other name is not left out.  With
    the list empty the constructor gives a digest, with one element in it
    the constructor raises. *)
Lemma fingerprint_reads_other_lists :
  fingerprint creation_order [("items", VList [])]
  = Ok "d41d8cd98f00b204e9800998ecf8427e"
  /\ fingerprint creation_order (dict_set "items" (VList [VEntry []]) [("items", VList [])])
     = Raise TypeError
  /\ fingerprint creation_order (dict_set "items" (VList [VEntry []]) [("items", VList [])])
     <> fingerprint creation_order [("items", VList [])].
Proof.
  split; [vm_compute; reflexivity|].
  split; [vm_compute; reflexivity|].
  vm_compute. discriminate.
Qed.

(** ** Running code step by step *)

Lemma bind_ok {A B : Type} (m : M A) (k : A -> M B) w a w' :
  m w = (Ok a, w') -> bind m k w = k a w'.
Proof. intros H. unfold bind. now rewrite H. Qed.

Lemma bind_raise {A B : Type} (m : M A) (k : A -> M B) w e w' :
  m w = (Raise e, w') -> bind m k w = (Raise e, w').
Proof. intros H. unfold bind. now rewrite H. Qed.

Lemma join_repo_eq w root s :
  repo_path w = Some root -> join_repo (VStr s) w = (Ok [s], w).
Proof. intros H. unfold join_repo, bind, get_world. now rewrite H. Qed.

Lemma read_file_eq w p data :
  fs_get p (fs w) = Some (File data) -> read_file p w = (Ok data, w).
Proof. intros H. unfold read_file, bind, get_world. now rewrite H. Qed.

Lemma os_path_exists_eq w p :
  os_path_exists p w
  = (Ok (match fs_get p (fs w) with Some _ => true | None => false end), w).
Proof. reflexivity. Qed.

Lemma print_eq s w : print s w = (Ok tt, set_console (console w ++ [s])%list w).
Proof. reflexivity. Qed.

(** ** The subprocess wrapper *)

Lemma set_console_console c w : console (set_console c w) = c.
Proof. reflexivity. Qed.

Lemma popen_repo_path cmd_list w : repo_path (snd (popen cmd_list w)) = repo_path w.
Proof.
  unfold popen. destruct (parse_cmd cmd_list) as [c|]; [|reflexivity].
  destruct c; simpl.
  - destruct (fs_get p (fs w)) as [[|]|]; reflexivity.
  - destruct (user_name w); [|reflexivity]. destruct (nothing_staged w); reflexivity.
  - destruct (user_name w); reflexivity.
  - destruct (remote w) as [|ev rest]; reflexivity.
  - destruct (remote w); reflexivity.
Qed.

Lemma str_cmd_list_repo_path w w' cmd_list :
  repo_path w = repo_path w' -> str_cmd_list w cmd_list = str_cmd_list w' cmd_list.
Proof.
  intros H. unfold str_cmd_list. do 3 f_equal.
  apply map_ext. intros [s|p]; [reflexivity|].
  unfold arg_str, full_path. now rewrite H.
Qed.

Lemma run_subprocess_command_eq cmd_list quiet w :
  _run_subprocess_command cmd_list quiet w
  = ((if returncode (fst (popen cmd_list w)) =? 0
      then Ok (out (fst (popen cmd_list w)))
      else Raise (Exception ("Error on call: " ++ str_cmd_list w cmd_list))),
     set_console
       (console (snd (popen cmd_list w))
        ++ run_lines w cmd_list quiet (fst (popen cmd_list w)))%list
       (snd (popen cmd_list w))).
Proof.
  unfold _run_subprocess_command, run_lines.
  pose proof (popen_repo_path cmd_list w) as Hrp.
  destruct (popen cmd_list w) as [process w1]. cbn [fst snd] in *.
  rewrite (str_cmd_list_repo_path w1 w cmd_list Hrp).
  destruct quiet; destruct (returncode process =? 0);
    unfold bind, print, modify, ret, raise; cbn [negb];
    rewrite ?set_console_console; cbn [app];
    repeat rewrite <- app_assoc; reflexivity.
Qed.

(** C8, as amended: the call gives back the captured standard output
    exactly when the exit status is zero; otherwise it raises an exception
    whose message holds the command list and nothing else.  The captured
    output and error text go to the console, unless [quiet] is set. *)
Theorem run_subprocess_command_outcome (cmd_list : list arg) (quiet : bool) (w : world) :
  let process := fst (popen cmd_list w) in
  let result := _run_subprocess_command cmd_list quiet w in
  fst result
  = (if returncode process =? 0 then Ok (out process)
     else Raise (Exception ("Error on call: " ++ str_cmd_list w cmd_list)))
  /\ ((exists o, fst result = Ok o) <-> returncode process = 0)
  /\ (quiet = false ->
      In (out process) (console (snd result)) /\ In (err process) (console (snd result))).
Proof.
  cbv zeta. rewrite run_subprocess_command_eq. cbn [fst snd].
  split; [reflexivity|]. split.
  - destruct (returncode (fst (popen cmd_list w)) =? 0) eqn:E.
    + apply Z.eqb_eq in E. split; eauto.
    + apply Z.eqb_neq in E. split; [intros [o H]; discriminate | contradiction].
  - intros ->. rewrite set_console_console. unfold run_lines.
    split; apply in_or_app; right; cbn; auto.
Qed.

(** C8 as stated fails: two failed pulls that differ in what they wrote to
    standard output and to standard error raise the same exception, which
    holds the command alone. *)
Lemma exception_holds_command_only :
  fst (_run_subprocess_command [Word "git"; Word "pull"] false unreachable_host)
  = Raise (Exception "Error on call: ['git', 'pull']")
  /\ fst (_run_subprocess_command [Word "git"; Word "pull"] false rejected_merge)
     = Raise (Exception "Error on call: ['git', 'pull']")
  /\ out (fst (popen [Word "git"; Word "pull"] unreachable_host))
     <> out (fst (popen [Word "git"; Word "pull"] rejected_merge))
  /\ err (fst (popen [Word "git"; Word "pull"] unreachable_host))
     <> err (fst (popen [Word "git"; Word "pull"] rejected_merge)).
Proof.
  split; [vm_compute; reflexivity|].
  split; [vm_compute; reflexivity|].
  split; vm_compute; discriminate.
Qed.

(** ** Committing *)

Lemma popen_commit msg w :
  popen (commit_cmd msg) w
  = match user_name w with
    | None =>
        (mkCompleted 128 EmptyString
           ("Author identity unknown" ++ nl ++ "fatal: unable to auto-detect email address"
            ++ nl), w)
    | Some _ =>
        if nothing_staged w then
          (mkCompleted 1
             ("On branch master" ++ nl ++ "nothing to commit, working tree clean" ++ nl)
             EmptyString, w)
        else (mkCompleted 0 ("[master] " ++ msg ++ nl) EmptyString, set_head (index w) w)
    end.
Proof. reflexivity. Qed.

(** C5, as amended: the commit step is not safe with nothing staged.  Git
    then exits with a status that is not zero (status 1 when it has an
    identity to commit under), and the step raises like any other failed
    command; the index, the last commit and the working copy are left as
    they were. *)
Theorem commit_raises_when_nothing_staged (msg : string) (quiet : bool) (w : world) :
  nothing_staged w = true ->
  let result := _run_subprocess_command (commit_cmd msg) quiet w in
  fst result = Raise (Exception ("Error on call: " ++ str_cmd_list w (commit_cmd msg)))
  /\ returncode (fst (popen (commit_cmd msg) w)) <> 0
  /\ (user_name w <> None -> returncode (fst (popen (commit_cmd msg) w)) = 1)
  /\ index (snd result) = index w
  /\ head (snd result) = head w
  /\ fs (snd result) = fs w.
Proof.
  intros Hclean. cbv zeta. rewrite run_subprocess_command_eq, popen_commit, Hclean.
  destruct (user_name w); cbn [fst snd returncode Z.eqb].
  - repeat split; discriminate.
  - repeat split; try discriminate. intros H. now contradiction H.
Qed.

Lemma commit_raises_when_nothing_staged_witness :
  fst (_run_subprocess_command (commit_cmd "Added Repeater entry") false clean_copy)
  = Raise (Exception "Error on call: ['git', 'commit', '-m', 'Added Repeater entry']")
  /\ returncode (fst (popen (commit_cmd "Added Repeater entry") clean_copy)) = 1.
Proof.
  pose proof (commit_raises_when_nothing_staged "Added Repeater entry" false clean_copy
                eq_refl) as H.
  cbv zeta in H. destruct H as [H1 [_ [H3 _]]].
  split; [exact H1 | apply H3; discriminate].
Defined.

(** C5 as stated fails: in a working copy with nothing staged the commit
    step raises.  Sending the same Repeater entry twice runs into it: the
    second [git add]s stage nothing new. *)
Lemma commit_with_nothing_staged_raises :
  nothing_staged clean_copy = true
  /\ fst (_run_subprocess_command (commit_cmd "Added Repeater entry") false clean_copy)
     = Raise (Exception "Error on call: ['git', 'commit', '-m', 'Added Repeater entry']")
  /\ exists entry w,
       LogEntry_init creation_order [("tool", VStr "repeater")] = Ok entry
       /\ add_repeater_entry creation_order entry clean_copy = (Ok tt, w)
       /\ nothing_staged w = true
       /\ fst (add_repeater_entry creation_order entry w)
          = Raise (Exception "Error on call: ['git', 'commit', '-m', 'Added Repeater entry']").
Proof.
  split; [reflexivity|].
  split; [vm_compute; reflexivity|].
  eexists. eexists.
  split; [vm_compute; reflexivity|].
  split; [vm_compute; reflexivity|].
  split; vm_compute; reflexivity.
Qed.

(** ** Editing a description *)

Lemma whoami_eq w :
  whoami w
  = (match user_name w with
     | Some name => Ok (name ++ nl)
     | None =>
         Raise (Exception ("Error on call: "
                           ++ str_cmd_list w [Word "git"; Word "config"; Word "user.name"]))
     end,
     set_console
       (console w
        ++ run_lines w [Word "git"; Word "config"; Word "user.name"] false
             (fst (popen [Word "git"; Word "config"; Word "user.name"] w)))%list
       w).
Proof.
  unfold whoami. rewrite run_subprocess_command_eq.
  change (popen [Word "git"; Word "config"; Word "user.name"] w)
    with (git GitConfigUserName w).
  cbn [git]. destruct (user_name w); reflexivity.
Qed.

(** C9: when the author recorded in the entry's [who] file is not the
    name [whoami()] gives, [set_description] returns [False], raises
    nothing, and leaves the working copy, the index, the last commit and
    the remote as they were. *)
Theorem set_description_denied (P : platform) (entry_hash description : string)
  (w : world) (root who me : string) :
  repo_path w = Some root ->
  fs_get [entry_hash; "who"] (fs w) = Some (File who) ->
  fst (whoami w) = Ok me ->
  who <> me ->
  let result := set_description P entry_hash description w in
  fst result = Ok (Some false)
  /\ fs (snd result) = fs w
  /\ index (snd result) = index w
  /\ head (snd result) = head w
  /\ remote (snd result) = remote w.
Proof.
  intros Hroot Hwho Hme Hne. cbv zeta.
  rewrite whoami_eq in Hme. cbn [fst] in Hme.
  assert (Heq : set_description P entry_hash description w
                = (Ok (Some false),
                   set_console
                     ((console w
                       ++ run_lines w [Word "git"; Word "config"; Word "user.name"] false
                            (fst (popen [Word "git"; Word "config"; Word "user.name"] w)))
                      ++ ["You cannot edit description entry that you not created (check 'who' field)"])%list
                     w)).
  { unfold set_description.
    rewrite (bind_ok _ _ _ _ _ (join_repo_eq w root entry_hash Hroot)).
    rewrite (bind_ok _ _ _ _ _ (read_file_eq w _ who Hwho)).
    destruct (user_name w) as [name|] eqn:Hname; [|discriminate].
    injection Hme as <-.
    erewrite bind_ok; [|rewrite whoami_eq, Hname; reflexivity].
    destruct (who =? name ++ nl)%string eqn:E.
    - apply String.eqb_eq in E. contradiction.
    - cbn [negb]. erewrite bind_ok; [|apply print_eq]. reflexivity. }
  rewrite Heq. repeat split.
Qed.

Lemma set_description_denied_witness :
  fst (set_description creation_order "3f6223494ad4b79abda59c2873efe35d" "mine" bobs_entry)
  = Ok (Some false)
  /\ fs (snd (set_description creation_order "3f6223494ad4b79abda59c2873efe35d" "mine"
                bobs_entry))
     = fs bobs_entry.
Proof.
  pose proof (set_description_denied creation_order
                "3f6223494ad4b79abda59c2873efe35d" "mine" bobs_entry
                "/home/u/.burp-git-bridge/repo"
                (String "b" (String "o" (String "b" nl)))
                (String "a" (String "l" (String "i" (String "c" (String "e" nl)))))
                eq_refl eq_refl eq_refl) as H.
  cbv zeta in H.
  destruct H as [H1 [H2 _]]; [discriminate|].
  split; assumption.
Defined.

(** ** Removing a row from the table *)

Lemma remove_scan_no_match entry rest :
  Forall (no_match entry) rest ->
  forall i last,
    remove_scan entry rest i last
    = Ok (match rest with
          | [] => last
          | _ :: _ => Some (i + List.length rest - 1)%nat
          end, false).
Proof.
  induction 1 as [|ei rest Hei Hrest IH]; intros i last; [reflexivity|].
  destruct Hei as [a [b [Ha [Hb Hab]]]].
  cbn [remove_scan]. rewrite Ha, Hb, Hab, IH.
  destruct rest as [|ej rest']; cbn [List.length]; do 3 f_equal; lia.
Qed.

(** C10: [remove_entry] with an entry whose fingerprint is that of no row.
    With rows in the table the call returns, the rows are left as they
    were, and one row-deleted notification is fired for the index of the
    last row, the last one scanned.  With no rows the loop index was never
    bound: the call raises, fires nothing, and the lock stays held. *)
Theorem remove_entry_without_match (entry : LogEntry) (g : GuiLog) :
  _lock g = false ->
  Forall (no_match entry) (_log g) ->
  (_log g <> [] ->
   remove_entry entry g
   = (Returned,
      mkGuiLog (_log g) false
        (fired g ++ [RowsDeleted (Z.of_nat (List.length (_log g) - 1))
                                 (Z.of_nat (List.length (_log g) - 1))])%list))
  /\ (_log g = [] ->
      remove_entry entry g = (Raised UnboundLocalError, mkGuiLog [] true (fired g))).
Proof.
  intros Hlock Hno. unfold remove_entry. rewrite Hlock.
  rewrite (remove_scan_no_match entry (_log g) Hno).
  destruct (_log g) as [|e0 rest].
  - split; [intros H; now contradiction H | reflexivity].
  - split; [|discriminate]. intros _. cbn [List.length Nat.add]. reflexivity.
Qed.

Lemma remove_entry_without_match_witness :
  remove_entry [("md5", VStr "d41d8cd98f00b204e9800998ecf8427e")] two_rows
  = (Returned, mkGuiLog (_log two_rows) false [RowsDeleted 1 1]).
Proof.
  refine (proj1 (remove_entry_without_match
                   [("md5", VStr "d41d8cd98f00b204e9800998ecf8427e")] two_rows
                   eq_refl _) _).
  - repeat constructor; eexists; eexists; repeat split; reflexivity.
  - discriminate.
Defined.

(** ** Reading the working copy *)

Lemma LogEntry_init_empty P : LogEntry_init P [] = Ok empty_entry.
Proof. reflexivity. Qed.

Lemma foldM_ext {A B : Type} (f g : B -> A -> result B) :
  (forall acc x, f acc x = g acc x) ->
  forall l acc, foldM f l acc = foldM g l acc.
Proof.
  intros H. induction l as [|x l IH]; intros acc; [reflexivity|].
  cbn [foldM]. rewrite H. destruct (g acc x); [apply IH | reflexivity].
Qed.

Lemma load_list_eq P ces : load_list P ces = foldM (load_item P) ces [].
Proof.
  unfold load_list. apply foldM_ext. intros acc [fname c]. reflexivity.
Qed.

Lemma load_entry_Dir P es : load_entry P (Dir es) = foldM (load_field P) es empty_entry.
Proof.
  cbn [load_entry]. rewrite LogEntry_init_empty.
  apply foldM_ext. intros entry [filename child].
  unfold load_field, load_child. cbn [fst snd].
  destruct child as [data|ces]; [reflexivity|].
  destruct (is_list_dir ces).
  - fold (load_list P ces). destruct (load_list P ces); reflexivity.
  - destruct (load_entry P (Dir ces)); reflexivity.
Qed.

Lemma load_entry_File P data : load_entry P (File data) = Raise OSError.
Proof. reflexivity. Qed.

(** A loaded entry holds, under each name of the directory, what that name
    was read as, and besides these what [LogEntry()] had put in it. *)
Lemma foldM_load_field_get P es :
  NoDup (keys es) ->
  forall entry r, foldM (load_field P) es entry = Ok r ->
  forall k,
    dict_get k r
    = match dict_get k es with
      | Some child =>
          match load_child P child with Ok v => Some v | Raise _ => None end
      | None => dict_get k entry
      end.
Proof.
  unfold keys. induction es as [|[f c] es IH]; intros Hnd entry r Hr k.
  - cbn in Hr. injection Hr as <-. reflexivity.
  - cbn [map fst] in Hnd. inversion Hnd as [|? ? Hnotin Hnd']; subst.
    cbn [foldM] in Hr. unfold load_field at 1 in Hr. cbn [fst snd] in Hr.
    destruct (load_child P c) as [v|x] eqn:Hc; [|discriminate].
    rewrite (IH Hnd' _ _ Hr k). cbn [dict_get].
    destruct (f =? k)%string eqn:E.
    + apply String.eqb_eq in E. subst k.
      apply dict_get_None_keys in Hnotin. rewrite Hnotin, Hc.
      apply dict_get_set_same.
    + apply String.eqb_neq in E.
      destruct (dict_get k es); [reflexivity|].
      now apply dict_get_set_other.
Qed.

(** C7, as amended: the [md5] field of a Record read back from a directory
    is the content of the file named [md5] in that directory, the file
    [write_entry] wrote for the attribute; a directory with no such name
    gives the digest of no input, which the constructor had set.  The name
    of the directory is not read. *)
Theorem loaded_md5_is_file_content (P : platform) (es : list (string * node))
  (r : LogEntry) :
  NoDup (keys es) ->
  load_entry P (Dir es) = Ok r ->
  (forall data, dict_get "md5" es = Some (File data) ->
                dict_get "md5" r = Some (VStr data))
  /\ (dict_get "md5" es = None ->
      dict_get "md5" r = Some (VStr (md5_hexdigest md5_new))).
Proof.
  intros Hnd Hr. rewrite load_entry_Dir in Hr.
  pose proof (foldM_load_field_get P es Hnd _ _ Hr "md5") as H.
  split.
  - intros data Hd. now rewrite H, Hd.
  - intros Hd. now rewrite H, Hd.
Qed.

Lemma loaded_md5_is_file_content_witness :
  dict_get "md5" [("md5", VStr "3f6223494ad4b79abda59c2873efe35d"); ("tool", VStr "repeater")]
  = Some (VStr "3f6223494ad4b79abda59c2873efe35d").
Proof.
  refine (proj1 (loaded_md5_is_file_content creation_order
                   [("tool", File "repeater");
                    ("md5", File "3f6223494ad4b79abda59c2873efe35d")]
                   [("md5", VStr "3f6223494ad4b79abda59c2873efe35d");
                    ("tool", VStr "repeater")] _ _) _ _).
  - repeat constructor; simpl; intuition discriminate.
  - vm_compute. reflexivity.
  - reflexivity.
Defined.

(** C7 as stated fails: the directory named [renamed] is read as a Record
    whose fingerprint is what its [md5] file holds, and the one named
    [bare], which has no such file, as a Record with the digest of no
    input. *)
Lemma loaded_md5_is_not_directory_name :
  entries creation_order renamed_dir
  = ([[("md5", VStr "3f6223494ad4b79abda59c2873efe35d"); ("tool", VStr "repeater")];
      [("md5", VStr "d41d8cd98f00b204e9800998ecf8427e"); ("tool", VStr "repeater")]],
     None)
  /\ VStr "3f6223494ad4b79abda59c2873efe35d" <> VStr "renamed"
  /\ VStr "d41d8cd98f00b204e9800998ecf8427e" <> VStr "bare".
Proof.
  split; [vm_compute; reflexivity|].
  split; discriminate.
Qed.

(** *** Every directory is loaded *)

Lemma loadable_loads P n :
  (loadable n = true -> exists r, load_entry P n = Ok r)
  /\ match n with
     | File _ => True
     | Dir ces =>
         forallb (fun g => (fst g =? ".burp-list")%string || loadable (snd g)) ces = true ->
         forall acc, exists l, foldM (load_item P) ces acc = Ok l
     end.
Proof.
  induction n as [data|es IH] using node_rect'.
  - split; [discriminate | trivial].
  - split.
    + intros Hl. rewrite load_entry_Dir. generalize empty_entry.
      cbn [loadable] in Hl. induction IH as [|[f c] es [IHa IHb] _ IHes]; intros entry.
      * cbn. eauto.
      * cbn [forallb] in Hl. apply andb_true_iff in Hl. destruct Hl as [Hc Hes].
        cbn [snd] in *.
        assert (Hv : exists v, load_child P c = Ok v).
        { destruct c as [data|ces]; cbn [load_child]; [eauto|].
          destruct (is_list_dir ces).
          - rewrite load_list_eq. destruct (IHb Hc []) as [l ->]. eauto.
          - destruct (IHa Hc) as [r ->]. eauto. }
        destruct Hv as [v Hv]. cbn [foldM]. unfold load_field at 1. cbn [fst snd].
        rewrite Hv. apply IHes. exact Hes.
    + intros Hl. induction IH as [|[f c] es [IHa _] _ IHes]; intros acc.
      * cbn. eauto.
      * cbn [forallb] in Hl. apply andb_true_iff in Hl. destruct Hl as [Hc Hes].
        cbn [fst snd] in *. cbn [foldM]. unfold load_item at 1. cbn [fst snd].
        destruct (f =? ".burp-list")%string; [now apply IHes|].
        cbn [orb] in Hc. destruct (IHa Hc) as [r ->]. now apply IHes.
Qed.






(** ** The directory tree *)

Local Open Scope list_scope.

Lemma dict_set_set {A : Type} k (a b : A) d : dict_set k b (dict_set k a d) = dict_set k b d.
Proof.
  induction d as [|[k' v'] d IH]; simpl.
  - now rewrite String.eqb_refl.
  - destruct (k' =? k)%string eqn:E; simpl.
    + now rewrite String.eqb_refl.
    + now rewrite E, IH.
Qed.

Lemma dict_get_app {A : Type} k (l1 l2 : list (string * A)) :
  dict_get k (l1 ++ l2)
  = match dict_get k l1 with Some v => Some v | None => dict_get k l2 end.
Proof.
  induction l1 as [|[k' v'] l1 IH]; simpl; [reflexivity|].
  destruct (k' =? k)%string; [reflexivity | exact IH].
Qed.

Lemma insert_at_perm {A : Type} i (x : A) l : Permutation (x :: l) (insert_at i x l).
Proof.
  unfold insert_at. rewrite <- (firstn_skipn i l) at 1. apply Permutation_middle.
Qed.

Lemma dict_get_insert_at_other {A : Type} i k k' (v : A) d :
  k <> k' -> dict_get k' (insert_at i (k, v) d) = dict_get k' d.
Proof.
  intros Hne. unfold insert_at. rewrite <- (firstn_skipn i d) at 3.
  rewrite !dict_get_app. cbn [dict_get].
  destruct (k =? k')%string eqn:E; [apply String.eqb_eq in E; contradiction|].
  reflexivity.
Qed.

Lemma dict_get_insert_at_same {A : Type} i k (v : A) d :
  dict_get k d = None -> dict_get k (insert_at i (k, v) d) = Some v.
Proof.
  intros Hnone. unfold insert_at. rewrite <- (firstn_skipn i d) in Hnone.
  rewrite dict_get_app in *. cbn [dict_get]. rewrite String.eqb_refl.
  destruct (dict_get k (firstn i d)); [discriminate | reflexivity].
Qed.

Lemma dir_link_fresh P k n es :
  dict_get k es = None ->
  dir_link P k n es = insert_at (dir_slot P k (keys es)) (k, n) es.
Proof.
  intros H. unfold dir_link. apply has_key_false_get in H. now rewrite H.
Qed.

Lemma dict_get_dir_link_same P k n es : dict_get k (dir_link P k n es) = Some n.
Proof.
  unfold dir_link. destruct (has_key k es) eqn:E.
  - apply dict_get_set_same.
  - apply dict_get_insert_at_same. now apply has_key_false_get.
Qed.

Lemma dict_get_dir_link_other P k k' n es :
  k <> k' -> dict_get k' (dir_link P k n es) = dict_get k' es.
Proof.
  intros Hne. unfold dir_link. destruct (has_key k es).
  - now apply dict_get_set_other.
  - now apply dict_get_insert_at_other.
Qed.

Lemma dir_link_perm P k n es :
  dict_get k es = None -> Permutation ((k, n) :: es) (dir_link P k n es).
Proof. intros H. rewrite dir_link_fresh by assumption. apply insert_at_perm. Qed.

Lemma NoDup_keys_dir_link P k n es :
  NoDup (keys es) -> NoDup (keys (dir_link P k n es)).
Proof.
  intros Hnd. destruct (dict_get k es) eqn:E.
  - unfold dir_link.
    assert (has_key k es = true) as -> by (apply has_key_get; eauto).
    now apply NoDup_keys_dict_set.
  - apply (Permutation_NoDup (l := keys ((k, n) :: es))).
    + unfold keys. apply Permutation_map. now apply dir_link_perm.
    + cbn. constructor; [now apply dict_get_None_keys | assumption].
Qed.

Lemma Forall_dict_set {A : Type} (Q : string * A -> Prop) k v d :
  Q (k, v) -> Forall Q d -> Forall Q (dict_set k v d).
Proof.
  intros Hq. induction 1 as [|[k' v'] d Hx Hd IH]; simpl.
  - constructor; [assumption | constructor].
  - destruct (k' =? k)%string; constructor; assumption.
Qed.

Lemma Forall_dir_link (Q : string * node -> Prop) P k n es :
  Q (k, n) -> Forall Q es -> Forall Q (dir_link P k n es).
Proof.
  intros Hq Hes. unfold dir_link. destruct (has_key k es).
  - now apply Forall_dict_set.
  - eapply Permutation_Forall; [apply insert_at_perm|]. now constructor.
Qed.

Lemma fs_get_app d p root :
  fs_get (d ++ p) root
  = match fs_get d root with Some sub => fs_get p sub | None => None end.
Proof.
  revert root. induction d as [|x d IH]; intros root; [reflexivity|].
  cbn [app fs_get]. destruct root as [data|es]; [reflexivity|].
  destruct (dict_get x es); [apply IH | reflexivity].
Qed.

Lemma fs_get_replace d sub root old :
  fs_get d root = Some old -> fs_get d (fs_replace d sub root) = Some sub.
Proof.
  revert root. induction d as [|x d IH]; intros root H; [reflexivity|].
  cbn [fs_get fs_replace] in *. destruct root as [data|es]; [discriminate|].
  destruct (dict_get x es) as [child|] eqn:E; [|discriminate].
  cbn [fs_get]. rewrite dict_get_set_same. now apply IH.
Qed.

Lemma fs_replace_replace d a b root old :
  fs_get d root = Some old ->
  fs_replace d b (fs_replace d a root) = fs_replace d b root.
Proof.
  revert root. induction d as [|x d IH]; intros root H; [reflexivity|].
  cbn [fs_get fs_replace] in *. destruct root as [data|es]; [discriminate|].
  destruct (dict_get x es) as [child|] eqn:E; [|discriminate].
  cbn [fs_replace]. rewrite dict_get_set_same, dict_set_set. now rewrite IH.
Qed.

Lemma dict_set_same {A : Type} k (v : A) d : dict_get k d = Some v -> dict_set k v d = d.
Proof.
  induction d as [|[k' v'] d IH]; [discriminate|].
  cbn [dict_get dict_set]. destruct (k' =? k)%string eqn:E.
  - apply String.eqb_eq in E. subst k'. now intros [= ->].
  - intros H. now rewrite IH.
Qed.

Lemma fs_replace_same d root sub : fs_get d root = Some sub -> fs_replace d sub root = root.
Proof.
  revert root. induction d as [|x d IH]; intros root H.
  - cbn in *. now injection H as ->.
  - cbn [fs_get fs_replace] in *. destruct root as [data|es]; [reflexivity|].
    destruct (dict_get x es) as [child|] eqn:E; [|reflexivity].
    rewrite (IH child H). now rewrite dict_set_same.
Qed.

Lemma fs_replace_app d p sub root here :
  fs_get d root = Some here ->
  fs_replace (d ++ p) sub root = fs_replace d (fs_replace p sub here) root.
Proof.
  revert root. induction d as [|x d IH]; intros root H.
  - cbn in H. injection H as ->. reflexivity.
  - cbn [app fs_get fs_replace] in *. destruct root as [data|es]; [discriminate|].
    destruct (dict_get x es) as [child|] eqn:E; [|discriminate].
    now rewrite (IH child H).
Qed.

Lemma fs_replace_child k sub es old :
  dict_get k es = Some old ->
  fs_replace [k] sub (Dir es) = Dir (dict_set k sub es).
Proof. intros H. cbn [fs_replace]. now rewrite H. Qed.

Lemma fs_put_child P d k n root es :
  fs_get d root = Some (Dir es) ->
  fs_put P (d ++ [k]) n root = Some (fs_replace d (Dir (dir_link P k n es)) root).
Proof.
  revert root. induction d as [|x d IH]; intros root H.
  - cbn in H. injection H as ->. reflexivity.
  - cbn [app fs_get fs_replace] in *. destruct root as [data|res]; [discriminate|].
    destruct (dict_get x res) as [child|] eqn:E; [|discriminate].
    cbn [fs_put]. rewrite E, (IH child H).
    destruct (d ++ [k])%list eqn:Hd; [|reflexivity].
    destruct d; discriminate.
Qed.

(** *** The files of scalar fields *)

Lemma link_fields_files P m es :
  Forall is_file es -> Forall is_file (link_fields P m es).
Proof.
  unfold link_fields. revert es. induction m as [|[k v] m IH]; intros es H; [exact H|].
  cbn [fold_left]. apply IH. apply Forall_dir_link; [exact I | exact H].
Qed.

Lemma link_fields_NoDup P m es :
  NoDup (keys es) -> NoDup (keys (link_fields P m es)).
Proof.
  unfold link_fields. revert es. induction m as [|[k v] m IH]; intros es H; [exact H|].
  cbn [fold_left]. apply IH. now apply NoDup_keys_dir_link.
Qed.

Lemma link_fields_get P m :
  NoDup (keys m) ->
  forall es k,
    dict_get k (link_fields P m es)
    = match dict_get k m with
      | Some v => Some (File (file_text v))
      | None => dict_get k es
      end.
Proof.
  unfold link_fields, keys. induction m as [|[f v] m IH]; intros Hnd es k; [reflexivity|].
  cbn [map fst] in Hnd. inversion Hnd as [|? ? Hnotin Hnd']; subst.
  cbn [fold_left fst snd dict_get]. rewrite (IH Hnd').
  destruct (f =? k)%string eqn:E.
  - apply String.eqb_eq in E. subst k.
    apply dict_get_None_keys in Hnotin. rewrite Hnotin.
    apply dict_get_dir_link_same.
  - apply String.eqb_neq in E.
    destruct (dict_get k m); [reflexivity|].
    now apply dict_get_dir_link_other.
Qed.

(** ** Writing an entry *)

Lemma git_add_ok w p data :
  fs_get p (fs w) = Some (File data) ->
  exists w',
    _run_subprocess_command [Word "git"; Word "add"; PathArg p] false w
    = (Ok EmptyString, w')
    /\ repo_path w' = repo_path w /\ fs w' = fs w.
Proof.
  intros H. rewrite run_subprocess_command_eq.
  change (popen [Word "git"; Word "add"; PathArg p] w) with (git (GitAdd p) w).
  cbn [git]. rewrite H. cbn [fst snd returncode out Z.eqb].
  eexists. split; [reflexivity|]. split; reflexivity.
Qed.

Lemma files_hold_no_dir es k ces :
  Forall is_file es -> dict_get k es <> Some (Dir ces).
Proof.
  intros Hall Hget. apply dict_get_In in Hget.
  rewrite Forall_forall in Hall. exact (Hall _ Hget).
Qed.

Lemma fs_get_child d k root es :
  fs_get d root = Some (Dir es) -> fs_get (path_join d k) root = dict_get k es.
Proof.
  intros H. unfold path_join. rewrite fs_get_app, H. cbn [fs_get].
  destruct (dict_get k es); reflexivity.
Qed.

Lemma write_file_ok P w d k s es :
  fs_get d (fs w) = Some (Dir es) ->
  (forall ces, dict_get k es <> Some (Dir ces)) ->
  write_file P (path_join d k) s w
  = (Ok tt, set_fs (fs_replace d (Dir (dir_link P k (File s) es)) (fs w)) w).
Proof.
  intros Hd Hk. unfold write_file, bind, get_world.
  rewrite (fs_get_child d k _ es Hd).
  unfold path_join. rewrite (fs_put_child P d k (File s) _ es Hd).
  destruct (dict_get k es) as [[data|ces]|] eqn:E; try reflexivity.
  exfalso. exact (Hk ces eq_refl).
Qed.

Lemma os_mkdir_ok P w d k es :
  fs_get d (fs w) = Some (Dir es) ->
  dict_get k es = None ->
  os_mkdir P (path_join d k) w
  = (Ok tt, set_fs (fs_replace d (Dir (dir_link P k (Dir []) es)) (fs w)) w).
Proof.
  intros Hd Hk. unfold os_mkdir, bind, get_world.
  rewrite (fs_get_child d k _ es Hd), Hk.
  unfold path_join. now rewrite (fs_put_child P d k (Dir []) _ es Hd).
Qed.

Lemma coerce_scalar P v :
  scalar v ->
  coerce_data P (if py_truthy v then v else VStr EmptyString) = CStr (file_text v).
Proof.
  unfold file_text. destruct v as [|z|s|d|l]; cbn [scalar py_truthy]; try contradiction; intros _.
  - reflexivity.
  - destruct (negb (z =? 0)); reflexivity.
  - destruct (negb (s =? "")%string); reflexivity.
Qed.

Lemma write_field_ok P w d k v es :
  fs_get d (fs w) = Some (Dir es) ->
  Forall is_file es ->
  scalar v ->
  exists w',
    write_field P d (k, v) w = (Ok tt, w')
    /\ repo_path w' = repo_path w
    /\ fs w' = fs_replace d (Dir (dir_link P k (File (file_text v)) es)) (fs w).
Proof.
  intros Hd Hfiles Hv. unfold write_field.
  rewrite (coerce_scalar P v Hv).
  erewrite bind_ok;
    [|apply (write_file_ok P w d k (file_text v) es Hd);
      intros ces; now apply files_hold_no_dir].
  set (w1 := set_fs _ w).
  assert (Hfile : fs_get (path_join d k) (fs w1) = Some (File (file_text v))).
  { erewrite fs_get_child.
    - apply dict_get_dir_link_same.
    - subst w1. cbn [fs set_fs]. eapply fs_get_replace. exact Hd. }
  destruct (git_add_ok w1 _ _ Hfile) as [w2 [Hrun [Hrp Hfs]]].
  erewrite bind_ok; [|exact Hrun].
  exists w2. split; [reflexivity|]. split; [now rewrite Hrp | now rewrite Hfs].
Qed.

Lemma write_fields_ok P d m :
  scalar_fields m ->
  forall w es,
    fs_get d (fs w) = Some (Dir es) ->
    Forall is_file es ->
    exists w',
      forM_ (write_field P d) m w = (Ok tt, w')
      /\ repo_path w' = repo_path w
      /\ fs w' = fs_replace d (Dir (link_fields P m es)) (fs w).
Proof.
  induction 1 as [|[k v] m Hv Hm IH]; intros w es Hd Hfiles.
  - exists w. split; [reflexivity|]. split; [reflexivity|].
    cbn [link_fields fold_left]. symmetry. now apply fs_replace_same.
  - cbn [snd] in Hv.
    destruct (write_field_ok P w d k v es Hd Hfiles Hv) as [w1 [Hrun [Hrp Hfs]]].
    cbn [forM_]. erewrite bind_ok; [|exact Hrun].
    assert (Hd1 : fs_get d (fs w1) = Some (Dir (dir_link P k (File (file_text v)) es))).
    { rewrite Hfs. eapply fs_get_replace. exact Hd. }
    destruct (IH w1 _ Hd1) as [w2 [Hrun2 [Hrp2 Hfs2]]].
    { apply Forall_dir_link; [exact I | exact Hfiles]. }
    exists w2. split; [exact Hrun2|]. split; [congruence|].
    rewrite Hfs2, Hfs. erewrite fs_replace_replace by exact Hd. reflexivity.
Qed.

Lemma write_entry_ok P d m w es :
  scalar_fields m ->
  fs_get d (fs w) = Some (Dir es) ->
  Forall is_file es ->
  exists w',
    write_entry P (VEntry m) d w = (Ok tt, w')
    /\ repo_path w' = repo_path w
    /\ fs w' = fs_replace d (Dir (link_fields P m es)) (fs w).
Proof.
  intros Hm Hd Hfiles. unfold write_entry.
  erewrite bind_ok; [|apply os_path_exists_eq]. rewrite Hd.
  erewrite bind_ok; [|reflexivity].
  now apply write_fields_ok.
Qed.

(** *** The names of the message directories *)

Lemma to_int_proper z : Z.to_int z <> Decimal.Pos Decimal.Nil /\ Z.to_int z <> Decimal.Neg Decimal.Nil.
Proof.
  destruct z as [|p|p]; cbn; split; try discriminate;
    intros [= H]; exact (DecimalPos.Unsigned.to_uint_nonnil p H).
Qed.

Lemma int_of_str_int z : NilZero.int_of_string (str_int z) = Some (Z.to_int z).
Proof.
  unfold str_int. destruct (to_int_proper z). now apply NilZero.isi.
Qed.

Lemma str_int_inj a b : str_int a = str_int b -> a = b.
Proof.
  intros H. pose proof (int_of_str_int a) as Ha. rewrite H, int_of_str_int in Ha.
  injection Ha as Ha. rewrite <- (DecimalZ.of_to a), <- (DecimalZ.of_to b). now rewrite Ha.
Qed.

Lemma str_int_not_sentinel z : str_int z <> ".burp-list"%string.
Proof.
  intros H. pose proof (int_of_str_int z) as Hz. rewrite H in Hz. discriminate.
Qed.

Lemma str_nat_neq i j : i <> j -> str_int (Z.of_nat i) <> str_int (Z.of_nat j).
Proof. intros Hne H. apply str_int_inj in H. apply Hne. lia. Qed.

(** *** Writing the messages *)

Lemma write_messages_ok P md items :
  Forall scalar_fields items ->
  forall i w es,
    fs_get md (fs w) = Some (Dir es) ->
    (forall j, (i <= j)%nat -> dict_get (str_int (Z.of_nat j)) es = None) ->
    exists w',
      write_messages P md (map VEntry items) i w = (Ok tt, w')
      /\ repo_path w' = repo_path w
      /\ fs w' = fs_replace md (Dir (link_messages P items i es)) (fs w).
Proof.
  induction 1 as [|m items Hm Hitems IH]; intros i w es Hmd Hfresh.
  - exists w. split; [reflexivity|]. split; [reflexivity|].
    cbn [link_messages]. symmetry. now apply fs_replace_same.
  - cbn [map write_messages link_messages].
    set (name := str_int (Z.of_nat i)).
    assert (Hname : dict_get name es = None) by (apply Hfresh; lia).
    erewrite bind_ok; [|apply os_path_exists_eq].
    rewrite (fs_get_child md name _ es Hmd), Hname. cbv beta iota.
    erewrite bind_ok; [|exact (os_mkdir_ok P w md name es Hmd Hname)].
    set (es1 := dir_link P name (Dir []) es).
    set (w1 := set_fs _ w).
    assert (Hmd1 : fs_get md (fs w1) = Some (Dir es1)).
    { subst w1. cbn [fs set_fs]. eapply fs_get_replace. exact Hmd. }
    assert (Hdir : fs_get (path_join md name) (fs w1) = Some (Dir [])).
    { rewrite (fs_get_child md name _ es1 Hmd1). apply dict_get_dir_link_same. }
    destruct (write_entry_ok P (path_join md name) m w1 [] Hm Hdir (Forall_nil _))
      as [w2 [Hrun [Hrp Hfs]]].
    erewrite bind_ok; [|exact Hrun].
    set (es2 := dict_set name (Dir (link_fields P m [])) es1).
    assert (Hfs2 : fs w2 = fs_replace md (Dir es2) (fs w)).
    { rewrite Hfs. unfold path_join.
      rewrite (fs_replace_app md [name] _ _ _ Hmd1).
      erewrite fs_replace_child by apply dict_get_dir_link_same.
      subst w1. cbn [fs set_fs]. eapply fs_replace_replace. exact Hmd. }
    assert (Hmd2 : fs_get md (fs w2) = Some (Dir es2)).
    { rewrite Hfs2. eapply fs_get_replace. exact Hmd. }
    destruct (IH (S i) w2 es2 Hmd2) as [w3 [Hrun3 [Hrp3 Hfs3]]].
    { intros j Hj. subst es2 es1.
      assert (name <> str_int (Z.of_nat j)) by (apply str_nat_neq; lia).
      rewrite dict_get_set_other, dict_get_dir_link_other by assumption.
      apply Hfresh. lia. }
    exists w3. split; [exact Hrun3|]. split; [subst w1; cbn in Hrp; congruence|].
    rewrite Hfs3, Hfs2. eapply fs_replace_replace. exact Hmd.
Qed.

Lemma write_entry_fresh P d k m w pes :
  scalar_fields m ->
  fs_get d (fs w) = Some (Dir pes) ->
  dict_get k pes = None ->
  exists w',
    write_entry P (VEntry m) (path_join d k) w = (Ok tt, w')
    /\ repo_path w' = repo_path w
    /\ fs w' = fs_replace d
                 (Dir (dict_set k (Dir (link_fields P m [])) (dir_link P k (Dir []) pes)))
                 (fs w).
Proof.
  intros Hm Hd Hk. unfold write_entry.
  erewrite bind_ok; [|apply os_path_exists_eq].
  rewrite (fs_get_child d k _ pes Hd), Hk. cbv beta iota.
  erewrite bind_ok; [|exact (os_mkdir_ok P w d k pes Hd Hk)].
  set (pes1 := dir_link P k (Dir []) pes).
  set (w1 := set_fs _ w).
  assert (Hd1 : fs_get d (fs w1) = Some (Dir pes1)).
  { subst w1. cbn [fs set_fs]. eapply fs_get_replace. exact Hd. }
  assert (Hdir : fs_get (path_join d k) (fs w1) = Some (Dir [])).
  { rewrite (fs_get_child d k _ pes1 Hd1). apply dict_get_dir_link_same. }
  destruct (write_fields_ok P (path_join d k) m Hm w1 [] Hdir (Forall_nil _))
    as [w2 [Hrun [Hrp Hfs]]].
  exists w2. split; [exact Hrun|]. split; [subst w1; cbn in Hrp; congruence|].
  rewrite Hfs. unfold path_join.
  rewrite (fs_replace_app d [k] _ _ _ Hd1).
  erewrite fs_replace_child by apply dict_get_dir_link_same.
  subst w1. cbn [fs set_fs]. eapply fs_replace_replace. exact Hd.
Qed.

Lemma fs_get_replace_under d p sub root here :
  fs_get d root = Some here ->
  fs_get d (fs_replace (d ++ p) sub root) = Some (fs_replace p sub here).
Proof.
  intros H. rewrite (fs_replace_app d p sub root here H).
  eapply fs_get_replace. exact H.
Qed.

Lemma commit_keeps_tree msg w :
  fs (snd (_run_subprocess_command (commit_cmd msg) false w)) = fs w
  /\ (fst (_run_subprocess_command (commit_cmd msg) false w) = Ok ("[master] " ++ msg ++ nl)%string
      \/ exists text, fst (_run_subprocess_command (commit_cmd msg) false w)
                      = Raise (Exception text)).
Proof.
  rewrite run_subprocess_command_eq, popen_commit.
  destruct (user_name w); [destruct (nothing_staged w)|];
    cbn [fst snd returncode out Z.eqb fs set_console set_head];
    split; eauto.
Qed.

(** What [add_scanner_entry] leaves on disk for an entry of scalar fields
    and a list of messages of scalar fields, in a working copy that has no
    directory of the entry's fingerprint. *)
Lemma add_scanner_entry_tree P r w root es0 h items :
  repo_path w = Some root ->
  fs w = Dir es0 ->
  dict_get h es0 = None ->
  NoDup (keys r) ->
  dict_get "md5" r = Some (VStr h) ->
  dict_get "messages" r = Some (VList (map VEntry items)) ->
  scalar_fields (dict_del "messages" r) ->
  Forall scalar_fields items ->
  exists res w',
    add_scanner_entry P r w = (res, w')
    /\ (res = Ok tt \/ exists text, res = Raise (Exception text))
    /\ fs_get [h] (fs w') = Some (Dir (stored_dir P r items)).
Proof.
  intros Hroot Hfs Hfresh Hnd Hmd5 Hmsgs Hscalar Hitems.
  unfold add_scanner_entry, getattr. rewrite Hmd5, Hmsgs.
  erewrite bind_ok; [|reflexivity].
  erewrite bind_ok; [|exact (join_repo_eq w root h Hroot)].
  erewrite bind_ok; [|reflexivity].
  set (r' := dict_del "messages" r) in *.
  (* the record directory and the files of the fields *)
  assert (Hd0 : fs_get [] (fs w) = Some (Dir es0)) by (now rewrite Hfs).
  destruct (write_entry_fresh P [] h r' w es0 Hscalar Hd0 Hfresh) as [w2 [Hrun2 [Hrp2 Hfs2]]].
  change (path_join [] h) with [h] in Hrun2.
  erewrite bind_ok; [|exact Hrun2].
  set (E1 := link_fields P r' []) in *.
  assert (Hh2 : fs_get [h] (fs w2) = Some (Dir E1)).
  { rewrite Hfs2. cbn [fs_replace fs_get]. now rewrite dict_get_set_same. }
  (* the list directory and its sentinel *)
  assert (Hnomsg : dict_get "messages" E1 = None).
  { subst E1. rewrite link_fields_get by (now apply NoDup_keys_dict_del).
    subst r'. now rewrite dict_get_del_same. }
  erewrite bind_ok; [|apply os_path_exists_eq].
  rewrite (fs_get_child [h] "messages" _ E1 Hh2), Hnomsg. cbv beta iota.
  set (E2 := dir_link P "messages" (Dir []) E1).
  set (S0 := dir_link P ".burp-list" (File EmptyString) []).
  assert (Hlist : exists w4,
             (os_mkdir P (path_join [h] "messages");;;
              write_file P (path_join (path_join [h] "messages") ".burp-list") EmptyString;;;
              _run_subprocess_command
                [Word "git"; Word "add";
                 PathArg (path_join (path_join [h] "messages") ".burp-list")] false;;;
              ret tt) w2 = (Ok tt, w4)
             /\ repo_path w4 = repo_path w2
             /\ fs_get [h] (fs w4) = Some (Dir (dict_set "messages" (Dir S0) E2))).
  { erewrite bind_ok; [|exact (os_mkdir_ok P w2 [h] "messages" E1 Hh2 Hnomsg)].
    set (w3 := set_fs _ w2).
    assert (Hh3 : fs_get [h] (fs w3) = Some (Dir E2)).
    { subst w3. cbn [fs set_fs]. eapply fs_get_replace. exact Hh2. }
    assert (Hm3 : fs_get (path_join [h] "messages") (fs w3) = Some (Dir [])).
    { rewrite (fs_get_child [h] "messages" _ E2 Hh3). apply dict_get_dir_link_same. }
    erewrite bind_ok;
      [|apply (write_file_ok P w3 _ ".burp-list" EmptyString [] Hm3); intros ces; discriminate].
    fold S0. set (w3' := set_fs _ w3).
    assert (Hh3' : fs_get [h] (fs w3') = Some (Dir (dict_set "messages" (Dir S0) E2))).
    { subst w3'. cbn [fs set_fs]. unfold path_join.
      rewrite (fs_get_replace_under [h] ["messages"] _ _ _ Hh3).
      erewrite fs_replace_child by apply dict_get_dir_link_same. reflexivity. }
    assert (Hfile : fs_get (path_join (path_join [h] "messages") ".burp-list") (fs w3')
                    = Some (File EmptyString)).
    { erewrite fs_get_child.
      - apply dict_get_dir_link_same.
      - subst w3'. cbn [fs set_fs]. eapply fs_get_replace. exact Hm3. }
    destruct (git_add_ok w3' _ _ Hfile) as [w4 [Hrun4 [Hrp4 Hfs4]]].
    erewrite bind_ok; [|exact Hrun4].
    exists w4. split; [reflexivity|]. split; [now rewrite Hrp4 | now rewrite Hfs4]. }
  destruct Hlist as [w4 [Hrun4 [Hrp4 Hh4]]].
  erewrite bind_ok; [|exact Hrun4].
  erewrite bind_ok; [|reflexivity].
  (* the messages *)
  assert (Hm4 : fs_get (path_join [h] "messages") (fs w4) = Some (Dir S0)).
  { rewrite (fs_get_child [h] "messages" _ _ Hh4). apply dict_get_set_same. }
  destruct (write_messages_ok P (path_join [h] "messages") items Hitems O w4 S0 Hm4)
    as [w5 [Hrun5 [Hrp5 Hfs5]]].
  { intros j _. subst S0. rewrite dict_get_dir_link_other; [reflexivity|].
    intros H. symmetry in H. exact (str_int_not_sentinel _ H). }
  erewrite bind_ok; [|exact Hrun5].
  assert (Hh5 : fs_get [h] (fs w5) = Some (Dir (stored_dir P r items))).
  { rewrite Hfs5. unfold path_join.
    rewrite (fs_get_replace_under [h] ["messages"] _ _ _ Hh4).
    erewrite fs_replace_child by apply dict_get_set_same.
    now rewrite dict_set_set. }
  (* the commit *)
  fold (commit_cmd "Added scanner entry").
  destruct (commit_keeps_tree "Added scanner entry" w5) as [Htree Hres].
  unfold bind at 1.
  destruct (_run_subprocess_command (commit_cmd "Added scanner entry") false w5)
    as [[o|e] w6]; cbn [fst snd] in *.
  - exists (Ok tt), w6. split; [reflexivity|]. split; [now left | now rewrite Htree].
  - exists (Raise e), w6. split; [reflexivity|]. split; [|now rewrite Htree].
    right. destruct Hres as [Hres|[text Hres]]; [discriminate|].
    exists text. congruence.
Qed.

(** ** Reading back what was written *)

Lemma In_has_key {A : Type} k (v : A) d : In (k, v) d -> has_key k d = true.
Proof.
  intros H. unfold has_key, keys. apply existsb_exists. exists k.
  split; [|apply String.eqb_refl]. change k with (fst (k, v)). now apply in_map.
Qed.

Lemma In_dict_set {A : Type} k (v : A) d kv :
  In kv (dict_set k v d) -> kv = (k, v) \/ In kv d.
Proof.
  induction d as [|[k' v'] d IH]; cbn [dict_set].
  - intros [H|[]]. now left.
  - destruct (k' =? k)%string.
    + intros [H|H]; [now left | right; now right].
    + intros [H|H]; [right; now left|]. destruct (IH H); [now left | right; now right].
Qed.

Lemma In_dir_link P k n es kv : In kv (dir_link P k n es) -> kv = (k, n) \/ In kv es.
Proof.
  unfold dir_link. destruct (has_key k es).
  - apply In_dict_set.
  - intros H. apply (Permutation_in _ (Permutation_sym (insert_at_perm _ _ _))) in H.
    destruct H; [left; now symmetry | now right].
Qed.

Lemma files_loadable es : Forall is_file es -> loadable (Dir es) = true.
Proof.
  intros H. cbn [loadable]. apply forallb_forall. intros [k n] Hin.
  rewrite Forall_forall in H. specialize (H _ Hin). unfold is_file in H. cbn [snd] in *.
  now destruct n.
Qed.

Lemma dict_set_dir_link_fresh P k n n' es :
  dict_get k es = None ->
  dict_set k n' (dir_link P k n es) = insert_at (dir_slot P k (keys es)) (k, n') es.
Proof.
  intros H. rewrite dir_link_fresh by assumption. unfold insert_at.
  assert (Hfirst : dict_get k (firstn (dir_slot P k (keys es)) es) = None).
  { rewrite <- (firstn_skipn (dir_slot P k (keys es)) es) in H.
    rewrite dict_get_app in H. now destruct (dict_get k (firstn _ es)). }
  revert Hfirst. generalize (firstn (dir_slot P k (keys es)) es) as l1.
  induction l1 as [|[k' v'] l1 IH]; cbn [app dict_set dict_get].
  - now rewrite String.eqb_refl.
  - destruct (k' =? k)%string; [discriminate|]. intros Hl. now rewrite IH.
Qed.

Lemma link_messages_perm P items :
  forall i es,
    NoDup (keys es) ->
    (forall j, (i <= j)%nat -> dict_get (str_int (Z.of_nat j)) es = None) ->
    Permutation (link_messages P items i es) (message_dirs P items i ++ es).
Proof.
  induction items as [|m items IH]; intros i es Hnd Hfresh; [reflexivity|].
  cbn [link_messages message_dirs].
  set (name := str_int (Z.of_nat i)).
  assert (Hname : dict_get name es = None) by (apply Hfresh; lia).
  rewrite dict_set_dir_link_fresh by assumption.
  set (es2 := insert_at _ (name, Dir (link_fields P m [])) es).
  assert (Hperm : Permutation ((name, Dir (link_fields P m [])) :: es) es2)
    by apply insert_at_perm.
  rewrite (IH (S i) es2).
  - rewrite <- Hperm. cbn [app]. symmetry. apply Permutation_middle.
  - apply (Permutation_NoDup (l := keys ((name, Dir (link_fields P m [])) :: es))).
    + unfold keys. now apply Permutation_map.
    + cbn. constructor; [now apply dict_get_None_keys | assumption].
  - intros j Hj. subst es2. rewrite dict_get_insert_at_other.
    + apply Hfresh. lia.
    + apply str_nat_neq. lia.
Qed.

Lemma message_dirs_not_sentinel P items i :
  filter not_sentinel (message_dirs P items i) = message_dirs P items i.
Proof.
  revert i. induction items as [|m items IH]; intros i; [reflexivity|].
  cbn [message_dirs filter]. unfold not_sentinel at 1. cbn [fst].
  destruct (str_int (Z.of_nat i) =? ".burp-list")%string eqn:E.
  - apply String.eqb_eq in E. now apply str_int_not_sentinel in E.
  - cbn [negb]. now rewrite IH.
Qed.

Lemma Permutation_filter_same {A : Type} (f : A -> bool) l l' :
  Permutation l l' -> Permutation (filter f l) (filter f l').
Proof.
  induction 1 as [|x l l' H IH|x y l|l l' l'' H1 IH1 H2 IH2]; cbn [filter].
  - constructor.
  - destruct (f x); [now constructor | assumption].
  - destruct (f x), (f y); try reflexivity. apply perm_swap.
  - now transitivity (filter f l').
Qed.

Lemma dir_link_nil P k n : dir_link P k n [] = [(k, n)].
Proof.
  unfold dir_link, insert_at. cbn [has_key keys map existsb].
  now rewrite firstn_nil, skipn_nil.
Qed.

Lemma stored_messages_perm P items :
  Permutation (stored_messages P items)
              (message_dirs P items O ++ [(".burp-list"%string, File EmptyString)])
  /\ Permutation (filter not_sentinel (stored_messages P items)) (message_dirs P items O).
Proof.
  assert (H : Permutation (stored_messages P items)
                (message_dirs P items O ++ [(".burp-list"%string, File EmptyString)])).
  { unfold stored_messages. rewrite dir_link_nil.
    apply link_messages_perm.
    - cbn. repeat constructor. intros [].
    - intros j _. cbn [dict_get app].
      destruct (".burp-list" =? str_int (Z.of_nat j))%string eqn:E; [|reflexivity].
      apply String.eqb_eq in E. symmetry in E. now apply str_int_not_sentinel in E. }
  split; [exact H|].
  rewrite (Permutation_filter_same not_sentinel _ _ H).
  rewrite filter_app, message_dirs_not_sentinel. cbn. now rewrite app_nil_r.
Qed.

Lemma Forall2_perm_left {A B : Type} (R : A -> B -> Prop) a a' :
  Permutation a a' ->
  forall b, Forall2 R a b -> exists b', Permutation b' b /\ Forall2 R a' b'.
Proof.
  induction 1 as [|x a a' H IH|x y a|a a' a'' H1 IH1 H2 IH2]; intros b Hb.
  - exists b. split; [reflexivity | assumption].
  - inversion Hb as [|? y ? b0 Hxy Hrest]; subst.
    destruct (IH b0 Hrest) as [b' [Hp Hf]].
    exists (y :: b'). split; [now constructor | now constructor].
  - inversion Hb as [|? u ? b0 Hyu Hrest]; subst.
    inversion Hrest as [|? v ? b1 Hxv Hrest']; subst.
    exists (v :: u :: b1). split; [apply perm_swap | repeat constructor; assumption].
  - destruct (IH1 b Hb) as [b' [Hp' Hf']].
    destruct (IH2 b' Hf') as [b'' [Hp'' Hf'']].
    exists b''. split; [now transitivity b' | assumption].
Qed.

Lemma load_items_loaded P ces :
  forall acc l,
    foldM (load_item P) ces acc = Ok l ->
    exists l', l = acc ++ l'
               /\ Forall2 (loaded_from P) (filter not_sentinel ces) l'.
Proof.
  induction ces as [|[fname c] ces IH]; intros acc l H.
  - cbn in H. injection H as <-. exists []. split; [now rewrite app_nil_r | constructor].
  - cbn [foldM] in H. unfold load_item at 1 in H. cbn [fst snd] in H.
    cbn [filter]. unfold not_sentinel at 1. cbn [fst].
    destruct (fname =? ".burp-list")%string; cbn [negb].
    + now apply IH.
    + destruct (load_entry P c) as [e|x] eqn:He; [|discriminate].
      destruct (IH _ _ H) as [l' [-> Hl']].
      exists (VEntry e :: l'). split; [now rewrite <- app_assoc|].
      constructor; [|assumption]. exists e. now split.
Qed.

(** Reading back a directory of files written for scalar fields. *)
Lemma load_scalar_fields P m :
  NoDup (keys m) ->
  exists m', load_entry P (Dir (link_fields P m [])) = Ok m' /\ read_back m m'.
Proof.
  intros Hnd.
  destruct (proj1 (loadable_loads P (Dir (link_fields P m []))))
    as [m' Hm'].
  { apply files_loadable. apply link_fields_files. constructor. }
  exists m'. split; [exact Hm'|]. intros k.
  rewrite load_entry_Dir in Hm'.
  rewrite (foldM_load_field_get P _ (link_fields_NoDup P m [] (NoDup_nil _)) _ _ Hm' k).
  rewrite (link_fields_get P m Hnd).
  destruct (dict_get k m); reflexivity.
Qed.

Lemma message_dirs_read_back P items :
  Forall (fun m => NoDup (keys m)) items ->
  forall i L,
    Forall2 (loaded_from P) (message_dirs P items i) L ->
    Forall2 message_read_back items L.
Proof.
  induction 1 as [|m items Hm Hitems IH]; intros i L HL.
  - inversion HL. constructor.
  - cbn [message_dirs] in HL. inversion HL as [|? v ? L' Hv Hrest]; subst.
    constructor; [|now apply (IH (S i))].
    destruct Hv as [e [-> He]]. cbn [snd] in He.
    destruct (load_scalar_fields P m Hm) as [m' [Hm' Hrb]].
    exists e. split; [reflexivity|].
    rewrite He in Hm'. injection Hm' as <-. exact Hrb.
Qed.

Lemma message_dirs_files P items :
  forall i g, In g (message_dirs P items i) -> loadable (snd g) = true.
Proof.
  induction items as [|m items IH]; intros i g; cbn [message_dirs]; [intros []|].
  intros [<-|H]; [|now apply (IH (S i))].
  cbn [snd]. apply files_loadable. apply link_fields_files. constructor.
Qed.

Lemma stored_messages_loadable P items :
  is_list_dir (stored_messages P items) = true
  /\ forallb (fun g => (fst g =? ".burp-list")%string || loadable (snd g))
       (stored_messages P items) = true.
Proof.
  destruct (stored_messages_perm P items) as [Hperm _]. split.
  - unfold is_list_dir. apply (In_has_key _ (File EmptyString)).
    apply (Permutation_in _ (Permutation_sym Hperm)).
    apply in_or_app. right. now left.
  - apply forallb_forall. intros g Hg.
    apply (Permutation_in _ Hperm) in Hg. apply in_app_or in Hg.
    destruct Hg as [Hg|[<-|[]]]; [|reflexivity].
    rewrite (message_dirs_files P items O g Hg). apply orb_true_r.
Qed.

(** Reading back the record directory of an entry. *)
Lemma load_stored_dir P r items :
  NoDup (keys r) ->
  Forall (fun m => NoDup (keys m)) items ->
  exists r',
    load_entry P (Dir (stored_dir P r items)) = Ok r'
    /\ (forall k, k <> "messages"%string ->
                  dict_get k r'
                  = match dict_get k r with
                    | Some v => Some (VStr (file_text v))
                    | None => dict_get k empty_entry
                    end)
    /\ exists l L,
         dict_get "messages" r' = Some (VList l)
         /\ Permutation L l
         /\ Forall2 message_read_back items L.
Proof.
  intros Hnd Hitems.
  destruct (stored_messages_loadable P items) as [Hlist Hall].
  set (E1 := link_fields P (dict_del "messages" r) []).
  assert (Hfiles : Forall is_file E1) by (apply link_fields_files; constructor).
  assert (Hnd' : NoDup (keys (stored_dir P r items))).
  { unfold stored_dir. apply NoDup_keys_dict_set, NoDup_keys_dir_link.
    apply link_fields_NoDup. constructor. }
  destruct (proj1 (loadable_loads P (Dir (stored_dir P r items)))) as [r' Hr'].
  { cbn [loadable]. apply forallb_forall. intros kv Hkv.
    unfold stored_dir in Hkv. apply In_dict_set in Hkv.
    destruct Hkv as [->|Hkv].
    - cbn [snd]. now rewrite Hlist.
    - apply In_dir_link in Hkv. destruct Hkv as [->|Hkv]; [reflexivity|].
      rewrite Forall_forall in Hfiles. specialize (Hfiles _ Hkv).
      unfold is_file in Hfiles. now destruct (snd kv). }
  exists r'. split; [exact Hr'|].
  rewrite load_entry_Dir in Hr'.
  pose proof (foldM_load_field_get P _ Hnd' _ _ Hr') as Hget.
  split.
  - intros k Hk. rewrite Hget. unfold stored_dir.
    rewrite dict_get_set_other, dict_get_dir_link_other by congruence.
    rewrite link_fields_get by (now apply NoDup_keys_dict_del).
    rewrite dict_get_del_other by congruence.
    destruct (dict_get k r); reflexivity.
  - destruct (proj2 (loadable_loads P (Dir (stored_messages P items))) Hall [])
      as [l Hl].
    destruct (load_items_loaded P _ _ _ Hl) as [l' [-> Hl']].
    destruct (stored_messages_perm P items) as [_ Hperm].
    destruct (Forall2_perm_left _ _ _ Hperm _ Hl') as [L [HL HLf]].
    exists l', L. split; [|split; [exact HL|]].
    + rewrite Hget. unfold stored_dir at 1. rewrite dict_get_set_same.
      cbn [load_child]. rewrite Hlist, load_list_eq, Hl. reflexivity.
    + now apply (message_dirs_read_back P items Hitems O).
Qed.

(** C3, as amended: an entry whose fields are scalars, apart from a list
    [messages] of entries with scalar fields, is stored by
    [add_scanner_entry], in a working copy that has no directory of its
    fingerprint, as a directory that reads back as follows.  The Record
    read has the names of the entry; under every name but [messages] it
    holds the text of the file written for the field: a string or byte
    array comes back as it was, an integer as its decimal digits, and
    [None], [0] and the empty string as the empty string.  Under
    [messages] it holds a list with exactly one read-back per message.
    The call itself returns, or raises what the commit step raised. *)
Theorem scanner_entry_round_trip (P : platform) (r : LogEntry) (items : list LogEntry)
  (w : world) (root h : string) (es0 : list (string * node)) :
  NoDup (keys r) ->
  dict_get "md5" r = Some (VStr h) ->
  dict_get "messages" r = Some (VList (map VEntry items)) ->
  scalar_fields (dict_del "messages" r) ->
  Forall (fun m => NoDup (keys m)) items ->
  Forall scalar_fields items ->
  repo_path w = Some root ->
  fs w = Dir es0 ->
  dict_get h es0 = None ->
  exists res w' d r',
    add_scanner_entry P r w = (res, w')
    /\ (res = Ok tt \/ exists text, res = Raise (Exception text))
    /\ fs_get [h] (fs w') = Some d
    /\ load_entry P d = Ok r'
    /\ (forall k, k <> "messages"%string ->
                  dict_get k r' = option_map (fun v => VStr (file_text v)) (dict_get k r))
    /\ exists l L,
         dict_get "messages" r' = Some (VList l)
         /\ Permutation L l
         /\ Forall2 message_read_back items L.
Proof.
  intros Hnd Hmd5 Hmsgs Hscalar Hndi Hsi Hroot Hfs Hfresh.
  destruct (add_scanner_entry_tree P r w root es0 h items
              Hroot Hfs Hfresh Hnd Hmd5 Hmsgs Hscalar Hsi)
    as [res [w' [Hrun [Hres Htree]]]].
  destruct (load_stored_dir P r items Hnd Hndi) as [r' [Hload [Hfields Hlist]]].
  exists res, w', (Dir (stored_dir P r items)), r'.
  repeat (split; [assumption|]). split; [|exact Hlist].
  intros k Hk. rewrite (Hfields k Hk).
  destruct (dict_get k r) eqn:E; [reflexivity|].
  cbn [option_map empty_entry dict_get].
  destruct ("md5" =? k)%string eqn:E'; [|reflexivity].
  apply String.eqb_eq in E'. subst k. congruence.
Qed.

Lemma scanner_entry_round_trip_witness :
  LogEntry_init creation_order (plain_issue_kwargs creation_order) = Ok plain_issue
  /\ exists res w' d r',
       add_scanner_entry creation_order plain_issue clean_copy = (res, w')
       /\ (res = Ok tt \/ exists text, res = Raise (Exception text))
       /\ fs_get ["aee0b9286113a035e04c3a64561636e7"%string] (fs w') = Some d
       /\ load_entry creation_order d = Ok r'
       /\ (forall k, k <> "messages"%string ->
                     dict_get k r'
                     = option_map (fun v => VStr (file_text v)) (dict_get k plain_issue))
       /\ exists l L,
            dict_get "messages" r' = Some (VList l)
            /\ Permutation L l
            /\ Forall2 message_read_back plain_messages L.
Proof.
  split; [vm_compute; reflexivity|].
  apply (scanner_entry_round_trip creation_order plain_issue plain_messages clean_copy
           "/home/u/.burp-git-bridge/repo" "aee0b9286113a035e04c3a64561636e7" []).
  - repeat (constructor; [cbn; intuition discriminate|]). constructor.
  - reflexivity.
  - reflexivity.
  - repeat constructor.
  - repeat constructor; cbn; intuition discriminate.
  - repeat constructor.
  - reflexivity.
  - reflexivity.
  - reflexivity.
Defined.

(** C3 as stated fails: of a Record with an integer, a nested Record and a
    list, stored and read back, the integer comes back as a string and the
    nested Record as the string [str()] gives for the object. *)
Lemma round_trip_changes_fields :
  exists r w r' nested,
    LogEntry_init creation_order (mixed_kwargs creation_order) = Ok r
    /\ add_scanner_entry creation_order r clean_copy = (Ok tt, w)
    /\ entries creation_order w = ([r'], None)
    /\ dict_get "port" r = Some (VInt 443)
    /\ dict_get "port" r' = Some (VStr "443")
    /\ dict_get "service" r = Some (VEntry nested)
    /\ dict_get "service" r' = Some (VStr "<__main__.LogEntry object at 0x2>").
Proof.
  do 4 eexists.
  split; [vm_compute; reflexivity|].
  split; [vm_compute; reflexivity|].
  split; [vm_compute; reflexivity|].
  repeat split; reflexivity.
Qed.

(** C4: where the directory lists the newest name first, the messages A, B
    and C, stored as [0], [1] and [2], are read back as C, B, A:
    [load_list] appends in the order of the listing and sorts nothing. *)
Theorem list_order_follows_listing :
  exists r w r',
    LogEntry_init newest_first (issue_kwargs newest_first) = Ok r
    /\ add_scanner_entry newest_first r clean_copy = (Ok tt, w)
    /\ entries newest_first w = ([r'], None)
    /\ dict_get "messages" r'
       = Some (VList
                 [VEntry [("md5", VStr "c55c0d35874ed6decb7df42bd8526b2d");
                          ("host", VStr "C"); ("tool", VStr "scanner_message")];
                  VEntry [("md5", VStr "a45a2530c596245681b360a0ce0eaf4b");
                          ("host", VStr "B"); ("tool", VStr "scanner_message")];
                  VEntry [("md5", VStr "a23a115d3fc0d7c06f803a31629c8ccc");
                          ("host", VStr "A"); ("tool", VStr "scanner_message")]]).
Proof.
  do 3 eexists.
  split; [vm_compute; reflexivity|].
  split; [vm_compute; reflexivity|].
  split; [vm_compute; reflexivity|].
  reflexivity.
Qed.

(** Where the directory lists its names in the order of their creation
    the same messages are read back in the order of the list. *)
Example list_order_kept_in_creation_order :
  exists r w r',
    LogEntry_init creation_order (issue_kwargs creation_order) = Ok r
    /\ add_scanner_entry creation_order r clean_copy = (Ok tt, w)
    /\ entries creation_order w = ([r'], None)
    /\ dict_get "messages" r'
       = Some (VList
                 [VEntry [("md5", VStr "a23a115d3fc0d7c06f803a31629c8ccc");
                          ("tool", VStr "scanner_message"); ("host", VStr "A")];
                  VEntry [("md5", VStr "a45a2530c596245681b360a0ce0eaf4b");
                          ("tool", VStr "scanner_message"); ("host", VStr "B")];
                  VEntry [("md5", VStr "c55c0d35874ed6decb7df42bd8526b2d");
                          ("tool", VStr "scanner_message"); ("host", VStr "C")]]).
Proof.
  do 3 eexists.
  split; [vm_compute; reflexivity|].
  split; [vm_compute; reflexivity|].
  split; [vm_compute; reflexivity|].
  reflexivity.
Qed.

(** ** More on the fingerprint *)

Lemma foldM_app {A B : Type} (f : B -> A -> result B) l1 l2 acc :
  foldM f (l1 ++ l2) acc
  = match foldM f l1 acc with
    | Ok acc' => foldM f l2 acc'
    | Raise e => Raise e
    end.
Proof.
  revert acc. induction l1 as [|x l1 IH]; intros acc; [reflexivity|].
  cbn [app foldM]. destruct (f acc x); [apply IH | reflexivity].
Qed.

Lemma fingerprint_congr P r1 r2 kv kv' :
  (forall md5, hash_field P md5 kv = hash_field P md5 kv') ->
  fingerprint P (r1 ++ kv :: r2) = fingerprint P (r1 ++ kv' :: r2).
Proof.
  intros H. unfold fingerprint. rewrite !foldM_app.
  destruct (foldM (hash_field P) r1 md5_new) as [m|e]; [|reflexivity].
  cbn [foldM]. now rewrite H.
Qed.

Lemma foldM_hash_hashed P r :
  forall md5, foldM (hash_field P) (filter hashed r) md5 = foldM (hash_field P) r md5.
Proof.
  induction r as [|[k v] r IH]; intros md5; [reflexivity|].
  cbn [filter]. unfold hashed at 1. cbn [fst snd].
  destruct (py_truthy v && negb (k =? "messages")%string) eqn:E.
  - cbn [foldM]. destruct (hash_field P md5 (k, v)); [apply IH | reflexivity].
  - cbn [foldM hash_field]. rewrite E. apply IH.
Qed.

Lemma fingerprint_hashed P r : fingerprint P (filter hashed r) = fingerprint P r.
Proof. unfold fingerprint. now rewrite foldM_hash_hashed. Qed.

(** X1: only the fields that hold a true value under a name other than
    [messages] count.  Two Records whose dicts yield the same such fields
    in the same order have the same fingerprint, whatever empty values
    ([None], [0], the empty string, the empty list) either holds besides,
    and wherever its dict yields them. *)
Theorem fingerprint_skips_empty (P : platform) (r r' : LogEntry) :
  filter hashed r = filter hashed r' ->
  fingerprint P r = fingerprint P r'.
Proof.
  intros H. rewrite <- (fingerprint_hashed P r), <- (fingerprint_hashed P r').
  now rewrite H.
Qed.

Lemma fingerprint_skips_empty_witness :
  fingerprint creation_order
    [("comment", VNone); ("host", VStr "example.com"); ("highlight", VStr EmptyString)]
  = fingerprint creation_order [("port", VInt 0); ("host", VStr "example.com")].
Proof.
  apply (fingerprint_skips_empty creation_order
           [("comment", VNone); ("host", VStr "example.com");
            ("highlight", VStr EmptyString)]
           [("port", VInt 0); ("host", VStr "example.com")]).
  reflexivity.
Defined.

Lemma slice_empty_iff n s :
  py_slice_to (S n) s = EmptyString <-> s = EmptyString.
Proof. destruct s; cbn; split; congruence. Qed.

(** X2: of a string value only the first 2048 bytes are hashed: two
    Records that differ in one string field, beyond its first 2048 bytes
    only, have the same fingerprint. *)
Theorem fingerprint_reads_2048_bytes (P : platform) (r1 r2 : LogEntry) (k s s' : string) :
  py_slice_to 2048 s = py_slice_to 2048 s' ->
  fingerprint P (r1 ++ (k, VStr s) :: r2) = fingerprint P (r1 ++ (k, VStr s') :: r2).
Proof.
  intros H. apply fingerprint_congr. intros md5.
  cbn [hash_field py_truthy coerce_data]. rewrite H.
  replace (s =? "")%string with (s' =? "")%string; [reflexivity|].
  destruct s, s'; cbn [String.eqb]; try reflexivity; cbn in H; discriminate.
Qed.

Lemma fingerprint_reads_2048_bytes_witness :
  fingerprint creation_order
    ([] ++ ("response", VStr (string_of_list_ascii (repeat "a"%char 2048) ++ "first")%string) :: [])
  = fingerprint creation_order
      ([] ++ ("response", VStr (string_of_list_ascii (repeat "a"%char 2048) ++ "second")%string) :: []).
Proof.
  apply (fingerprint_reads_2048_bytes creation_order [] [] "response").
  vm_compute. reflexivity.
Defined.

Lemma slice_short n s : (String.length s <= n)%nat -> py_slice_to n s = s.
Proof.
  unfold py_slice_to. revert n. induction s as [|c s IH]; intros n H.
  - destruct n; reflexivity.
  - destruct n; cbn [String.length] in H; [lia|].
    cbn [substring]. f_equal. apply IH. lia.
Qed.

Lemma append_empty_iff (a b : string) :
  (a ++ b)%string = EmptyString <-> a = EmptyString /\ b = EmptyString.
Proof.
  destruct a; cbn; split.
  - auto.
  - now intros [_ ->].
  - discriminate.
  - intros [H _]. discriminate.
Qed.

Lemma append_length (a b : string) :
  String.length (a ++ b)%string = (String.length a + String.length b)%nat.
Proof. induction a as [|x a IH]; cbn; [reflexivity | now rewrite IH]. Qed.

Lemma joined_field_hash P md5 (k x v : string) :
  v <> EmptyString ->
  k <> "messages"%string ->
  (k ++ x)%string <> "messages"%string ->
  (String.length (x ++ v) <= 2048)%nat ->
  hash_field P md5 ((k ++ x)%string, VStr v) = hash_field P md5 (k, VStr (x ++ v)%string).
Proof.
  intros Hv Hk Hkx Hlen.
  cbn [hash_field py_truthy coerce_data].
  apply String.eqb_neq in Hk, Hkx. rewrite Hk, Hkx.
  assert (Hv' : (v =? "")%string = false) by now apply String.eqb_neq.
  assert (Hxv : ((x ++ v) =? "")%string = false).
  { apply String.eqb_neq. intros H. apply append_empty_iff in H. now destruct H. }
  rewrite Hv', Hxv. cbn [negb andb].
  rewrite (slice_short 2048 (x ++ v)) by assumption.
  rewrite (slice_short 2048 v) by (rewrite append_length in Hlen; lia).
  unfold md5_update. now rewrite !append_assoc.
Qed.

(** X3: the name of a field and its value are fed to the digest one after
    the other with nothing between them, so where the name ends does not
    count.  A Record whose one counted field is a string [v] under the
    name [k ++ x] has the fingerprint of a Record whose one counted field
    is the string [x ++ v] under the name [k]; with one field to walk,
    the order of the dict plays no part. *)
Theorem fingerprint_joins_name_and_value (P : platform) (r r' : LogEntry)
  (k x v : string) :
  filter hashed r = [((k ++ x)%string, VStr v)] ->
  filter hashed r' = [(k, VStr (x ++ v)%string)] ->
  (String.length (x ++ v) <= 2048)%nat ->
  fingerprint P r = fingerprint P r'.
Proof.
  intros Hr Hr' Hlen.
  assert (H1 : hashed ((k ++ x)%string, VStr v) = true).
  { apply (proj2 (proj1 (filter_In hashed _ r) ltac:(rewrite Hr; now left))). }
  assert (H2 : hashed (k, VStr (x ++ v)%string) = true).
  { apply (proj2 (proj1 (filter_In hashed _ r') ltac:(rewrite Hr'; now left))). }
  unfold hashed in H1, H2. cbn [fst snd py_truthy] in H1, H2.
  apply andb_true_iff in H1, H2. destruct H1 as [Hv Hkx], H2 as [_ Hk].
  rewrite negb_true_iff in Hv, Hkx, Hk. apply String.eqb_neq in Hv, Hkx, Hk.
  rewrite <- (fingerprint_hashed P r), <- (fingerprint_hashed P r'), Hr, Hr'.
  unfold fingerprint. cbn [foldM].
  now rewrite (joined_field_hash P md5_new k x v Hv Hk Hkx Hlen).
Qed.

Lemma fingerprint_joins_name_and_value_witness :
  fingerprint creation_order [(("host" ++ "s")%string, VStr "ample")]
  = fingerprint creation_order [("host"%string, VStr ("s" ++ "ample")%string)].
Proof.
  apply (fingerprint_joins_name_and_value creation_order
           [(("host" ++ "s")%string, VStr "ample")]
           [("host"%string, VStr ("s" ++ "ample")%string)] "host" "s" "ample").
  - reflexivity.
  - reflexivity.
  - vm_compute. lia.
Defined.

Lemma le_bytes_bounded n x : Forall (fun b => 0 <= b < 256) (MD5.le_bytes n x).
Proof.
  revert x. induction n as [|n IH]; intros x; cbn [MD5.le_bytes]; constructor.
  - apply Z.mod_pos_bound. lia.
  - apply IH.
Qed.

Lemma le_bytes_length n x : List.length (MD5.le_bytes n x) = n.
Proof. revert x. induction n as [|n IH]; intros x; cbn; [reflexivity | now rewrite IH]. Qed.

Lemma hex_digit_is_hex z : 0 <= z < 16 -> is_hex_char (hex_digit z) = true.
Proof.
  intros H.
  assert (Hz : z = 0 \/ z = 1 \/ z = 2 \/ z = 3 \/ z = 4 \/ z = 5 \/ z = 6 \/ z = 7 \/
               z = 8 \/ z = 9 \/ z = 10 \/ z = 11 \/ z = 12 \/ z = 13 \/ z = 14 \/ z = 15)
    by lia.
  repeat (destruct Hz as [->|Hz]; [reflexivity|]). now subst.
Qed.

Lemma hex_bytes_shape bs :
  Forall (fun b => 0 <= b < 256) bs ->
  String.length (fold_right (fun b acc => hex_byte b ++ acc)%string EmptyString bs)
  = (2 * List.length bs)%nat
  /\ all_chars is_hex_char
       (fold_right (fun b acc => hex_byte b ++ acc)%string EmptyString bs) = true.
Proof.
  induction 1 as [|b bs Hb Hbs [IHlen IHall]]; [split; reflexivity|].
  cbn [fold_right List.length]. set (rest := fold_right _ EmptyString bs) in *.
  unfold hex_byte. cbn [append String.length all_chars].
  split; [rewrite IHlen; lia|].
  rewrite IHall, !hex_digit_is_hex; [reflexivity| |].
  - apply Z.mod_pos_bound. lia.
  - split; [apply Z.div_pos; lia | apply Z.div_lt_upper_bound; lia].
Qed.

Lemma md5_hexdigest_shape m :
  String.length (md5_hexdigest m) = 32%nat
  /\ all_chars is_hex_char (md5_hexdigest m) = true.
Proof.
  unfold md5_hexdigest, MD5.hexdigest_bytes, MD5.digest. cbv zeta.
  set (st := fold_left MD5.compress _ MD5.init).
  destruct (hex_bytes_shape
              (MD5.le_bytes 4 (MD5.sA st) ++ MD5.le_bytes 4 (MD5.sB st)
               ++ MD5.le_bytes 4 (MD5.sC st) ++ MD5.le_bytes 4 (MD5.sD st)))
    as [Hlen Hall].
  { repeat (apply Forall_app; split); apply le_bytes_bounded. }
  split; [|exact Hall].
  rewrite Hlen, !length_app, !le_bytes_length. reflexivity.
Qed.

Lemma fingerprint_is_hexdigest P r h :
  fingerprint P r = Ok h -> exists m, h = md5_hexdigest m.
Proof.
  unfold fingerprint. destruct (foldM (hash_field P) r md5_new) as [m|e]; [|discriminate].
  intros [= <-]. now exists m.
Qed.

(** X4: whatever the Record, its fingerprint is a string of 32 characters,
    each a digit or a letter from a to f: it names a directory, without a
    separator in it. *)
Theorem fingerprint_is_32_hex_chars (P : platform) (r : LogEntry) (h : string) :
  fingerprint P r = Ok h ->
  String.length h = 32%nat
  /\ all_chars is_hex_char h = true
  /\ contains_char "/"%char h = false.
Proof.
  intros H. destruct (fingerprint_is_hexdigest P r h H) as [m ->].
  destruct (md5_hexdigest_shape m) as [Hlen Hall].
  split; [exact Hlen|]. split; [exact Hall|].
  revert Hall. generalize (md5_hexdigest m). clear.
  induction s as [|c s IH]; [reflexivity|].
  cbn [all_chars contains_char]. intros Hc. apply andb_true_iff in Hc.
  destruct Hc as [Hc Hs]. rewrite (IH Hs), orb_false_r.
  destruct (Ascii.eqb "/" c) eqn:E; [|reflexivity].
  apply Ascii.eqb_eq in E. subst c. discriminate.
Qed.

Lemma fingerprint_is_32_hex_chars_witness :
  String.length "aee0b9286113a035e04c3a64561636e7" = 32%nat
  /\ all_chars is_hex_char "aee0b9286113a035e04c3a64561636e7" = true
  /\ contains_char "/"%char "aee0b9286113a035e04c3a64561636e7" = false.
Proof.
  apply (fingerprint_is_32_hex_chars creation_order
           [("tool", VStr "scanner"); ("port", VInt 443)]).
  vm_compute. reflexivity.
Defined.

Lemma hash_field_outcome P md5 kv :
  if unhashable kv then hash_field P md5 kv = Raise TypeError
  else exists md5', hash_field P md5 kv = Ok md5'.
Proof.
  destruct kv as [k v]. unfold unhashable, hash_field. cbn [fst snd].
  destruct v as [|z|s|d|[|x l]]; cbn [py_truthy coerce_data andb]; eauto.
  - destruct (negb (z =? 0) && negb (k =? "messages")%string); eauto.
  - destruct (negb (s =? "")%string && negb (k =? "messages")%string); eauto.
  - destruct (negb (k =? "messages")%string); eauto.
  - destruct (negb (k =? "messages")%string); eauto.
Qed.

Lemma foldM_hash_outcome P r :
  forall md5,
    if existsb unhashable r then foldM (hash_field P) r md5 = Raise TypeError
    else exists md5', foldM (hash_field P) r md5 = Ok md5'.
Proof.
  induction r as [|kv r IH]; intros md5; cbn [existsb foldM]; [eauto|].
  pose proof (hash_field_outcome P md5 kv) as H.
  destruct (unhashable kv); cbn [orb].
  - now rewrite H.
  - destruct H as [md5' ->]. apply IH.
Qed.

(** X5: the constructor fails for one reason only.  It raises [TypeError]
    when some field other than [messages] holds a list that is not empty,
    and builds the entry for every other set of fields. *)
Theorem constructor_raises_on_lists_only (P : platform) (kwargs : LogEntry) :
  (existsb unhashable kwargs = true -> LogEntry_init P kwargs = Raise TypeError)
  /\ (existsb unhashable kwargs = false ->
      exists h, fingerprint P kwargs = Ok h
                /\ LogEntry_init P kwargs = Ok (dict_set "md5" (VStr h) kwargs)).
Proof.
  unfold LogEntry_init, fingerprint.
  pose proof (foldM_hash_outcome P kwargs md5_new) as H.
  destruct (existsb unhashable kwargs).
  - rewrite H. split; [reflexivity | discriminate].
  - destruct H as [md5' ->]. split; [discriminate | eauto].
Qed.

(** ** More on the table *)

Lemma clear_eq g :
  _lock g = false ->
  clear g = (Returned, mkGuiLog [] false (fired g ++ rows_cleared (List.length (_log g)))).
Proof.
  intros H. unfold clear. rewrite H.
  destruct (_log g) as [|e l]; cbn [List.length rows_cleared].
  - cbn. now rewrite app_nil_r.
  - replace (0 <? Z.of_nat (S (List.length l))) with true by (symmetry; apply Z.ltb_lt; lia).
    repeat f_equal. lia.
Qed.

Lemma add_entries_eq l :
  forall g,
    _lock g = false ->
    add_entries l g
    = (Returned,
       mkGuiLog (_log g ++ l) false
         (fired g ++ rows_inserted (List.length (_log g)) (List.length l))).
Proof.
  induction l as [|e l IH]; intros g H.
  - cbn. rewrite !app_nil_r. now destruct g; cbn in *; subst.
  - cbn [add_entries]. unfold add_entry at 1. rewrite H.
    rewrite IH by reflexivity. cbn [_log fired List.length rows_inserted].
    rewrite length_app. cbn [List.length].
    rewrite <- !app_assoc. cbn [app].
    replace (List.length (_log g) + 1)%nat with (S (List.length (_log g))) by lia.
    reflexivity.
Qed.

(** X6: [reload()] on a table whose lock is free leaves in the table the
    entries the working copy yields, in that order, whatever the table
    held: it notifies the deletion of all old rows at once and the
    insertion of each new row.  When reading the working copy raises, the
    entries yielded before are in the table and [reload] raises the same
    exception. *)
Theorem reload_shows_working_copy (P : platform) (w : world) (g : GuiLog) :
  _lock g = false ->
  reload P w g
  = (match snd (entries P w) with
     | Some e => Raised e
     | None => Returned
     end,
     mkGuiLog (fst (entries P w)) false
       (fired g ++ rows_cleared (List.length (_log g))
        ++ rows_inserted O (List.length (fst (entries P w))))).
Proof.
  intros H. unfold reload. rewrite (clear_eq g H).
  destruct (entries P w) as [yielded stop]. cbn [fst snd].
  rewrite add_entries_eq by reflexivity. cbn [_log fired app List.length].
  rewrite <- app_assoc. now destruct stop.
Qed.

Lemma reload_shows_working_copy_witness :
  reload creation_order stray_file two_rows
  = (Raised OSError,
     mkGuiLog [[("md5", VStr "0a"); ("tool", VStr "repeater")]] false
       [RowsDeleted 0 1; RowsInserted 0 0]).
Proof.
  rewrite (reload_shows_working_copy creation_order stray_file two_rows eq_refl).
  vm_compute. reflexivity.
Defined.

Lemma remove_scan_first_match entry l1 e l2 :
  Forall (no_match entry) l1 ->
  same_md5 entry e ->
  forall i last,
    remove_scan entry (l1 ++ e :: l2) i last = Ok (Some (i + List.length l1)%nat, true).
Proof.
  intros Hno [a [b [Ha [Hb Hab]]]].
  induction Hno as [|ei l1 Hei Hl1 IH]; intros i last.
  - cbn [app remove_scan List.length]. rewrite Ha, Hb, Hab. do 3 f_equal. lia.
  - destruct Hei as [a' [b' [Ha' [Hb' Hab']]]].
    cbn [app remove_scan List.length]. rewrite Ha', Hb', Hab', IH. do 3 f_equal. lia.
Qed.

Lemma remove_at_middle {A : Type} (l1 : list A) x l2 :
  remove_at (List.length l1) (l1 ++ x :: l2) = l1 ++ l2.
Proof.
  unfold remove_at. induction l1 as [|a l1 IH]; [reflexivity|].
  cbn [List.length app firstn skipn]. cbn [skipn] in IH. now rewrite IH.
Qed.

(** X7: [remove_entry] removes the first row that has the fingerprint of
    the entry, and that row only: the rows before and after it stay, in
    their order; one row-deleted notification is fired, for the index of
    the removed row, and the lock is released. *)
Theorem remove_entry_removes_first_match (entry : LogEntry) (g : GuiLog)
  (l1 l2 : list LogEntry) (e : LogEntry) :
  _lock g = false ->
  _log g = l1 ++ e :: l2 ->
  Forall (no_match entry) l1 ->
  same_md5 entry e ->
  remove_entry entry g
  = (Returned,
     mkGuiLog (l1 ++ l2) false
       (fired g ++ [RowsDeleted (Z.of_nat (List.length l1)) (Z.of_nat (List.length l1))])).
Proof.
  intros Hlock Hlog Hno Hsame. unfold remove_entry. rewrite Hlock, Hlog.
  rewrite (remove_scan_first_match entry l1 e l2 Hno Hsame). cbn [Nat.add].
  now rewrite remove_at_middle.
Qed.

Lemma remove_entry_removes_first_match_witness :
  remove_entry [("md5", VStr "aee0b9286113a035e04c3a64561636e7")] two_rows
  = (Returned,
     mkGuiLog [[("tool", VStr "repeater"); ("md5", VStr "3f6223494ad4b79abda59c2873efe35d")]]
       false [RowsDeleted 1 1]).
Proof.
  apply (remove_entry_removes_first_match
           [("md5", VStr "aee0b9286113a035e04c3a64561636e7")] two_rows
           [[("tool", VStr "repeater"); ("md5", VStr "3f6223494ad4b79abda59c2873efe35d")]]
           []
           [("tool", VStr "scanner"); ("md5", VStr "aee0b9286113a035e04c3a64561636e7")]).
  - reflexivity.
  - reflexivity.
  - repeat constructor. eexists. eexists. repeat split; reflexivity.
  - eexists. eexists. repeat split; reflexivity.
Defined.

(** X8: an entry added to the table and removed again leaves the rows as
    they were, when no row had its fingerprint: the entry went to the end
    of the table, and it is the row [remove_entry] finds. *)
Theorem add_then_remove_restores_rows (entry : LogEntry) (g : GuiLog) (h : string) :
  _lock g = false ->
  dict_get "md5" entry = Some (VStr h) ->
  Forall (no_match entry) (_log g) ->
  exists g1,
    add_entry entry g = (Returned, g1)
    /\ remove_entry entry g1
       = (Returned,
          mkGuiLog (_log g) false
            (fired g
             ++ [RowsInserted (Z.of_nat (List.length (_log g))) (Z.of_nat (List.length (_log g)));
                 RowsDeleted (Z.of_nat (List.length (_log g))) (Z.of_nat (List.length (_log g)))])).
Proof.
  intros Hlock Hmd5 Hno. unfold add_entry. rewrite Hlock.
  eexists. split; [reflexivity|].
  erewrite (remove_entry_removes_first_match entry _ (_log g) [] entry);
    [| reflexivity | reflexivity | exact Hno |].
  - cbn [fired]. rewrite app_nil_r, <- app_assoc. reflexivity.
  - exists (VStr h), (VStr h). repeat split; try assumption.
    cbn [py_eq]. apply String.eqb_refl.
Qed.

Lemma add_then_remove_restores_rows_witness :
  exists g1,
    add_entry [("md5", VStr "d41d8cd98f00b204e9800998ecf8427e")] two_rows = (Returned, g1)
    /\ remove_entry [("md5", VStr "d41d8cd98f00b204e9800998ecf8427e")] g1
       = (Returned,
          mkGuiLog (_log two_rows) false [RowsInserted 2 2; RowsDeleted 2 2]).
Proof.
  apply (add_then_remove_restores_rows
           [("md5", VStr "d41d8cd98f00b204e9800998ecf8427e")] two_rows
           "d41d8cd98f00b204e9800998ecf8427e").
  - reflexivity.
  - reflexivity.
  - repeat constructor; eexists; eexists; repeat split; reflexivity.
Defined.

(** ** More on writing and reading entries *)

Lemma add_repeater_entry_tree P r w root es0 h :
  repo_path w = Some root ->
  fs w = Dir es0 ->
  dict_get h es0 = None ->
  dict_get "md5" r = Some (VStr h) ->
  scalar_fields r ->
  exists res w',
    add_repeater_entry P r w = (res, w')
    /\ (res = Ok tt \/ exists text, res = Raise (Exception text))
    /\ fs_get [h] (fs w') = Some (Dir (link_fields P r [])).
Proof.
  intros Hroot Hfs Hfresh Hmd5 Hscalar.
  unfold add_repeater_entry, getattr. rewrite Hmd5.
  erewrite bind_ok; [|reflexivity].
  erewrite bind_ok; [|exact (join_repo_eq w root h Hroot)].
  assert (Hd0 : fs_get [] (fs w) = Some (Dir es0)) by (now rewrite Hfs).
  erewrite bind_ok; [|apply os_path_exists_eq].
  change [h] with (path_join [] h).
  rewrite (fs_get_child [] h _ es0 Hd0), Hfresh. cbv beta iota.
  erewrite bind_ok; [|exact (os_mkdir_ok P w [] h es0 Hd0 Hfresh)].
  set (w1 := set_fs _ w).
  assert (Hh1 : fs_get (path_join [] h) (fs w1) = Some (Dir [])).
  { subst w1. cbn [fs set_fs fs_replace path_join app fs_get].
    now rewrite dict_get_dir_link_same. }
  destruct (write_entry_ok P (path_join [] h) r w1 [] Hscalar Hh1 (Forall_nil _))
    as [w2 [Hrun2 [Hrp2 Hfs2]]].
  erewrite bind_ok; [|exact Hrun2].
  assert (Hh2 : fs_get [h] (fs w2) = Some (Dir (link_fields P r []))).
  { rewrite Hfs2. eapply fs_get_replace. exact Hh1. }
  fold (commit_cmd "Added Repeater entry").
  destruct (commit_keeps_tree "Added Repeater entry" w2) as [Htree Hres].
  unfold bind at 1.
  destruct (_run_subprocess_command (commit_cmd "Added Repeater entry") false w2)
    as [[o|e] w3]; cbn [fst snd] in *.
  - exists (Ok tt), w3. split; [reflexivity|]. split; [now left | now rewrite Htree].
  - exists (Raise e), w3. split; [reflexivity|]. split; [|now rewrite Htree].
    right. destruct Hres as [Hres|[text Hres]]; [discriminate|].
    exists text. congruence.
Qed.

(** X9: an entry of scalar fields stored by [add_repeater_entry], in a
    working copy that has no directory of its fingerprint, is read back
    from the directory of that name as a Record with the same names, each
    holding the text written for the field: strings and byte arrays (the
    request, the response) come back byte for byte, integers as their
    digits, empty values as the empty string. *)
Theorem repeater_entry_round_trip (P : platform) (r : LogEntry) (w : world)
  (root h : string) (es0 : list (string * node)) :
  NoDup (keys r) ->
  dict_get "md5" r = Some (VStr h) ->
  scalar_fields r ->
  repo_path w = Some root ->
  fs w = Dir es0 ->
  dict_get h es0 = None ->
  exists res w' d r',
    add_repeater_entry P r w = (res, w')
    /\ (res = Ok tt \/ exists text, res = Raise (Exception text))
    /\ fs_get [h] (fs w') = Some d
    /\ load_entry P d = Ok r'
    /\ forall k, dict_get k r' = option_map (fun v => VStr (file_text v)) (dict_get k r).
Proof.
  intros Hnd Hmd5 Hscalar Hroot Hfs Hfresh.
  destruct (add_repeater_entry_tree P r w root es0 h Hroot Hfs Hfresh Hmd5 Hscalar)
    as [res [w' [Hrun [Hres Htree]]]].
  destruct (load_scalar_fields P r Hnd) as [r' [Hload Hrb]].
  exists res, w', (Dir (link_fields P r [])), r'.
  repeat (split; [assumption|]).
  intros k. rewrite (Hrb k).
  destruct (dict_get k r) eqn:E; [reflexivity|].
  cbn [option_map empty_entry dict_get].
  destruct ("md5" =? k)%string eqn:E'; [|reflexivity].
  apply String.eqb_eq in E'. subst k. congruence.
Qed.

Lemma repeater_entry_round_trip_witness :
  exists res w' d r',
    add_repeater_entry creation_order repeater_entry clean_copy = (res, w')
    /\ (res = Ok tt \/ exists text, res = Raise (Exception text))
    /\ fs_get ["af9df08a58aa738eadf1f2c2db6d53cc"%string] (fs w') = Some d
    /\ load_entry creation_order d = Ok r'
    /\ forall k, dict_get k r'
                 = option_map (fun v => VStr (file_text v)) (dict_get k repeater_entry).
Proof.
  apply (repeater_entry_round_trip creation_order repeater_entry clean_copy
           "/home/u/.burp-git-bridge/repo" "af9df08a58aa738eadf1f2c2db6d53cc" []).
  - repeat constructor; cbn; intuition discriminate.
  - reflexivity.
  - repeat constructor.
  - reflexivity.
  - reflexivity.
  - reflexivity.
Defined.

(** X10: the fingerprint survives the store.  For keyword arguments of
    scalar values with distinct names, the Record the constructor builds,
    stored by [add_repeater_entry] and read back, has in its md5 field the
    fingerprint the constructor computed: reading never recomputes it, and
    the 32 hexadecimal characters are written and read unchanged. *)
Theorem stored_fingerprint_is_read_back (P : platform) (kwargs r : LogEntry)
  (w : world) (root : string) (es0 : list (string * node)) :
  NoDup (keys kwargs) ->
  scalar_fields kwargs ->
  LogEntry_init P kwargs = Ok r ->
  repo_path w = Some root ->
  fs w = Dir es0 ->
  (forall h, fingerprint P kwargs = Ok h -> dict_get h es0 = None) ->
  exists h res w' d r',
    fingerprint P kwargs = Ok h
    /\ add_repeater_entry P r w = (res, w')
    /\ fs_get [h] (fs w') = Some d
    /\ load_entry P d = Ok r'
    /\ dict_get "md5" r' = Some (VStr h)
    /\ dict_get "md5" r' = dict_get "md5" r.
Proof.
  intros Hnd Hscalar Hinit Hroot Hfs Hfresh.
  unfold LogEntry_init in Hinit.
  destruct (fingerprint P kwargs) as [h|e] eqn:Hfp; [|discriminate].
  injection Hinit as <-.
  assert (Hlen : String.length h = 32%nat)
    by (destruct (fingerprint_is_hexdigest P kwargs h Hfp) as [bs ->];
        apply md5_hexdigest_shape).
  assert (Hmd5 : dict_get "md5" (dict_set "md5" (VStr h) kwargs) = Some (VStr h))
    by apply dict_get_set_same.
  assert (Hnd' : NoDup (keys (dict_set "md5" (VStr h) kwargs)))
    by now apply NoDup_keys_dict_set.
  assert (Hsc' : scalar_fields (dict_set "md5" (VStr h) kwargs))
    by (apply Forall_dict_set; [exact I | exact Hscalar]).
  destruct (add_repeater_entry_tree P _ w root es0 h Hroot Hfs (Hfresh h eq_refl) Hmd5 Hsc')
    as [res [w' [Hrun [_ Htree]]]].
  destruct (load_scalar_fields P _ Hnd') as [r' [Hload Hrb]].
  exists h, res, w', (Dir (link_fields P (dict_set "md5" (VStr h) kwargs) [])), r'.
  repeat (split; [assumption || reflexivity|]).
  assert (Hget : dict_get "md5" r' = Some (VStr h)).
  { rewrite (Hrb "md5"%string), Hmd5. unfold file_text.
    destruct h; [discriminate|]. reflexivity. }
  split; [exact Hget | now rewrite Hget, Hmd5].
Qed.

Lemma stored_fingerprint_is_read_back_witness :
  exists h res w' d r',
    fingerprint creation_order repeater_kwargs = Ok h
    /\ add_repeater_entry creation_order repeater_entry clean_copy = (res, w')
    /\ fs_get [h] (fs w') = Some d
    /\ load_entry creation_order d = Ok r'
    /\ dict_get "md5" r' = Some (VStr h)
    /\ dict_get "md5" r' = dict_get "md5" repeater_entry.
Proof.
  apply (stored_fingerprint_is_read_back creation_order repeater_kwargs repeater_entry
           clean_copy "/home/u/.burp-git-bridge/repo" []).
  - repeat constructor; cbn; intuition discriminate.
  - repeat constructor.
  - vm_compute. reflexivity.
  - reflexivity.
  - reflexivity.
  - reflexivity.
Defined.

(** ** More on the commands *)

Lemma forM_app {A : Type} (f : A -> M unit) l1 l2 w :
  forM_ f (l1 ++ l2) w = bind (forM_ f l1) (fun _ => forM_ f l2) w.
Proof.
  revert w. induction l1 as [|x l1 IH]; intros w; [reflexivity|].
  cbn [app forM_]. unfold bind in *.
  destruct (f x w) as [[[]|e] w1]; [|reflexivity].
  apply IH.
Qed.

(** X11: [write_entry] on a Record that holds a list that is not empty
    raises TypeError at that field.  The scalar fields the dict yields
    before it are written, the list's file is left created and empty, and
    nothing of what comes after it is written. *)
Theorem write_entry_stops_at_list (P : platform) (d : path) (m1 m2 : LogEntry)
  (k : string) (x : value) (l : list value) (w : world) (es : list (string * node)) :
  scalar_fields m1 ->
  fs_get d (fs w) = Some (Dir es) ->
  Forall is_file es ->
  fst (write_entry P (VEntry (m1 ++ (k, VList (x :: l)) :: m2)) d w) = Raise TypeError
  /\ fs (snd (write_entry P (VEntry (m1 ++ (k, VList (x :: l)) :: m2)) d w))
     = fs_replace d (Dir (dir_link P k (File EmptyString) (link_fields P m1 es))) (fs w).
Proof.
  intros Hscalar Hd Hfiles.
  unfold write_entry.
  erewrite bind_ok; [|apply os_path_exists_eq]. rewrite Hd.
  erewrite bind_ok; [|reflexivity].
  rewrite forM_app.
  destruct (write_fields_ok P d m1 Hscalar w es Hd Hfiles) as [w1 [Hrun [_ Hfs1]]].
  erewrite bind_ok; [|exact Hrun].
  assert (Hd1 : fs_get d (fs w1) = Some (Dir (link_fields P m1 es)))
    by (rewrite Hfs1; eapply fs_get_replace; exact Hd).
  cbn [forM_ write_field py_truthy coerce_data].
  erewrite bind_raise.
  2:{ erewrite bind_raise; [reflexivity|].
      erewrite bind_ok; [reflexivity|].
      apply write_file_ok with (es := link_fields P m1 es); [exact Hd1|].
      intros ces. apply files_hold_no_dir. now apply link_fields_files. }
  cbn [fst snd set_fs fs]. split; [reflexivity|].
  rewrite Hfs1. eapply fs_replace_replace. exact Hd.
Qed.

Lemma write_entry_stops_at_list_witness :
  fst (write_entry creation_order
         (VEntry ([("tool", VStr "scanner")]
                  ++ ("messages", VList [VNone]) :: [("host", VStr "example.com")]))
         ["3f6223494ad4b79abda59c2873efe35d"%string] bobs_entry)
  = Raise TypeError.
Proof.
  refine (proj1 (write_entry_stops_at_list creation_order
                   ["3f6223494ad4b79abda59c2873efe35d"%string]
                   [("tool", VStr "scanner")] [("host", VStr "example.com")]
                   "messages" VNone [] bobs_entry
                   [("tool", File "repeater");
                    ("who", File (String "b" (String "o" (String "b" nl))));
                    ("description", File EmptyString)]
                   _ eq_refl _)).
  - repeat constructor.
  - repeat constructor.
Defined.

Lemma git_add_step w p data :
  fs_get p (fs w) = Some (File data) ->
  exists c,
    _run_subprocess_command [Word "git"; Word "add"; PathArg p] false w
    = (Ok EmptyString, set_console c (set_index (dict_set (path_key p) data (index w)) w)).
Proof.
  intros H. rewrite run_subprocess_command_eq.
  change (popen [Word "git"; Word "add"; PathArg p] w) with (git (GitAdd p) w).
  cbn [git]. rewrite H. cbn [fst snd returncode Z.eqb out]. eexists. reflexivity.
Qed.

Lemma commit_step msg w :
  exists c,
    _run_subprocess_command (commit_cmd msg) false w
    = match user_name w with
      | Some _ =>
          if nothing_staged w
          then (Raise (Exception ("Error on call: " ++ str_cmd_list w (commit_cmd msg))),
                set_console c w)
          else (Ok ("[master] " ++ msg ++ nl)%string, set_console c (set_head (index w) w))
      | None =>
          (Raise (Exception ("Error on call: " ++ str_cmd_list w (commit_cmd msg))),
           set_console c w)
      end.
Proof.
  rewrite run_subprocess_command_eq, popen_commit.
  destruct (user_name w); [destruct (nothing_staged w)|];
    cbn [fst snd returncode Z.eqb out]; eexists; reflexivity.
Qed.

Lemma pull_step w ev rest :
  remote w = ev :: rest ->
  exists c,
    _run_subprocess_command [Word "git"; Word "pull"] false w
    = ((if returncode (net_result ev) =? 0 then Ok (out (net_result ev))
        else Raise (Exception "Error on call: ['git', 'pull']")),
       set_console c (set_remote rest (pulled ev w))).
Proof.
  intros H. rewrite run_subprocess_command_eq.
  change (popen [Word "git"; Word "pull"] w) with (git GitPull w).
  cbn [git]. rewrite H. cbn [fst snd]. eexists. reflexivity.
Qed.

Lemma push_step w ev rest :
  remote w = ev :: rest ->
  exists c,
    _run_subprocess_command [Word "git"; Word "push"; Word "origin"; Word "master"] false w
    = ((if returncode (net_result ev) =? 0 then Ok (out (net_result ev))
        else Raise (Exception "Error on call: ['git', 'push', 'origin', 'master']")),
       set_console c (set_remote rest w)).
Proof.
  intros H. rewrite run_subprocess_command_eq.
  change (popen [Word "git"; Word "push"; Word "origin"; Word "master"] w)
    with (git GitPushOriginMaster w).
  cbn [git]. rewrite H. cbn [fst snd]. eexists. reflexivity.
Qed.

(** X12: [push()] pulls first, and a pull that fails ends it: the
    exception names the pull and [git push] is never run (the remote has
    answered one command, not two).  The files, the index and the last
    commit are as the failed pull left them: a pull that could not reach
    the remote changes nothing, one that stopped at a conflict has
    rewritten files and index. *)
Theorem push_stops_at_failed_pull (w : world) (ev : net_event) (rest : list net_event) :
  remote w = ev :: rest ->
  returncode (net_result ev) <> 0 ->
  fst (push w) = Raise (Exception "Error on call: ['git', 'pull']")
  /\ remote (snd (push w)) = rest
  /\ fs (snd (push w)) = match net_tree ev with Some t => t | None => fs w end
  /\ index (snd (push w)) = match net_index ev with Some i => i | None => index w end
  /\ head (snd (push w)) = match net_head ev with Some h => h | None => head w end.
Proof.
  intros Hrem Hrc. unfold push.
  destruct (pull_step w ev rest Hrem) as [c Hpull].
  apply Z.eqb_neq in Hrc. rewrite Hrc in Hpull.
  erewrite bind_raise; [|exact Hpull].
  cbn [fst snd]. repeat split.
Qed.

Lemma push_stops_at_failed_pull_witness :
  fst (push (set_remote [conflict; up_to_date] clean_copy))
  = Raise (Exception "Error on call: ['git', 'pull']")
  /\ remote (snd (push (set_remote [conflict; up_to_date] clean_copy))) = [up_to_date]
  /\ index (snd (push (set_remote [conflict; up_to_date] clean_copy)))
     = [("0a/description", "ours"); ("0a/description", "theirs")]%string.
Proof.
  destruct (push_stops_at_failed_pull (set_remote [conflict; up_to_date] clean_copy)
              conflict [up_to_date] eq_refl) as [H1 [H2 [_ [H4 _]]]].
  - discriminate.
  - repeat split; assumption.
Defined.

Lemma push_ok w ev1 ev2 rest :
  remote w = ev1 :: ev2 :: rest ->
  returncode (net_result ev1) = 0 ->
  returncode (net_result ev2) = 0 ->
  exists c, push w = (Ok tt, set_console c (set_remote rest (pulled ev1 w))).
Proof.
  intros Hrem H1 H2. unfold push.
  destruct (pull_step w ev1 (ev2 :: rest) Hrem) as [c1 Hpull].
  rewrite H1 in Hpull. cbn [Z.eqb] in Hpull.
  erewrite bind_ok; [|exact Hpull].
  erewrite bind_ok; [|apply print_eq].
  match goal with |- context [bind _ _ ?w1] => set (w1' := w1) end.
  destruct (push_step w1' ev2 rest) as [c2 Hpush]; [reflexivity|].
  rewrite H2 in Hpush. cbn [Z.eqb] in Hpush.
  erewrite bind_ok; [|exact Hpush].
  rewrite print_eq. subst w1'. eexists. reflexivity.
Qed.

(** X13: [set_description] by the author of the entry.  When the name
    in the [who] file is the name [whoami()] gives, the new text differs
    from what is committed, and the remote accepts the pull and the push,
    the call returns None and the remote has answered the pull and the
    push.  The text is in the description file, staged and committed
    under the path of the file, where the pull has not put the files,
    the index or the last commit of the remote in their place. *)
Theorem set_description_by_author (P : platform) (entry_hash description : string)
  (w : world) (root name : string) (es : list (string * node))
  (ev1 ev2 : net_event) (rest : list net_event) :
  repo_path w = Some root ->
  fs_get [entry_hash] (fs w) = Some (Dir es) ->
  dict_get "who" es = Some (File (name ++ nl)) ->
  (forall ces, dict_get "description" es <> Some (Dir ces)) ->
  user_name w = Some name ->
  same_content (dict_set (path_key [entry_hash; "description"]) description (index w))
    (head w) = false ->
  remote w = ev1 :: ev2 :: rest ->
  returncode (net_result ev1) = 0 ->
  returncode (net_result ev2) = 0 ->
  let result := set_description P entry_hash description w in
  fst result = Ok None
  /\ fs (snd result)
     = match net_tree ev1 with
       | Some t => t
       | None =>
           fs_replace [entry_hash]
             (Dir (dir_link P "description" (File description) es)) (fs w)
       end
  /\ index (snd result)
     = match net_index ev1 with
       | Some i => i
       | None => dict_set (path_key [entry_hash; "description"]) description (index w)
       end
  /\ head (snd result)
     = match net_head ev1 with
       | Some h => h
       | None => dict_set (path_key [entry_hash; "description"]) description (index w)
       end
  /\ remote (snd result) = rest.
Proof.
  intros Hroot Hdir Hwho Hdesc Hname Hstaged Hrem Hrc1 Hrc2. cbv zeta.
  unfold set_description.
  rewrite (bind_ok _ _ _ _ _ (join_repo_eq w root entry_hash Hroot)).
  assert (Hwhof : fs_get (path_join [entry_hash] "who") (fs w) = Some (File (name ++ nl)))
    by (rewrite (fs_get_child _ _ _ _ Hdir); exact Hwho).
  rewrite (bind_ok _ _ _ _ _ (read_file_eq w _ _ Hwhof)).
  erewrite bind_ok; [|rewrite whoami_eq, Hname; reflexivity].
  rewrite String.eqb_refl. cbn [negb].
  set (w1 := set_console _ w).
  erewrite bind_ok;
    [|apply (write_file_ok P w1 [entry_hash] "description" description es);
      [exact Hdir | exact Hdesc]].
  set (w2 := set_fs _ w1).
  assert (Hfile : fs_get (path_join [entry_hash] "description") (fs w2)
                  = Some (File description)).
  { subst w2. cbn [fs set_fs].
    rewrite (fs_get_child [entry_hash] "description" _
               (dir_link P "description" (File description) es)).
    - apply dict_get_dir_link_same.
    - eapply fs_get_replace. exact Hdir. }
  destruct (git_add_step w2 _ _ Hfile) as [c3 Hadd].
  erewrite bind_ok; [|exact Hadd].
  set (w3 := set_console c3 _).
  destruct (commit_step "Edited description entry" w3) as [c4 Hcommit].
  assert (Hid : user_name w3 = Some name) by exact Hname.
  assert (Hns : nothing_staged w3 = false) by exact Hstaged.
  rewrite Hid, Hns in Hcommit.
  erewrite bind_ok; [|exact Hcommit].
  set (w4 := set_console c4 _).
  destruct (push_ok w4 ev1 ev2 rest Hrem Hrc1 Hrc2) as [c5 Hpush].
  erewrite bind_ok; [|exact Hpush].
  cbn [fst snd ret]. repeat split.
Qed.

Lemma set_description_by_author_witness :
  fst (set_description creation_order "3f6223494ad4b79abda59c2873efe35d" "new" alices_entry)
  = Ok None
  /\ remote (snd (set_description creation_order "3f6223494ad4b79abda59c2873efe35d" "new"
                    alices_entry)) = [].
Proof.
  pose proof (set_description_by_author creation_order
                "3f6223494ad4b79abda59c2873efe35d" "new" alices_entry
                "/home/u/.burp-git-bridge/repo" "alice"
                [("tool", File "repeater");
                 ("who", File ("alice" ++ nl)%string);
                 ("description", File "old")]
                up_to_date up_to_date []
                eq_refl eq_refl eq_refl) as H.
  cbv zeta in H.
  destruct H as [H1 [_ [_ [_ H5]]]]; try reflexivity.
  - intros ces. discriminate.
  - split; assumption.
Defined.

(** X14: [set_description] with the text that is already staged and
    committed.  The file is written again, [git add] stages nothing new,
    [git commit] exits with status 1 and the call raises; no pull and no
    push follow, and the last commit is as it was. *)
Theorem set_description_unchanged_raises (P : platform) (entry_hash description : string)
  (w : world) (root name : string) (es : list (string * node)) :
  repo_path w = Some root ->
  fs_get [entry_hash] (fs w) = Some (Dir es) ->
  dict_get "who" es = Some (File (name ++ nl)) ->
  (forall ces, dict_get "description" es <> Some (Dir ces)) ->
  user_name w = Some name ->
  dict_get (path_key [entry_hash; "description"]) (index w) = Some description ->
  nothing_staged w = true ->
  let result := set_description P entry_hash description w in
  fst result
  = Raise (Exception "Error on call: ['git', 'commit', '-m', 'Edited description entry']")
  /\ fs (snd result)
     = fs_replace [entry_hash]
         (Dir (dir_link P "description" (File description) es)) (fs w)
  /\ index (snd result) = index w
  /\ head (snd result) = head w
  /\ remote (snd result) = remote w.
Proof.
  intros Hroot Hdir Hwho Hdesc Hname Hidx Hclean. cbv zeta.
  unfold set_description.
  rewrite (bind_ok _ _ _ _ _ (join_repo_eq w root entry_hash Hroot)).
  assert (Hwhof : fs_get (path_join [entry_hash] "who") (fs w) = Some (File (name ++ nl)))
    by (rewrite (fs_get_child _ _ _ _ Hdir); exact Hwho).
  rewrite (bind_ok _ _ _ _ _ (read_file_eq w _ _ Hwhof)).
  erewrite bind_ok; [|rewrite whoami_eq, Hname; reflexivity].
  rewrite String.eqb_refl. cbn [negb].
  set (w1 := set_console _ w).
  erewrite bind_ok;
    [|apply (write_file_ok P w1 [entry_hash] "description" description es);
      [exact Hdir | exact Hdesc]].
  set (w2 := set_fs _ w1).
  assert (Hfile : fs_get (path_join [entry_hash] "description") (fs w2)
                  = Some (File description)).
  { subst w2. cbn [fs set_fs].
    rewrite (fs_get_child [entry_hash] "description" _
               (dir_link P "description" (File description) es)).
    - apply dict_get_dir_link_same.
    - eapply fs_get_replace. exact Hdir. }
  destruct (git_add_step w2 _ _ Hfile) as [c3 Hadd].
  erewrite bind_ok; [|exact Hadd].
  set (w3 := set_console c3 _).
  assert (Hidx3 : index w3 = index w).
  { subst w3 w2 w1. cbn [index set_console set_index set_fs].
    apply dict_set_same. exact Hidx. }
  destruct (commit_step "Edited description entry" w3) as [c4 Hcommit].
  assert (Hid : user_name w3 = Some name) by exact Hname.
  assert (Hns : nothing_staged w3 = true).
  { unfold nothing_staged. rewrite Hidx3. exact Hclean. }
  rewrite Hid, Hns in Hcommit.
  erewrite bind_raise; [|exact Hcommit].
  cbn [fst snd]. split; [reflexivity|].
  split; [reflexivity|]. split; [exact Hidx3|]. split; reflexivity.
Qed.

Lemma set_description_unchanged_raises_witness :
  fst (set_description creation_order "3f6223494ad4b79abda59c2873efe35d" "old" alices_entry)
  = Raise (Exception "Error on call: ['git', 'commit', '-m', 'Edited description entry']")
  /\ remote (snd (set_description creation_order "3f6223494ad4b79abda59c2873efe35d" "old"
                    alices_entry)) = [up_to_date; up_to_date].
Proof.
  pose proof (set_description_unchanged_raises creation_order
                "3f6223494ad4b79abda59c2873efe35d" "old" alices_entry
                "/home/u/.burp-git-bridge/repo" "alice"
                [("tool", File "repeater");
                 ("who", File ("alice" ++ nl)%string);
                 ("description", File "old")]
                eq_refl eq_refl eq_refl) as H.
  cbv zeta in H.
  destruct H as [H1 [_ [_ [_ H5]]]]; try reflexivity.
  - intros ces. discriminate.
  - split; assumption.
Defined.

(** ** Splitting and joining strings *)

Lemma append_snoc (cur : string) c (a : string) :
  ((cur ++ String c EmptyString) ++ a)%string = (cur ++ String c a)%string.
Proof. induction cur as [|x cur IH]; [reflexivity|]. cbn. now rewrite IH. Qed.

Lemma prefix_char c c' r :
  String.prefix (String c EmptyString) (String c' r) = Ascii.eqb c c'.
Proof.
  cbn. destruct (ascii_dec c c') as [->|Hne].
  - rewrite Ascii.eqb_refl. now destruct r.
  - symmetry. now apply Ascii.eqb_neq.
Qed.

Lemma contains_char_app c (a b : string) :
  contains_char c (a ++ b)%string = contains_char c a || contains_char c b.
Proof.
  induction a as [|x a IH]; [reflexivity|].
  cbn. rewrite IH. now rewrite orb_assoc.
Qed.

Lemma split_from_nonempty sep s : forall k cur, split_from sep k cur s <> [].
Proof.
  induction s as [|c s IH]; intros k cur; [discriminate|].
  cbn [split_from]. destruct k as [|k]; [|apply IH].
  destruct (String.prefix sep (String c s)); [discriminate | apply IH].
Qed.

Lemma split1_nosep c (a : string) :
  contains_char c a = false ->
  forall cur, split_from (String c EmptyString) O cur a = [(cur ++ a)%string].
Proof.
  induction a as [|c' a IH]; intros H cur.
  - cbn. now rewrite append_nil_r.
  - cbn [contains_char] in H. apply orb_false_iff in H. destruct H as [Hc Ha].
    cbn [split_from]. rewrite prefix_char, Hc, (IH Ha). now rewrite append_snoc.
Qed.

Lemma split1_app c (a b : string) :
  contains_char c a = false ->
  forall cur,
    split_from (String c EmptyString) O cur (a ++ String c b)%string
    = (cur ++ a)%string :: split_from (String c EmptyString) O EmptyString b.
Proof.
  induction a as [|c' a IH]; intros H cur.
  - cbn [append split_from]. rewrite prefix_char, Ascii.eqb_refl.
    now rewrite append_nil_r.
  - cbn [contains_char] in H. apply orb_false_iff in H. destruct H as [Hc Ha].
    cbn [append split_from]. rewrite prefix_char, Hc, (IH Ha). now rewrite append_snoc.
Qed.

Lemma split1_parts c (s : string) :
  forall cur,
    contains_char c cur = false ->
    Forall (fun p => contains_char c p = false)
      (split_from (String c EmptyString) O cur s).
Proof.
  induction s as [|c' s IH]; intros cur Hcur.
  - repeat constructor. exact Hcur.
  - cbn [split_from]. rewrite prefix_char.
    destruct (Ascii.eqb c c') eqn:E.
    + constructor; [exact Hcur|]. cbn [String.length Nat.pred]. now apply IH.
    + apply IH. rewrite contains_char_app, Hcur. cbn. now rewrite E.
Qed.

Lemma split_from_keeps (f : ascii -> bool) sep (s : string) :
  forall k cur,
    all_chars f cur = true ->
    all_chars f s = true ->
    Forall (fun p => all_chars f p = true) (split_from sep k cur s).
Proof.
  assert (Happ : forall a b : string,
             all_chars f a = true -> all_chars f b = true ->
             all_chars f (a ++ b)%string = true).
  { induction a as [|x a IHa]; intros b Ha Hb; [exact Hb|].
    cbn in *. apply andb_true_iff in Ha. destruct Ha as [Hx Ha].
    now rewrite Hx, IHa. }
  induction s as [|c s IH]; intros k cur Hcur Hs.
  - repeat constructor. exact Hcur.
  - cbn [all_chars] in Hs. apply andb_true_iff in Hs. destruct Hs as [Hc Hs].
    cbn [split_from]. destruct k as [|k]; [|now apply IH].
    destruct (String.prefix sep (String c s)).
    + constructor; [exact Hcur | now apply IH].
    + apply IH; [|exact Hs]. apply Happ; [exact Hcur|]. cbn. now rewrite Hc.
Qed.

Lemma split1_concat c (lines : list string) :
  lines <> [] ->
  Forall (fun p => contains_char c p = false) lines ->
  py_split (String c EmptyString) (String.concat (String c EmptyString) lines) = lines.
Proof.
  unfold py_split. induction lines as [|x rest IH]; intros Hne Hall; [contradiction|].
  inversion Hall as [|? ? Hx Hrest]; subst.
  destruct rest as [|y rest].
  - cbn [String.concat]. now rewrite (split1_nosep c x Hx).
  - change (String.concat (String c EmptyString) (x :: y :: rest))
      with (x ++ String c (String.concat (String c EmptyString) (y :: rest)))%string.
    rewrite (split1_app c x _ Hx). cbn [append]. f_equal.
    apply IH; [discriminate | exact Hrest].
Qed.

Lemma py_getitem_last {A : Type} (l : list A) (d : A) :
  l <> [] -> py_getitem l (-1) = Some (last l d).
Proof.
  intros Hne. destruct (exists_last Hne) as [l' [x ->]].
  rewrite last_last. unfold py_getitem. rewrite length_app. cbn [List.length].
  replace (if -1 <? 0 then -1 + Z.of_nat (List.length l' + 1) else -1)
    with (Z.of_nat (List.length l')) by (cbn [Z.ltb Z.compare]; lia).
  destruct (Z.ltb_spec (Z.of_nat (List.length l')) 0) as [?|_]; [lia|].
  destruct (Z.leb_spec (Z.of_nat (List.length l' + 1)) (Z.of_nat (List.length l')))
    as [?|_]; [lia|].
  cbn [orb]. rewrite Nat2Z.id, nth_error_app2 by lia.
  now rewrite Nat.sub_diag.
Qed.

Lemma last_cons_nonempty {A : Type} (x : A) l d : l <> [] -> last (x :: l) d = last l d.
Proof. destruct l; [contradiction | reflexivity]. Qed.

Lemma last_split_slash (t : string) :
  contains_char "/" t = false ->
  forall (pre cur : string),
    last (split_from "/" O cur (pre ++ String "/" t)%string) EmptyString = t.
Proof.
  intros Ht. induction pre as [|c pre IH]; intros cur.
  - cbn [append split_from]. rewrite prefix_char. cbn [Ascii.eqb Bool.eqb andb].
    cbn [String.length Nat.pred].
    rewrite (split1_nosep "/" t Ht). reflexivity.
  - cbn [append split_from]. rewrite prefix_char.
    destruct (Ascii.eqb "/" c); [|apply IH].
    cbn [String.length Nat.pred].
    rewrite last_cons_nonempty by apply split_from_nonempty. apply IH.
Qed.

(** Where [.git] starts inside [t ++ ".git" ++ b], it starts inside [t]:
    the separator does not overlap itself. *)
Lemma dot_git_no_overlap c (t b : string) :
  String.prefix ".git" (String c (t ++ ".git" ++ b))%string = true ->
  String.prefix ".git" (String c t) = true.
Proof.
  cbn [String.prefix].
  destruct (ascii_dec "." c) as [_|]; [|discriminate].
  destruct t as [|c2 t]; cbn [append String.prefix].
  { destruct (ascii_dec "g" "."); [discriminate | trivial]. }
  destruct (ascii_dec "g" c2) as [_|]; [|trivial].
  destruct t as [|c3 t]; cbn [append String.prefix].
  { destruct (ascii_dec "i" "."); [discriminate | trivial]. }
  destruct (ascii_dec "i" c3) as [_|]; [|trivial].
  destruct t as [|c4 t]; cbn [append String.prefix].
  { destruct (ascii_dec "t" "."); [discriminate | trivial]. }
  destruct (ascii_dec "t" c4) as [_|]; [|trivial].
  destruct t; reflexivity.
Qed.

Lemma split_dot_git (a b : string) :
  occurs ".git" a = false ->
  forall cur,
    exists more, split_from ".git" O cur (a ++ ".git" ++ b)%string = (cur ++ a)%string :: more.
Proof.
  induction a as [|c a IH]; intros H cur.
  - rewrite append_nil_r. destruct b; cbn; eexists; reflexivity.
  - cbn [occurs] in H. apply orb_false_iff in H. destruct H as [Hp Ha].
    change (String c a ++ ".git" ++ b)%string with (String c (a ++ ".git" ++ b))%string.
    cbn [split_from].
    destruct (String.prefix ".git" (String c (a ++ ".git" ++ b))%string) eqn:E.
    + apply dot_git_no_overlap in E. congruence.
    + destruct (IH Ha (cur ++ String c EmptyString)%string) as [more Hmore].
      exists more. rewrite Hmore. now rewrite append_snoc.
Qed.

(** X15: the repository name is what stands between the last slash of the
    address and the first [.git] after it, whatever follows that [.git]. *)
Theorem extract_repo_name_cuts_at_first_dot_git (pre a b : string) :
  contains_char "/" a = false ->
  contains_char "/" b = false ->
  occurs ".git" a = false ->
  _extract_repo_name (pre ++ "/" ++ a ++ ".git" ++ b) = Some a.
Proof.
  intros Ha Hb Hocc. unfold _extract_repo_name, py_split.
  rewrite (py_getitem_last _ EmptyString) by apply split_from_nonempty.
  change (pre ++ "/" ++ a ++ ".git" ++ b)%string
    with (pre ++ String "/" (a ++ ".git" ++ b))%string.
  rewrite last_split_slash.
  - destruct (split_dot_git a b Hocc EmptyString) as [more ->]. reflexivity.
  - rewrite !contains_char_app, Ha, Hb. reflexivity.
Qed.

Lemma extract_repo_name_cuts_at_first_dot_git_witness :
  _extract_repo_name "git@github.com:jfoote/burp-git-bridge.git" = Some "burp-git-bridge"%string
  /\ _extract_repo_name "git@host:me/my.github.io.git" = Some "my"%string.
Proof.
  split.
  - apply (extract_repo_name_cuts_at_first_dot_git "git@github.com:jfoote"
             "burp-git-bridge" EmptyString); reflexivity.
  - apply (extract_repo_name_cuts_at_first_dot_git "git@host:me" "my" "hub.io.git");
      reflexivity.
Defined.

(** ** The repository path *)

Lemma no_slash_all_chars (s : string) :
  contains_char "/" s = false <-> all_chars (fun c => negb (Ascii.eqb "/" c)) s = true.
Proof.
  induction s as [|c s IH]; [now split|].
  cbn [contains_char all_chars]. rewrite orb_false_iff, andb_true_iff, negb_true_iff.
  now rewrite IH.
Qed.

Lemma last_In {A : Type} (l : list A) d : l <> [] -> In (last l d) l.
Proof.
  intros Hne. destruct (exists_last Hne) as [l' [x ->]].
  rewrite last_last. apply in_or_app. right. now left.
Qed.

Lemma ends_with_slash_cons c (r : string) :
  r <> EmptyString -> ends_with_slash (String c r) = ends_with_slash r.
Proof. intros H. destruct r; [contradiction | reflexivity]. Qed.

Lemma ends_with_slash_app (a b : string) :
  b <> EmptyString -> ends_with_slash (a ++ b)%string = ends_with_slash b.
Proof.
  intros Hb. induction a as [|c a IH]; [reflexivity|].
  cbn [append]. rewrite ends_with_slash_cons; [exact IH|].
  intros H. apply append_empty_iff in H. now destruct H.
Qed.

Lemma base_path_ends_with_slash home : ends_with_slash (base_path home) = true.
Proof.
  unfold base_path, os_path_join_full, os_path_join.
  change (String.prefix "/" ".burp-git-bridge/") with false. cbv beta iota.
  destruct ((home =? "")%string || ends_with_slash home).
  - now rewrite ends_with_slash_app.
  - rewrite ends_with_slash_app; [reflexivity | discriminate].
Qed.

(** X16: whatever the address, [_extract_repo_name] returns a name
    without a slash, and the repository path made from it is the base
    path followed by that name: the working copy is an entry of the base
    directory itself (or, for the empty name, the base directory). *)
Theorem repo_path_is_child_of_base (home repo_uri : string) :
  exists name,
    _extract_repo_name repo_uri = Some name
    /\ contains_char "/" name = false
    /\ _generate_path_repo_name home name = (base_path home ++ name)%string.
Proof.
  unfold _extract_repo_name.
  rewrite (py_getitem_last _ EmptyString) by apply split_from_nonempty.
  set (tail := last (py_split "/" repo_uri) EmptyString).
  assert (Htail : contains_char "/" tail = false).
  { pose proof (split1_parts "/" repo_uri EmptyString eq_refl) as Hall.
    rewrite Forall_forall in Hall. apply Hall.
    apply last_In, split_from_nonempty. }
  pose proof (split_from_keeps (fun c => negb (Ascii.eqb "/" c)) ".git" tail O EmptyString
                eq_refl (proj1 (no_slash_all_chars tail) Htail)) as Hparts.
  fold (py_split ".git" tail) in Hparts.
  destruct (py_split ".git" tail) as [|name more] eqn:E.
  { exfalso. now apply (split_from_nonempty ".git" tail O EmptyString). }
  exists name. split; [reflexivity|].
  inversion Hparts as [|? ? Hname _]; subst.
  apply no_slash_all_chars in Hname. split; [exact Hname|].
  unfold _generate_path_repo_name, os_path_join_full at 1, os_path_join.
  rewrite base_path_ends_with_slash, orb_true_r.
  destruct name as [|c name]; [reflexivity|].
  rewrite prefix_char. cbn [contains_char] in Hname.
  apply orb_false_iff in Hname. destruct Hname as [-> _]. reflexivity.
Qed.

(** ** The file of projects and repositories *)

Lemma rel_set_fresh k v (acc : rels) :
  ~ In k (map fst acc) -> rel_set k v acc = acc ++ [(k, v)].
Proof.
  induction acc as [|[k' v'] acc IH]; intros H; [reflexivity|].
  cbn [rel_set]. destruct (key_eqb k' k) eqn:E.
  - exfalso. apply H. left. cbn [fst].
    destruct k' as [x|], k as [y|]; cbn in E; try discriminate; [|reflexivity].
    apply String.eqb_eq in E. now subst.
  - cbn [app]. f_equal. apply IH. intros Hin. apply H. now right.
Qed.

Lemma plain_parts (s : string) :
  plain s = true ->
  contains_char "," s = false /\ contains_char (ascii_of_nat 10) s = false.
Proof.
  unfold plain. rewrite andb_true_iff, !negb_true_iff. trivial.
Qed.

Lemma split_rel_line (kv : option string * option string) :
  plain_rel kv ->
  py_split "," (rel_line kv) = [format_opt (fst kv); format_opt (snd kv)].
Proof.
  intros [Hk Hv]. apply plain_parts in Hk, Hv.
  unfold py_split, rel_line.
  change (format_opt (fst kv) ++ "," ++ format_opt (snd kv))%string
    with (format_opt (fst kv) ++ String "," (format_opt (snd kv)))%string.
  rewrite (split1_app "," _ _ (proj1 Hk)), (split1_nosep "," _ (proj1 Hv)).
  reflexivity.
Qed.

Lemma load_lines (r : rels) :
  Forall plain_rel r ->
  NoDup (map (fun kv => format_opt (fst kv)) r) ->
  forall acc out,
    (forall kv, In kv r -> ~ In (Some (format_opt (fst kv))) (map fst acc)) ->
    fold_left load_line (map rel_line r) (acc, out) = (acc ++ map as_text r, out).
Proof.
  induction r as [|kv r IH]; intros Hplain Hnd acc out Hfresh.
  - cbn. now rewrite app_nil_r.
  - inversion Hplain as [|? ? Hkv Hr]; subst.
    inversion Hnd as [|? ? Hnotin Hnd']; subst.
    cbn [map fold_left]. unfold load_line at 2.
    rewrite (split_rel_line kv Hkv). cbn [fst snd].
    rewrite rel_set_fresh by (apply Hfresh; now left).
    rewrite (IH Hr Hnd').
    + rewrite <- app_assoc. reflexivity.
    + intros kv' Hin. rewrite map_app, in_app_iff. intros [Hacc|Hnew].
      * apply (Hfresh kv'); [now right | exact Hacc].
      * cbn in Hnew. destruct Hnew as [Heq|[]].
        injection Heq as Heq. apply Hnotin. rewrite Heq.
        apply (in_map (fun kv => format_opt (fst kv))). exact Hin.
Qed.

Lemma rel_set_nonempty k v r : rel_set k v r <> [].
Proof. destruct r as [|[k' v'] r]; cbn; [|destruct (key_eqb k' k)]; discriminate. Qed.

(** X17: what [save_current_project_repo] writes, [reload_project] reads
    back.  When the names and addresses hold no comma and no newline and
    the names are distinct as texts, every relation comes back, in the
    order of the file, as the pair of its texts, and no line is reported;
    a project or an address that was None comes back as the string
    [None]. *)
Theorem relations_file_round_trip (project_name repo_uri : option string) (r : rels) :
  Forall plain_rel (saved_rels (save_current_project_repo project_name repo_uri r)) ->
  NoDup (map (fun kv => format_opt (fst kv))
           (saved_rels (save_current_project_repo project_name repo_uri r))) ->
  load_rels (Some (saved_file (save_current_project_repo project_name repo_uri r)))
  = (map as_text (saved_rels (save_current_project_repo project_name repo_uri r)), []).
Proof.
  unfold save_current_project_repo. cbn [saved_rels saved_file].
  set (r' := rel_set project_name repo_uri r). intros Hplain Hnd.
  unfold load_rels, nl. rewrite split1_concat.
  - rewrite (load_lines r' Hplain Hnd [] []); [reflexivity|]. intros kv _ [].
  - intros H. apply map_eq_nil in H. now apply (rel_set_nonempty project_name repo_uri r).
  - rewrite Forall_map. eapply Forall_impl; [|exact Hplain].
    intros kv [Hk Hv]. apply plain_parts in Hk, Hv. unfold rel_line.
    rewrite !contains_char_app, (proj2 Hk), (proj2 Hv). reflexivity.
Qed.

Lemma relations_file_round_trip_witness :
  load_rels
    (Some (saved_file
             (save_current_project_repo None (Some "git@host:me/repo.git"%string)
                [(Some "acme"%string, Some "git@host:me/acme.git"%string)])))
  = ([(Some "acme"%string, Some "git@host:me/acme.git"%string);
      (Some "None"%string, Some "git@host:me/repo.git"%string)], []).
Proof.
  apply (relations_file_round_trip None (Some "git@host:me/repo.git"%string)
           [(Some "acme"%string, Some "git@host:me/acme.git"%string)]).
  - repeat constructor.
  - repeat constructor; cbn; intuition discriminate.
Defined.

(** ** The known hosts *)

Lemma existsb_eqb_In k (l : list string) : existsb (String.eqb k) l = true <-> In k l.
Proof.
  rewrite existsb_exists. split.
  - intros [x [Hin Hx]]. apply String.eqb_eq in Hx. now subst.
  - intros Hin. exists k. split; [exact Hin | apply String.eqb_refl].
Qed.

Lemma add_host_keys_appends (ks : list string) :
  forall l,
    exists extra,
      fold_left add_host_key ks l = l ++ extra
      /\ incl extra ks
      /\ Forall (fun k => In k (l ++ extra)) ks.
Proof.
  induction ks as [|k ks IH]; intros l.
  - exists []. rewrite app_nil_r. repeat split; [apply incl_refl | constructor].
  - cbn [fold_left]. unfold add_host_key at 2.
    destruct (existsb (String.eqb k) l) eqn:E.
    + destruct (IH l) as [extra [Heq [Hincl Hall]]].
      exists extra. split; [exact Heq|]. split; [now apply incl_tl|].
      constructor; [|exact Hall].
      apply in_or_app. left. now apply existsb_eqb_In.
    + destruct (IH (l ++ [k])) as [extra [Heq [Hincl Hall]]].
      exists (k :: extra). rewrite <- app_assoc in Heq, Hall. cbn [app] in Heq, Hall.
      split; [exact Heq|]. split.
      * intros x [<-|Hx]; [now left | right; now apply Hincl].
      * constructor; [|exact Hall]. apply in_or_app. right. now left.
Qed.

Lemma add_host_keys_known (ks l : list string) :
  Forall (fun k => In k l) ks -> fold_left add_host_key ks l = l.
Proof.
  induction 1 as [|k ks Hk Hks IH]; [reflexivity|].
  cbn [fold_left]. unfold add_host_key at 2.
  rewrite (proj2 (existsb_eqb_In k l) Hk). exact IH.
Qed.

(** X18: the merge of the scanned host keys into [known_hosts].  The
    lines the file had stay where they were, new keys follow them, and
    merging the same keys a second time changes nothing: no key is
    written twice. *)
Theorem merge_known_hosts_idempotent (hosts keys : string) :
  merge_known_hosts (merge_known_hosts hosts keys) keys = merge_known_hosts hosts keys
  /\ exists extra,
       py_split nl (merge_known_hosts hosts keys) = py_split nl hosts ++ extra
       /\ incl extra (py_split nl keys).
Proof.
  unfold merge_known_hosts.
  destruct (add_host_keys_appends (py_split nl keys) (py_split nl hosts))
    as [extra [Heq [Hincl Hall]]].
  rewrite Heq.
  assert (Hsplit : py_split nl (String.concat nl (py_split nl hosts ++ extra))
                   = py_split nl hosts ++ extra).
  { unfold nl at 1 2. apply split1_concat.
    - intros H. apply app_eq_nil in H. destruct H as [H _].
      now apply (split_from_nonempty nl hosts O EmptyString).
    - apply Forall_app. split.
      + apply (split1_parts (ascii_of_nat 10) hosts EmptyString eq_refl).
      + pose proof (split1_parts (ascii_of_nat 10) keys EmptyString eq_refl) as Hk.
        rewrite Forall_forall in Hk |- *. intros x Hx. apply Hk, Hincl, Hx. }
  split.
  - rewrite Hsplit. now rewrite add_host_keys_known.
  - exists extra. split; [exact Hsplit | exact Hincl].
Qed.

(** ** The summary of a Scanner issue *)

Lemma string_leb_trans (a b c : string) :
  (a <=? b)%string = true -> (b <=? c)%string = true -> (a <=? c)%string = true.
Proof.
  unfold String.leb. revert b c.
  induction a as [|x a IH]; intros b c Hab Hbc.
  - destruct c; reflexivity.
  - destruct b as [|y b]; [discriminate|].
    destruct c as [|z c]; [discriminate|].
    cbn [String.compare] in *.
    destruct (Ascii.compare x y) eqn:Exy; try discriminate.
    + apply Ascii.compare_eq_iff in Exy. subst y.
      destruct (Ascii.compare x z); [now apply (IH b c) | reflexivity | discriminate].
    + destruct (Ascii.compare y z) eqn:Eyz; try discriminate.
      * apply Ascii.compare_eq_iff in Eyz. subst z. now rewrite Exy.
      * unfold Ascii.compare in *. rewrite N.compare_lt_iff in Exy, Eyz.
        assert (H : (N_of_ascii x ?= N_of_ascii z)%N = Lt)
          by (apply N.compare_lt_iff; lia).
        now rewrite H.
Qed.

Lemma string_leb_flip (a b : string) : (a <=? b)%string = false -> (b <=? a)%string = true.
Proof. intros H. destruct (String.leb_total a b) as [H'|H']; congruence. Qed.

Lemma insert_by_name_perm kv l : Permutation (insert_by_name kv l) (kv :: l).
Proof.
  induction l as [|kv' l IH]; [reflexivity|].
  cbn [insert_by_name]. destruct (fst kv <=? fst kv')%string; [reflexivity|].
  rewrite IH. apply perm_swap.
Qed.

Lemma sort_by_name_perm l : Permutation (sort_by_name l) l.
Proof.
  induction l as [|kv l IH]; [reflexivity|].
  cbn [sort_by_name fold_right]. fold (sort_by_name l).
  rewrite insert_by_name_perm. now constructor.
Qed.

Lemma insert_by_name_sorted kv l :
  StronglySorted (fun a b : string * value => (fst a <=? fst b)%string = true) l ->
  StronglySorted (fun a b : string * value => (fst a <=? fst b)%string = true)
    (insert_by_name kv l).
Proof.
  induction 1 as [|kv' l Hl IH Hall]; cbn [insert_by_name].
  - repeat constructor.
  - destruct (fst kv <=? fst kv')%string eqn:E.
    + constructor; [now constructor|]. constructor; [exact E|].
      eapply Forall_impl; [|exact Hall]. intros x Hx. cbv beta in *.
      now apply (string_leb_trans _ (fst kv')).
    + constructor; [exact IH|].
      apply (Permutation_Forall (Permutation_sym (insert_by_name_perm kv l))).
      constructor; [now apply string_leb_flip | exact Hall].
Qed.

Lemma sort_by_name_strongly_sorted l :
  StronglySorted (fun a b : string * value => (fst a <=? fst b)%string = true)
    (sort_by_name l).
Proof.
  induction l as [|kv l IH]; [constructor|].
  cbn [sort_by_name fold_right]. now apply insert_by_name_sorted.
Qed.

Lemma filter_strongly_sorted {A : Type} (R : A -> A -> Prop) (f : A -> bool) l :
  StronglySorted R l -> StronglySorted R (filter f l).
Proof.
  induction 1 as [|x l Hl IH Hall]; cbn [filter]; [constructor|].
  destruct (f x); [|exact IH]. constructor; [exact IH|].
  rewrite Forall_forall in Hall |- *. intros y Hy. apply Hall.
  apply filter_In in Hy. now destruct Hy.
Qed.

Lemma NoDup_keys_filter {A : Type} (f : string * A -> bool) (l : list (string * A)) :
  NoDup (keys l) -> NoDup (keys (filter f l)).
Proof.
  unfold keys. induction l as [|x l IH]; intros H; [constructor|].
  cbn [map] in H. inversion H as [|? ? Hx Hl]; subst. cbn [filter].
  destruct (f x); [|now apply IH]. cbn [map]. constructor; [|now apply IH].
  intros Hin. apply Hx. apply in_map_iff in Hin.
  destruct Hin as [y [Hy Hyin]]. apply filter_In in Hyin.
  apply in_map_iff. exists y. now split.
Qed.

Lemma sorted_unique (l1 : LogEntry) :
  forall l2,
    StronglySorted (fun a b : string * value => (fst a <=? fst b)%string = true) l1 ->
    StronglySorted (fun a b : string * value => (fst a <=? fst b)%string = true) l2 ->
    Permutation l1 l2 ->
    NoDup (keys l1) ->
    l1 = l2.
Proof.
  induction l1 as [|x l1 IH]; intros l2 H1 H2 Hperm Hnd.
  - apply Permutation_nil in Hperm. now subst.
  - destruct l2 as [|y l2].
    { symmetry in Hperm. apply Permutation_nil in Hperm. discriminate. }
    apply StronglySorted_inv in H1, H2.
    destruct H1 as [H1 Hx], H2 as [H2 Hy].
    unfold keys in Hnd. cbn [map] in Hnd. inversion Hnd as [|? ? Hxk Hnd1]; subst.
    assert (Hxy : x = y).
    { assert (Hin1 : In x (y :: l2))
        by (eapply Permutation_in; [exact Hperm | now left]).
      assert (Hin2 : In y (x :: l1))
        by (eapply Permutation_in; [symmetry; exact Hperm | now left]).
      destruct Hin1 as [Heq|Hin1]; [now symmetry|].
      destruct Hin2 as [Heq|Hin2]; [exact Heq|].
      rewrite Forall_forall in Hx, Hy.
      pose proof (String.leb_antisym _ _ (Hx y Hin2) (Hy x Hin1)) as Hk.
      exfalso. apply Hxk. rewrite Hk. now apply in_map. }
    subst y. f_equal. apply IH; try assumption.
    now apply Permutation_cons_inv in Hperm.
Qed.

(** X19: the summary of a Scanner issue depends on the shown fields only,
    not on the order in which the dict yields them: two entries that hold
    the same fields apart from [messages], [tool] and [md5] get the same
    summary, whatever [str()] makes of the values. *)
Theorem summary_ignores_order (py_str : value -> string) (r r' : LogEntry) :
  NoDup (keys r) ->
  Permutation (shown r) (shown r') ->
  getScanIssueSummary py_str r = getScanIssueSummary py_str r'.
Proof.
  intros Hnd Hperm. unfold getScanIssueSummary. do 2 f_equal.
  apply sorted_unique.
  - apply filter_strongly_sorted, sort_by_name_strongly_sorted.
  - apply filter_strongly_sorted, sort_by_name_strongly_sorted.
  - rewrite (Permutation_filter_same _ _ _ (sort_by_name_perm r)).
    rewrite (Permutation_filter_same _ _ _ (sort_by_name_perm r')).
    exact Hperm.
  - apply NoDup_keys_filter.
    eapply Permutation_NoDup; [|exact Hnd].
    unfold keys. apply Permutation_map. symmetry. apply sort_by_name_perm.
Qed.

Lemma summary_ignores_order_witness :
  getScanIssueSummary str_scalar summary_sample
  = getScanIssueSummary str_scalar summary_sample'.
Proof.
  apply (summary_ignores_order str_scalar summary_sample summary_sample').
  - repeat constructor; cbn; intuition discriminate.
  - apply Permutation_sym.
    apply (Permutation_cons_app
             [("url", VStr "http://example.com/"); ("severity", VStr "High")] []).
    reflexivity.
Defined.

(** ** Storing an entry a second time *)

Lemma write_field_state P w d k v es :
  fs_get d (fs w) = Some (Dir es) ->
  Forall is_file es ->
  scalar v ->
  exists c,
    write_field P d (k, v) w
    = (Ok tt,
       mkWorld (repo_path w)
         (fs_replace d (Dir (dir_link P k (File (file_text v)) es)) (fs w))
         (user_name w)
         (dict_set (path_key (path_join d k)) (file_text v) (index w))
         (head w) (remote w) c).
Proof.
  intros Hd Hfiles Hv. unfold write_field.
  rewrite (coerce_scalar P v Hv).
  erewrite bind_ok;
    [|apply (write_file_ok P w d k (file_text v) es Hd);
      intros ces; now apply files_hold_no_dir].
  set (w1 := set_fs _ w).
  assert (Hfile : fs_get (path_join d k) (fs w1) = Some (File (file_text v))).
  { erewrite fs_get_child.
    - apply dict_get_dir_link_same.
    - subst w1. cbn [fs set_fs]. eapply fs_get_replace. exact Hd. }
  destruct (git_add_step w1 _ _ Hfile) as [c Hrun].
  erewrite bind_ok; [|exact Hrun].
  exists c. reflexivity.
Qed.

Lemma write_fields_state P d m :
  scalar_fields m ->
  forall w es,
    fs_get d (fs w) = Some (Dir es) ->
    Forall is_file es ->
    exists c,
      forM_ (write_field P d) m w
      = (Ok tt,
         mkWorld (repo_path w)
           (fs_replace d (Dir (link_fields P m es)) (fs w))
           (user_name w) (stage_fields d m (index w))
           (head w) (remote w) c).
Proof.
  induction 1 as [|[k v] m Hv Hm IH]; intros w es Hd Hfiles.
  - exists (console w). cbn [forM_ link_fields stage_fields fold_left].
    rewrite (fs_replace_same d (fs w) (Dir es) Hd). now destruct w.
  - cbn [snd] in Hv.
    destruct (write_field_state P w d k v es Hd Hfiles Hv) as [c1 Hrun].
    cbn [forM_]. erewrite bind_ok; [|exact Hrun].
    set (w1 := mkWorld _ _ _ _ _ _ c1).
    assert (Hd1 : fs_get d (fs w1) = Some (Dir (dir_link P k (File (file_text v)) es)))
      by (subst w1; cbn [fs]; eapply fs_get_replace; exact Hd).
    destruct (IH w1 _ Hd1) as [c2 Hrun2].
    { apply Forall_dir_link; [exact I | exact Hfiles]. }
    exists c2. rewrite Hrun2. subst w1. cbn [repo_path fs user_name index head remote].
    erewrite fs_replace_replace by exact Hd. reflexivity.
Qed.

Lemma link_fields_again P (m : LogEntry) :
  forall es,
    (forall k v, In (k, v) m -> dict_get k es = Some (File (file_text v))) ->
    link_fields P m es = es.
Proof.
  unfold link_fields. induction m as [|[k v] m IH]; intros es H; [reflexivity|].
  cbn [fold_left fst snd].
  assert (Hk : dict_get k es = Some (File (file_text v))) by (apply H; now left).
  assert (Heq : dir_link P k (File (file_text v)) es = es).
  { unfold dir_link.
    rewrite (proj2 (has_key_get k es) (ex_intro _ _ Hk)). now apply dict_set_same. }
  rewrite Heq. apply IH. intros k' v' Hin. apply H. now right.
Qed.

Lemma stage_fields_again d (m : LogEntry) :
  forall idx,
    (forall k v, In (k, v) m ->
                 dict_get (path_key (path_join d k)) idx = Some (file_text v)) ->
    stage_fields d m idx = idx.
Proof.
  unfold stage_fields. induction m as [|[k v] m IH]; intros idx H; [reflexivity|].
  cbn [fold_left fst snd].
  rewrite (dict_set_same _ _ idx (H k v (or_introl eq_refl))).
  apply IH. intros k' v' Hin. apply H. now right.
Qed.

Lemma append_cancel_l (a b c : string) : (a ++ b)%string = (a ++ c)%string -> b = c.
Proof. induction a as [|x a IH]; cbn; [trivial|]. intros [= H]. now apply IH. Qed.

Lemma path_key_child_inj h k k' :
  path_key (path_join [h] k) = path_key (path_join [h] k') -> k = k'.
Proof.
  unfold path_key, path_join. cbn [app String.concat]. intros H.
  apply append_cancel_l in H. now injection H.
Qed.

Lemma stage_fields_keeps h (m : LogEntry) k t :
  ~ In k (keys m) ->
  forall idx,
    dict_get (path_key (path_join [h] k)) idx = Some t ->
    dict_get (path_key (path_join [h] k)) (stage_fields [h] m idx) = Some t.
Proof.
  unfold stage_fields, keys. induction m as [|[f x] m IH]; intros Hnotin idx H; [exact H|].
  cbn [fold_left fst snd]. apply IH.
  - intros Hin. apply Hnotin. now right.
  - rewrite dict_get_set_other; [exact H|].
    intros Hk. apply Hnotin. left. cbn [fst]. now apply (path_key_child_inj h).
Qed.

Lemma stage_fields_get h (m : LogEntry) :
  NoDup (keys m) ->
  forall idx k v,
    In (k, v) m ->
    dict_get (path_key (path_join [h] k)) (stage_fields [h] m idx) = Some (file_text v).
Proof.
  induction m as [|[f x] m IH]; intros Hnd idx k v Hin; [destruct Hin|].
  unfold keys in Hnd. cbn [map fst] in Hnd. inversion Hnd as [|? ? Hnotin Hnd']; subst.
  change (stage_fields [h] ((f, x) :: m) idx)
    with (stage_fields [h] m (dict_set (path_key (path_join [h] f)) (file_text x) idx)).
  destruct Hin as [Heq|Hin].
  - injection Heq as -> ->.
    apply stage_fields_keeps; [exact Hnotin | apply dict_get_set_same].
  - now apply IH.
Qed.

Lemma same_content_refl (a : list (string * string)) : same_content a a = true.
Proof.
  unfold same_content. apply forallb_forall. intros k _.
  destruct (dict_get k a); [apply String.eqb_refl | reflexivity].
Qed.

Lemma add_repeater_entry_again P r w root h es :
  dict_get "md5" r = Some (VStr h) ->
  scalar_fields r ->
  repo_path w = Some root ->
  fs_get [h] (fs w) = Some (Dir es) ->
  Forall is_file es ->
  (forall k v, In (k, v) r -> dict_get k es = Some (File (file_text v))) ->
  (forall k v, In (k, v) r ->
               dict_get (path_key (path_join [h] k)) (index w) = Some (file_text v)) ->
  nothing_staged w = true ->
  exists c,
    add_repeater_entry P r w
    = (Raise (Exception "Error on call: ['git', 'commit', '-m', 'Added Repeater entry']"),
       set_console c w).
Proof.
  intros Hmd5 Hscalar Hroot Hdir Hfiles Hes Hidx Hclean.
  unfold add_repeater_entry, getattr. rewrite Hmd5.
  erewrite bind_ok; [|reflexivity].
  erewrite bind_ok; [|exact (join_repo_eq w root h Hroot)].
  erewrite bind_ok; [|apply os_path_exists_eq]. rewrite Hdir.
  erewrite bind_ok; [|reflexivity].
  unfold write_entry.
  destruct (write_fields_state P [h] r Hscalar w es Hdir Hfiles) as [c Hrun].
  erewrite bind_ok.
  2:{ erewrite bind_ok; [|apply os_path_exists_eq]. rewrite Hdir.
      erewrite bind_ok; [|reflexivity]. exact Hrun. }
  rewrite (link_fields_again P r es Hes).
  rewrite (fs_replace_same [h] (fs w) (Dir es) Hdir).
  rewrite (stage_fields_again [h] r (index w) Hidx).
  fold (commit_cmd "Added Repeater entry").
  set (w2 := mkWorld _ _ _ _ _ _ c).
  destruct (commit_step "Added Repeater entry" w2) as [c2 Hcommit].
  assert (Hns : nothing_staged w2 = true) by exact Hclean.
  rewrite Hns in Hcommit.
  exists c2. erewrite bind_raise.
  - subst w2. destruct w. reflexivity.
  - rewrite Hcommit. now destruct (user_name w2).
Qed.

Lemma add_repeater_entry_first P r w root es0 h w1 :
  dict_get "md5" r = Some (VStr h) ->
  scalar_fields r ->
  repo_path w = Some root ->
  fs w = Dir es0 ->
  dict_get h es0 = None ->
  add_repeater_entry P r w = (Ok tt, w1) ->
  repo_path w1 = Some root
  /\ fs_get [h] (fs w1) = Some (Dir (link_fields P r []))
  /\ index w1 = stage_fields [h] r (index w)
  /\ head w1 = index w1.
Proof.
  intros Hmd5 Hscalar Hroot Hfs Hfresh.
  unfold add_repeater_entry, getattr. rewrite Hmd5.
  erewrite bind_ok; [|reflexivity].
  erewrite bind_ok; [|exact (join_repo_eq w root h Hroot)].
  assert (Hd0 : fs_get [] (fs w) = Some (Dir es0)) by (now rewrite Hfs).
  erewrite bind_ok; [|apply os_path_exists_eq].
  change [h] with (path_join [] h).
  rewrite (fs_get_child [] h _ es0 Hd0), Hfresh. cbv beta iota.
  erewrite bind_ok; [|exact (os_mkdir_ok P w [] h es0 Hd0 Hfresh)].
  set (wa := set_fs _ w).
  assert (Hha : fs_get (path_join [] h) (fs wa) = Some (Dir [])).
  { subst wa. cbn [fs set_fs fs_replace path_join app fs_get].
    now rewrite dict_get_dir_link_same. }
  unfold write_entry.
  destruct (write_fields_state P (path_join [] h) r Hscalar wa [] Hha (Forall_nil _))
    as [c Hrun].
  erewrite bind_ok.
  2:{ erewrite bind_ok; [|apply os_path_exists_eq]. rewrite Hha.
      erewrite bind_ok; [|reflexivity]. exact Hrun. }
  fold (commit_cmd "Added Repeater entry").
  set (wb := mkWorld _ _ _ _ _ _ c).
  destruct (commit_step "Added Repeater entry" wb) as [c2 Hcommit].
  destruct (user_name wb); [destruct (nothing_staged wb)|].
  - erewrite bind_raise; [|exact Hcommit]. discriminate.
  - erewrite bind_ok; [|exact Hcommit]. intros [= <-].
    subst wb wa. cbn [repo_path fs index head set_console set_head set_fs].
    split; [exact Hroot|]. split; [|split; reflexivity].
    eapply fs_get_replace. exact Hha.
  - erewrite bind_raise; [|exact Hcommit]. discriminate.
Qed.

(** X20: the same entry stored a second time.  After [add_repeater_entry]
    has stored an entry of scalar fields, storing it again writes the
    same files and stages nothing new, so the commit exits with status 1
    and the call raises; the working copy, the index and the last commit
    stay as the first call left them. *)
Theorem add_repeater_entry_twice_raises (P : platform) (r : LogEntry) (w w1 : world)
  (root h : string) (es0 : list (string * node)) :
  NoDup (keys r) ->
  dict_get "md5" r = Some (VStr h) ->
  scalar_fields r ->
  repo_path w = Some root ->
  fs w = Dir es0 ->
  dict_get h es0 = None ->
  add_repeater_entry P r w = (Ok tt, w1) ->
  fst (add_repeater_entry P r w1)
  = Raise (Exception "Error on call: ['git', 'commit', '-m', 'Added Repeater entry']")
  /\ fs (snd (add_repeater_entry P r w1)) = fs w1
  /\ index (snd (add_repeater_entry P r w1)) = index w1
  /\ head (snd (add_repeater_entry P r w1)) = head w1.
Proof.
  intros Hnd Hmd5 Hscalar Hroot Hfs Hfresh Hfirst.
  destruct (add_repeater_entry_first P r w root es0 h w1 Hmd5 Hscalar Hroot Hfs Hfresh Hfirst)
    as [Hroot1 [Hdir1 [Hidx1 Hhead1]]].
  destruct (add_repeater_entry_again P r w1 root h (link_fields P r [])) as [c Hrun];
    try assumption.
  - apply link_fields_files. constructor.
  - intros k v Hin. rewrite (link_fields_get P r Hnd).
    now rewrite (In_dict_get k v r Hnd Hin).
  - intros k v Hin. rewrite Hidx1. now apply stage_fields_get.
  - unfold nothing_staged. rewrite Hhead1. apply same_content_refl.
  - rewrite Hrun. cbn [fst snd]. repeat split.
Qed.

Lemma add_repeater_entry_twice_raises_witness :
  fst (add_repeater_entry creation_order repeater_entry
         (snd (add_repeater_entry creation_order repeater_entry clean_copy)))
  = Raise (Exception "Error on call: ['git', 'commit', '-m', 'Added Repeater entry']").
Proof.
  refine (proj1 (add_repeater_entry_twice_raises creation_order repeater_entry clean_copy
                   (snd (add_repeater_entry creation_order repeater_entry clean_copy))
                   "/home/u/.burp-git-bridge/repo" "af9df08a58aa738eadf1f2c2db6d53cc" []
                   _ eq_refl _ eq_refl eq_refl eq_refl _)).
  - repeat constructor; cbn; intuition discriminate.
  - repeat constructor.
  - vm_compute. reflexivity.
Defined.

(** ** A stored entry in the listing *)

Lemma add_repeater_entry_fresh P r w root es0 h :
  dict_get "md5" r = Some (VStr h) ->
  scalar_fields r ->
  repo_path w = Some root ->
  fs w = Dir es0 ->
  dict_get h es0 = None ->
  exists res w',
    add_repeater_entry P r w = (res, w')
    /\ repo_path w' = Some root
    /\ fs w' = Dir (insert_at (dir_slot P h (keys es0)) (h, Dir (link_fields P r [])) es0).
Proof.
  intros Hmd5 Hscalar Hroot Hfs Hfresh.
  unfold add_repeater_entry, getattr. rewrite Hmd5.
  erewrite bind_ok; [|reflexivity].
  erewrite bind_ok; [|exact (join_repo_eq w root h Hroot)].
  assert (Hd0 : fs_get [] (fs w) = Some (Dir es0)) by (now rewrite Hfs).
  erewrite bind_ok; [|apply os_path_exists_eq].
  change [h] with (path_join [] h).
  rewrite (fs_get_child [] h _ es0 Hd0), Hfresh. cbv beta iota.
  erewrite bind_ok; [|exact (os_mkdir_ok P w [] h es0 Hd0 Hfresh)].
  set (wa := set_fs _ w).
  assert (Hha : fs_get (path_join [] h) (fs wa) = Some (Dir [])).
  { subst wa. cbn [fs set_fs fs_replace path_join app fs_get].
    now rewrite dict_get_dir_link_same. }
  unfold write_entry.
  destruct (write_fields_state P (path_join [] h) r Hscalar wa [] Hha (Forall_nil _))
    as [c Hrun].
  erewrite bind_ok.
  2:{ erewrite bind_ok; [|apply os_path_exists_eq]. rewrite Hha.
      erewrite bind_ok; [|reflexivity]. exact Hrun. }
  fold (commit_cmd "Added Repeater entry").
  set (wb := mkWorld _ _ _ _ _ _ c).
  assert (Hfsb : fs wb
                 = Dir (insert_at (dir_slot P h (keys es0)) (h, Dir (link_fields P r [])) es0)).
  { subst wb wa. cbn [fs set_fs path_join app fs_replace].
    rewrite dict_get_dir_link_same. cbn [fs_replace].
    now rewrite dict_set_dir_link_fresh. }
  destruct (commit_step "Added Repeater entry" wb) as [c2 Hcommit].
  destruct (user_name wb); [destruct (nothing_staged wb)|].
  - erewrite bind_raise; [|exact Hcommit].
    eexists. eexists. split; [reflexivity|]. split; [exact Hroot | exact Hfsb].
  - erewrite bind_ok; [|exact Hcommit].
    eexists. eexists. split; [reflexivity|]. split; [exact Hroot | exact Hfsb].
  - erewrite bind_raise; [|exact Hcommit].
    eexists. eexists. split; [reflexivity|]. split; [exact Hroot | exact Hfsb].
Qed.

Lemma entries_walk_app P a b :
  entries_walk P (a ++ b)
  = match entries_walk P a with
    | (l, None) => let '(l', stop) := entries_walk P b in (l ++ l', stop)
    | (l, Some e) => (l, Some e)
    end.
Proof.
  induction a as [|[name n] a IH].
  - cbn [app entries_walk]. now destruct (entries_walk P b).
  - cbn [app entries_walk].
    destruct (name =? ".git")%string; [exact IH|].
    destruct (os_path_isdir_node n); cbn [negb]; [|exact IH].
    destruct (load_entry P n) as [entry|x]; [|reflexivity].
    rewrite IH. destruct (entries_walk P a) as [l [e|]]; [reflexivity|].
    now destruct (entries_walk P b).
Qed.

Lemma entries_walk_split P a b l0 :
  entries_walk P (a ++ b) = (l0, None) ->
  exists la lb,
    entries_walk P a = (la, None) /\ entries_walk P b = (lb, None) /\ l0 = la ++ lb.
Proof.
  rewrite entries_walk_app.
  destruct (entries_walk P a) as [la [e|]]; [discriminate|].
  destruct (entries_walk P b) as [lb stop]. intros [= <- ->].
  now exists la, lb.
Qed.

(** X21: a stored entry in the listing.  When [entries()] reads a working
    copy without an exception and [add_repeater_entry] then stores an
    entry of scalar fields under a new name, [entries()] afterwards yields
    what it yielded before, in the same order, and the stored entry once
    among it, read back as the texts of its fields. *)
Theorem stored_entry_is_listed (P : platform) (r : LogEntry) (w : world)
  (root h : string) (es0 : list (string * node)) (l0 : list LogEntry) :
  NoDup (keys r) ->
  dict_get "md5" r = Some (VStr h) ->
  h <> ".git"%string ->
  scalar_fields r ->
  repo_path w = Some root ->
  root <> EmptyString ->
  fs w = Dir es0 ->
  dict_get h es0 = None ->
  entries P w = (l0, None) ->
  exists res w' r' before after,
    add_repeater_entry P r w = (res, w')
    /\ l0 = before ++ after
    /\ entries P w' = (before ++ r' :: after, None)
    /\ forall k, dict_get k r' = option_map (fun v => VStr (file_text v)) (dict_get k r).
Proof.
  intros Hnd Hmd5 Hgit Hscalar Hroot Hne Hfs Hfresh Hbefore.
  destruct (add_repeater_entry_fresh P r w root es0 h Hmd5 Hscalar Hroot Hfs Hfresh)
    as [res [w' [Hrun [Hroot' Hfs']]]].
  destruct (load_scalar_fields P r Hnd) as [r' [Hload Hrb]].
  unfold entries in Hbefore |- *. rewrite Hroot, Hfs in Hbefore.
  apply String.eqb_neq in Hne. rewrite Hne in Hbefore.
  rewrite <- (firstn_skipn (dir_slot P h (keys es0)) es0) in Hbefore.
  destruct (entries_walk_split P _ _ l0 Hbefore) as [la [lb [Ha [Hb Hl0]]]].
  exists res, w', r', la, lb.
  split; [exact Hrun|]. split; [exact Hl0|]. split.
  - rewrite Hroot', Hfs', Hne. unfold insert_at.
    rewrite entries_walk_app, Ha. cbn [entries_walk].
    apply String.eqb_neq in Hgit. rewrite Hgit. cbn [os_path_isdir_node negb].
    rewrite Hload, Hb. reflexivity.
  - intros k. rewrite (Hrb k).
    destruct (dict_get k r) eqn:E; [reflexivity|].
    cbn [option_map empty_entry dict_get].
    destruct ("md5" =? k)%string eqn:E'; [|reflexivity].
    apply String.eqb_eq in E'. subst k. congruence.
Qed.

Lemma stored_entry_is_listed_witness :
  exists res w' r' before after,
    add_repeater_entry creation_order repeater_entry clean_copy = (res, w')
    /\ [] = before ++ after
    /\ entries creation_order w' = (before ++ r' :: after, None)
    /\ forall k, dict_get k r'
                 = option_map (fun v => VStr (file_text v)) (dict_get k repeater_entry).
Proof.
  apply (stored_entry_is_listed creation_order repeater_entry clean_copy
           "/home/u/.burp-git-bridge/repo" "af9df08a58aa738eadf1f2c2db6d53cc" []).
  - repeat constructor; cbn; intuition discriminate.
  - reflexivity.
  - discriminate.
  - repeat constructor.
  - reflexivity.
  - discriminate.
  - reflexivity.
  - reflexivity.
  - reflexivity.
Defined.
